(** * Shapes in a drawing part: a shallow embedding of shape.go

    The development follows shape.go of package excelize function by
    function: [parseShapeOptions], [AddShape], [addDrawingShape] and
    [setShapeRef].  Go values are modelled as the code has them: [int] is a
    64-bit two's complement integer carried in [Z], [float64] is an IEEE 754
    binary64 number in the representation of [SpecFloat], a [string] is a
    sequence of bytes, a pointer that may be [nil] is an [option], and the
    caller's [*Shape] is a location in a store of shape descriptions, because
    the code writes through that pointer. *)

From Stdlib Require Import ZArith String Ascii List Lia Bool.
From Stdlib Require Import SpecFloat.
From stdpp Require Import base tactics option list gmap strings.

Local Open Scope string_scope.
Local Open Scope list_scope.
Local Open Scope Z_scope.

(** ** Go's [int] *)

Module GoInt.

Definition min_int : Z := - 2 ^ 63.
Definition max_int : Z := 2 ^ 63 - 1.

(** Two's complement wrap-around of a mathematical integer into [int]. *)
Definition wrap (z : Z) : Z := (z + 2 ^ 63) mod 2 ^ 64 - 2 ^ 63.

Definition in_range (z : Z) : bool := (min_int <=? z) && (z <=? max_int).

Definition add (a b : Z) : Z := wrap (a + b).
Definition mul (a b : Z) : Z := wrap (a * b).

End GoInt.

(** ** Go's [float64] *)

Definition float64 : Type := spec_float.

Module F64.

Definition prec : Z := 53.
Definition emax : Z := 1024.

Definition mul : float64 -> float64 -> float64 := SFmul prec emax.
Definition eqb : float64 -> float64 -> bool := SFeqb.

(** [float64(n)] for an integer [n], rounding to nearest even. *)
Definition of_Z (n : Z) : float64 := binary_normalize prec emax n 0 false.

Definition zero : float64 := S754_zero false.
Definition one : float64 := Eval vm_compute in of_Z 1.

(** The integer part of a finite number, rounding toward zero. *)
Definition trunc (x : float64) : option Z :=
  match x with
  | S754_zero _ => Some 0
  | S754_finite s m e =>
      let v := match e with
               | Zneg p => Z.pos m / 2 ^ Z.pos p
               | _ => Z.pos m * 2 ^ e
               end in
      Some (if s then - v else v)
  | S754_infinity _ | S754_nan => None
  end.

(** [int(x)]: the integer part when [int] can hold it.  For the rest (not
    a number, infinite, out of range) the language leaves the value to the
    implementation, here [unrepresentable]. *)
Definition to_int (unrepresentable : float64 -> Z) (x : float64) : Z :=
  match trunc x with
  | Some z => if GoInt.in_range z then z else unrepresentable x
  | None => unrepresentable x
  end.

End F64.

(** ** Package strings and strconv *)

Module GoStrings.

Definition byte_val (c : ascii) : N := N_of_ascii c.

Definition isLower (c : ascii) : bool :=
  ((97 <=? byte_val c) && (byte_val c <=? 122))%N.

Definition isDigit (c : ascii) : bool :=
  ((48 <=? byte_val c) && (byte_val c <=? 57))%N.

Definition upperByte (c : ascii) : ascii :=
  if isLower c then ascii_of_N (byte_val c - 32) else c.

Fixpoint mapBytes (f : ascii -> ascii) (s : string) : string :=
  match s with
  | EmptyString => EmptyString
  | String c s' => String (f c) (mapBytes f s')
  end.

Fixpoint allBytes (p : ascii -> bool) (s : string) : bool :=
  match s with
  | EmptyString => true
  | String c s' => p c && allBytes p s'
  end.

Fixpoint filterBytes (p : ascii -> bool) (s : string) : string :=
  match s with
  | EmptyString => EmptyString
  | String c s' => if p c then String c (filterBytes p s') else filterBytes p s'
  end.

(** Bytes below [utf8.RuneSelf]. *)
Definition isASCII (s : string) : bool :=
  allBytes (fun c => (byte_val c <? 128)%N) s.

(** [strings.ToUpper].  On a string of ASCII bytes the letters a..z are
    mapped to A..Z; any other string goes through the Unicode mapping
    [unicodeUpper] of the run-time library. *)
Definition ToUpper (unicodeUpper : string -> string) (s : string) : string :=
  if isASCII s then mapBytes upperByte s else unicodeUpper s.

Fixpoint HasPrefix (s p : string) {struct p} : bool :=
  match p, s with
  | EmptyString, _ => true
  | String a p', String b s' => if Ascii.eqb a b then HasPrefix s' p' else false
  | String _ _, EmptyString => false
  end.

Fixpoint drop (n : nat) (s : string) : string :=
  match n, s with
  | O, _ => s
  | S n', String _ s' => drop n' s'
  | S _, EmptyString => EmptyString
  end.

Fixpoint take (n : nat) (s : string) : string :=
  match n, s with
  | O, _ => EmptyString
  | S n', String c s' => String c (take n' s')
  | S _, EmptyString => EmptyString
  end.

Definition TrimPrefix (s p : string) : string :=
  if HasPrefix s p then drop (String.length p) s else s.

Definition HasSuffix (s suf : string) : bool :=
  (String.length suf <=? String.length s)%nat &&
  String.eqb (drop (String.length s - String.length suf) s) suf.

Definition TrimSuffix (s suf : string) : string :=
  if HasSuffix s suf then take (String.length s - String.length suf) s else s.

(** [strings.ReplaceAll s old new] for a non-empty [old]: scanning from the
    left, every occurrence of [old] that does not overlap an earlier one is
    replaced.  [fuel] bounds the number of positions visited. *)
Fixpoint replaceFrom (fuel : nat) (s old new : string) : string :=
  match fuel with
  | O => s
  | S fuel' =>
      match s with
      | EmptyString => EmptyString
      | String c s' =>
          if HasPrefix s old
          then new +:+ replaceFrom fuel' (drop (String.length old) s) old new
          else String c (replaceFrom fuel' s' old new)
      end
  end.

Definition ReplaceAll (s old new : string) : string :=
  replaceFrom (String.length s) s old new.

(** [strconv.Itoa] *)
Definition digitByte (d : Z) : ascii := ascii_of_N (Z.to_N (48 + d)).

Fixpoint digitsOf (fuel : nat) (n : Z) (acc : string) : string :=
  match fuel with
  | O => acc
  | S fuel' =>
      let acc' := String (digitByte (n mod 10)) acc in
      if n / 10 =? 0 then acc' else digitsOf fuel' (n / 10) acc'
  end.

Definition Itoa (n : Z) : string :=
  if n <? 0 then String "-" (digitsOf 20 (- n) EmptyString)
  else digitsOf 20 n EmptyString.

(** [strconv.Atoi]: an optional sign and decimal digits.  A syntax error
    gives 0, a value outside [int] gives the nearest bound; the second
    component tells whether an error is returned with it. *)
Fixpoint digitsValue (s : string) (acc : Z) : option Z :=
  match s with
  | EmptyString => Some acc
  | String c s' =>
      if isDigit c then digitsValue s' (10 * acc + (Z.of_N (byte_val c) - 48))
      else None
  end.

Definition Atoi (s : string) : Z * bool :=
  let '(neg, body) :=
    match s with
    | String "-" s' => (true, s')
    | String "+" s' => (false, s')
    | _ => (false, s)
    end in
  match body with
  | EmptyString => (0, true)
  | _ =>
      match digitsValue body 0 with
      | None => (0, true)
      | Some v =>
          if neg then
            if 2 ^ 63 <? v then (GoInt.min_int, true) else (- v, false)
          else
            if 2 ^ 63 <=? v then (GoInt.max_int, true) else (v, false)
      end
  end.

End GoStrings.

Import GoStrings.

(** ** The data of a shape description

    One module per struct, so that the fields keep the names they have in
    the code.  The structs are declared outside shape.go; only the fields
    shape.go reads or writes are kept, with the types its expressions ask
    for: [Width] and [Height] are integers converted with [float64(...)],
    the scales and the font size are [float64], the offsets are [int], the
    flags and the line width are pointers. *)

Module Font.
Record t : Type := Build {
  Bold : bool;
  Italic : bool;
  Underline : string;
  Family : string;
  Size : float64;
  Color : string
}.
(** [Font{}] *)
Definition empty : t := Build false false "" "" F64.zero "".
End Font.

Module RichTextRun.
Record t : Type := Build {
  Font : option Font.t;
  Text : string
}.
End RichTextRun.

Module Fill.
Record t : Type := Build {
  Color : list string;
  Pattern : Z
}.
End Fill.

Module ShapeLine.
Record t : Type := Build {
  Color : string;
  Width : option float64
}.
Definition setWidth (w : option float64) (l : t) : t := Build (Color l) w.
End ShapeLine.

Module GraphicOptions.
Record t : Type := Build {
  PrintObject : option bool;
  Locked : option bool;
  OffsetX : Z;
  OffsetY : Z;
  ScaleX : float64;
  ScaleY : float64;
  Positioning : string
}.
Definition setPrintObject (v : option bool) (g : t) : t :=
  Build v (Locked g) (OffsetX g) (OffsetY g) (ScaleX g) (ScaleY g) (Positioning g).
Definition setLocked (v : option bool) (g : t) : t :=
  Build (PrintObject g) v (OffsetX g) (OffsetY g) (ScaleX g) (ScaleY g) (Positioning g).
Definition setScaleX (v : float64) (g : t) : t :=
  Build (PrintObject g) (Locked g) (OffsetX g) (OffsetY g) v (ScaleY g) (Positioning g).
Definition setScaleY (v : float64) (g : t) : t :=
  Build (PrintObject g) (Locked g) (OffsetX g) (OffsetY g) (ScaleX g) v (Positioning g).
End GraphicOptions.

Module Shape.
Record t : Type := Build {
  Macro : string;
  Type_ : string;
  Width : Z;
  Height : Z;
  Format : GraphicOptions.t;
  Fill : Fill.t;
  Line : ShapeLine.t;
  Paragraph : list RichTextRun.t
}.
Definition setWidth (v : Z) (s : t) : t :=
  Build (Macro s) (Type_ s) v (Height s) (Format s) (Fill s) (Line s) (Paragraph s).
Definition setHeight (v : Z) (s : t) : t :=
  Build (Macro s) (Type_ s) (Width s) v (Format s) (Fill s) (Line s) (Paragraph s).
Definition setFormat (v : GraphicOptions.t) (s : t) : t :=
  Build (Macro s) (Type_ s) (Width s) (Height s) v (Fill s) (Line s) (Paragraph s).
Definition setLine (v : ShapeLine.t) (s : t) : t :=
  Build (Macro s) (Type_ s) (Width s) (Height s) (Format s) (Fill s) v (Paragraph s).
Definition setParagraph (v : list RichTextRun.t) (s : t) : t :=
  Build (Macro s) (Type_ s) (Width s) (Height s) (Format s) (Fill s) (Line s) v.
End Shape.

(** ** The markup of a drawing part *)

Module attrValString.
Record t : Type := Build { Val : option string }.
End attrValString.

Module aScrgbClr.
Record t : Type := Build { R : float64; G : float64; B : float64 }.
End aScrgbClr.

Module aRef.
Record t : Type := Build {
  Idx : Z;
  ScrgbClr : option aScrgbClr.t;
  SrgbClr : option attrValString.t
}.
End aRef.

Module aFontRef.
Record t : Type := Build { Idx : string; SchemeClr : option attrValString.t }.
End aFontRef.

Module xdrStyle.
Record t : Type := Build {
  LnRef : aRef.t;
  FillRef : aRef.t;
  EffectRef : aRef.t;
  FontRef : aFontRef.t
}.
End xdrStyle.

Module aSolidFill.
Record t : Type := Build { SrgbClr : option attrValString.t }.
End aSolidFill.

Module xlsxCTTextFont.
Record t : Type := Build { Typeface : string }.
End xlsxCTTextFont.

Module aRPr.
Record t : Type := Build {
  I : bool;
  B : bool;
  Lang : string;
  AltLang : string;
  U : string;
  Sz : float64;
  Latin : option xlsxCTTextFont.t;
  SolidFill : option aSolidFill.t
}.
Definition setSolidFill (v : option aSolidFill.t) (r : t) : t :=
  Build (I r) (B r) (Lang r) (AltLang r) (U r) (Sz r) (Latin r) v.
End aRPr.

Module aR.
Record t : Type := Build { RPr : aRPr.t; T : string }.
End aR.

Module aEndParaRPr.
Record t : Type := Build { Lang : string }.
End aEndParaRPr.

Module aP.
Record t : Type := Build { R : aR.t; EndParaRPr : aEndParaRPr.t }.
End aP.

Module aBodyPr.
Record t : Type := Build {
  VertOverflow : string;
  HorzOverflow : string;
  Wrap : string;
  RtlCol : bool;
  Anchor : string
}.
End aBodyPr.

Module xdrTxBody.
Record t : Type := Build { BodyPr : aBodyPr.t; P : list aP.t }.
End xdrTxBody.

Module xlsxCNvPr.
Record t : Type := Build { ID : Z; Name : string }.
End xlsxCNvPr.

Module xdrCNvSpPr.
Record t : Type := Build { TxBox : bool }.
End xdrCNvSpPr.

Module xdrNvSpPr.
Record t : Type := Build { CNvPr : xlsxCNvPr.t; CNvSpPr : xdrCNvSpPr.t }.
End xdrNvSpPr.

Module xlsxPrstGeom.
Record t : Type := Build { Prst : string }.
End xlsxPrstGeom.

Module xlsxLineProperties.
Record t : Type := Build { W : Z }.
(** The zero value of the struct, what a field holds when nothing is
    assigned to it. *)
Definition zero : t := Build 0.
End xlsxLineProperties.

Module xlsxSpPr.
Record t : Type := Build { PrstGeom : xlsxPrstGeom.t; Ln : xlsxLineProperties.t }.
Definition setLn (v : xlsxLineProperties.t) (s : t) : t := Build (PrstGeom s) v.
End xlsxSpPr.

Module xdrSp.
Record t : Type := Build {
  Macro : string;
  NvSpPr : xdrNvSpPr.t;
  SpPr : xlsxSpPr.t;
  Style : xdrStyle.t;
  TxBody : xdrTxBody.t
}.
Definition setSpPr (v : xlsxSpPr.t) (s : t) : t :=
  Build (Macro s) (NvSpPr s) v (Style s) (TxBody s).
Definition setTxBody (v : xdrTxBody.t) (s : t) : t :=
  Build (Macro s) (NvSpPr s) (SpPr s) (Style s) v.
End xdrSp.

(** [xlsxFrom] and [xlsxTo] have the same four fields. *)
Module xlsxFrom.
Record t : Type := Build { Col : Z; ColOff : Z; Row : Z; RowOff : Z }.
End xlsxFrom.

Module xlsxTo.
Record t : Type := Build { Col : Z; ColOff : Z; Row : Z; RowOff : Z }.
End xlsxTo.

Module xdrClientData.
Record t : Type := Build { FLocksWithSheet : bool; FPrintsWithSheet : bool }.
End xdrClientData.

Module xdrCellAnchor.
Record t : Type := Build {
  EditAs : string;
  From : option xlsxFrom.t;
  To : option xlsxTo.t;
  Sp : option xdrSp.t;
  ClientData : option xdrClientData.t
}.
End xdrCellAnchor.

Module xlsxWsDr.
Record t : Type := Build { TwoCellAnchor : list xdrCellAnchor.t }.
End xlsxWsDr.

(** ** Errors and abnormal termination *)

(** Go's [error] values met in shape.go.  [ErrParameterInvalid] is the one
    the file names; the others are the kinds of failure the collaborators
    signal, carried through unchanged. *)
Inductive error : Type :=
  | ErrParameterInvalid
  | InvalidReference (cell : string)
  | NotFound (sheet : string)
  | ParseError (path : string)
  | UpstreamError (what : string).

(** A call either returns or stops in a run-time panic (a nil
    dereference, an index out of range). *)
Inductive outcome (A : Type) : Type :=
  | Returned (a : A)
  | Panicked.
Arguments Returned {A} a.
Arguments Panicked {A}.

Definition obind {A B : Type} (x : outcome A) (k : A -> outcome B) : outcome B :=
  match x with
  | Returned a => k a
  | Panicked => Panicked
  end.

(** ** The workbook

    Modelled from the spec: the struct [File], the receiver of [AddShape],
    and the structs behind it are declared outside shape.go.  Of the
    workbook only what shape.go reaches through its collaborators is kept:
    the sheet descriptors with their reference to a drawing relationship,
    the relationship registry, the drawing-document store ([f.Drawings]),
    the raw parts of the package and the content-type registry.  A
    relationship id is kept as the number [addRels] returns. *)

Module xlsxDrawing.
Record t : Type := Build { RID : Z }.
End xlsxDrawing.

Module xlsxWorksheet.
Record t : Type := Build {
  Drawing : option xlsxDrawing.t;
  NameSpaces : list string
}.
End xlsxWorksheet.

Module xlsxRelationship.
Record t : Type := Build {
  ID : Z;
  Type_ : string;
  Target : string;
  TargetMode : string
}.
End xlsxRelationship.

Module sheetEntry.
Record t : Type := Build { XMLPath : string; Sheet : xlsxWorksheet.t }.
End sheetEntry.

Module File.
Record t : Type := Build {
  Sheets : gmap string sheetEntry.t;
  Relationships : gmap string (list xlsxRelationship.t);
  Drawings : gmap string xlsxWsDr.t;
  Pkg : gmap string string;
  ContentTypes : list (string * Z)
}.
Definition setSheets (v : gmap string sheetEntry.t) (f : t) : t :=
  Build v (Relationships f) (Drawings f) (Pkg f) (ContentTypes f).
Definition setRelationships (v : gmap string (list xlsxRelationship.t)) (f : t) : t :=
  Build (Sheets f) v (Drawings f) (Pkg f) (ContentTypes f).
Definition setDrawings (v : gmap string xlsxWsDr.t) (f : t) : t :=
  Build (Sheets f) (Relationships f) v (Pkg f) (ContentTypes f).
Definition setContentTypes (v : list (string * Z)) (f : t) : t :=
  Build (Sheets f) (Relationships f) (Drawings f) (Pkg f) v.
End File.

(** The descriptions the caller holds, by address: [*Shape] is an address
    or [nil]. *)
Abbreviation loc := nat.
Abbreviation shapes := (gmap loc Shape.t).

(** ** What shape.go takes from the rest of the package

    Constants, and collaborators that only read the workbook (section 6 of
    the specification gives their interfaces): every development below is
    parametric in them. *)
Class Externals : Type := {
  defaultShapeSize : Z;
  defaultShapeLineWidth : float64;
  EMU : Z;
  SourceRelationshipDrawingML : string;
  SourceRelationship : string;
  (** the value of [int(x)] where the language leaves it open *)
  unrepresentable : float64 -> Z;
  (** [strings.ToUpper] outside ASCII *)
  unicodeUpper : string -> string;
  CellNameToCoordinates : string -> error + Z * Z;
  positionObjectPixels :
    File.t -> string -> Z -> Z -> Z -> Z -> Z -> Z -> Z * Z * Z * Z * Z * Z;
  GetDefaultFont : File.t -> error + string;
  ptToEMUs : File.t -> float64 -> Z;
  countDrawings : File.t -> Z;
  (** the error of reading the content types of the package, if any *)
  contentTypesReader : File.t -> option error;
  (** decoding of the bytes of a drawing part that is in the package but
      was not parsed yet *)
  decodeWsDr : string -> error + list xdrCellAnchor.t
}.

(** Modelled from the spec: the constant [defaultPictureScale], declared
    outside shape.go; the specification gives DEFAULT_SCALE as 1.0. *)
Definition defaultPictureScale : float64 := F64.one.

(** The table [supportedDrawingUnderlineTypes], declared outside shape.go,
    as the documentation comment of [AddShape] lists it. *)
Definition supportedDrawingUnderlineTypes : list string :=
  [ "none"; "words"; "sng"; "dbl"; "heavy"; "dotted"; "dottedHeavy"; "dash";
    "dashHeavy"; "dashLong"; "dashLongHeavy"; "dotDash"; "dotDashHeavy";
    "dotDotDash"; "dotDotDashHeavy"; "wavy"; "wavyHeavy"; "wavyDbl" ].

(** Modelled from the spec: [inStrSlice], declared outside shape.go, which
    resolves a value against a set of strings: the index of the first entry
    equal to [x], or -1.  Without [caseSensitive] two strings with the same
    upper-casing are taken as equal; shape.go never asks for that. *)
Fixpoint inStrSliceFrom `{Externals} (i : Z) (a : list string) (x : string)
    (caseSensitive : bool) : Z :=
  match a with
  | [] => -1
  | n :: a' =>
      if negb caseSensitive && String.eqb (ToUpper unicodeUpper x) (ToUpper unicodeUpper n)
      then i
      else if String.eqb x n then i
      else inStrSliceFrom (i + 1) a' x caseSensitive
  end.

Definition inStrSlice `{Externals} (a : list string) (x : string)
    (caseSensitive : bool) : Z :=
  inStrSliceFrom 0 a x caseSensitive.

Section Workbook.
Context `{Externals}.

(** Modelled from the spec: [workSheetReader], the worksheet accessor,
    [get(sheetName) -> WorksheetHandle | NotFound]. *)
Definition workSheetReader (f : File.t) (sheet : string) : error + xlsxWorksheet.t :=
  match File.Sheets f !! sheet with
  | Some e => inr (sheetEntry.Sheet e)
  | None => inl (NotFound sheet)
  end.

(** Modelled from the spec: [getSheetXMLPath], the path of the part that
    holds the sheet, and whether the sheet is known. *)
Definition getSheetXMLPath (f : File.t) (sheet : string) : string * bool :=
  match File.Sheets f !! sheet with
  | Some e => (sheetEntry.XMLPath e, true)
  | None => ("", false)
  end.

(** Modelled from the spec: the relationships registered for an owner
    part, none when the owner has no relationship part yet. *)
Definition relsOf (f : File.t) (relPath : string) : list xlsxRelationship.t :=
  default [] (File.Relationships f !! relPath).

(** The highest id in use among the relationships of an owner. *)
Definition maxRelID (rels : list xlsxRelationship.t) : Z :=
  foldr (fun r m => Z.max (xlsxRelationship.ID r) m) 0 rels.

(** Modelled from the spec: [addRels], the relationship registrar,
    [add(ownerPart, kind, target, extra) -> relationshipId].  The new
    relationship is added after the ones the owner has and gets an id
    above all of theirs. *)
Definition addRels (f : File.t) (relPath relType target targetMode : string)
    : Z * File.t :=
  let rels := relsOf f relPath in
  let rID := maxRelID rels + 1 in
  (rID,
   File.setRelationships
     (<[relPath := rels ++ [xlsxRelationship.Build rID relType target targetMode]]>
        (File.Relationships f)) f).

(** The relationship part of a sheet, as line 311 of [AddShape] names it. *)
Definition sheetRelsPath (sheetXMLPath : string) : string :=
  "xl/worksheets/_rels/" +:+ TrimPrefix sheetXMLPath "xl/worksheets/" +:+ ".rels".

(** The target of the first relationship with a given id. *)
Fixpoint targetByID (rels : list xlsxRelationship.t) (rID : Z) : string :=
  match rels with
  | [] => ""
  | v :: rels' =>
      if xlsxRelationship.ID v =? rID then xlsxRelationship.Target v
      else targetByID rels' rID
  end.

(** Modelled from the spec: [getSheetRelationshipsTargetByID],
    [resolveTarget(ownerPart, relationshipId) -> targetPath], the owner
    being the relationship part of the sheet; the empty path when the id
    is not registered. *)
Definition getSheetRelationshipsTargetByID (f : File.t) (sheet : string) (rID : Z)
    : string :=
  targetByID (relsOf f (sheetRelsPath (getSheetXMLPath f sheet).1)) rID.

(** Modelled from the spec: mutation of the descriptor of a sheet, where
    the workbook holds it; nothing happens for an unknown sheet. *)
Definition updateSheet (f : File.t) (sheet : string)
    (g : xlsxWorksheet.t -> xlsxWorksheet.t) : File.t :=
  match File.Sheets f !! sheet with
  | Some e =>
      File.setSheets
        (<[sheet := sheetEntry.Build (sheetEntry.XMLPath e) (g (sheetEntry.Sheet e))]>
           (File.Sheets f)) f
  | None => f
  end.

(** Modelled from the spec: [addSheetDrawing], which records the
    relationship id on the sheet descriptor. *)
Definition addSheetDrawing (f : File.t) (sheet : string) (rID : Z) : File.t :=
  updateSheet f sheet (fun ws =>
    xlsxWorksheet.Build (Some (xlsxDrawing.Build rID)) (xlsxWorksheet.NameSpaces ws)).

(** Modelled from the spec: [addSheetNameSpace], which ensures that the
    sheet declares a name space. *)
Definition addSheetNameSpace (f : File.t) (sheet : string) (ns : string) : File.t :=
  updateSheet f sheet (fun ws =>
    if bool_decide (ns ∈ xlsxWorksheet.NameSpaces ws) then ws
    else xlsxWorksheet.Build (xlsxWorksheet.Drawing ws)
           (xlsxWorksheet.NameSpaces ws ++ [ns])).

(** Modelled from the spec: [drawingParser], the drawing document store's
    [load(partPath) -> (parsedDocument, nextShapeId) | ParseError]: the
    parsed document at the path, or the one decoded from the bytes of the
    package, or an empty one; the next identity is one more than the
    number of anchors of the document.  Loading changes nothing. *)
Definition drawingParser (f : File.t) (path : string) : error + xlsxWsDr.t * Z :=
  let withID (d : xlsxWsDr.t) :=
    (d, Z.of_nat (length (xlsxWsDr.TwoCellAnchor d)) + 1) in
  match File.Drawings f !! path with
  | Some d => inr (withID d)
  | None =>
      match File.Pkg f !! path with
      | Some bytes =>
          match decodeWsDr bytes with
          | inl e => inl e
          | inr anchors => inr (withID (xlsxWsDr.Build anchors))
          end
      | None => inr (withID (xlsxWsDr.Build []))
      end
  end.

(** Modelled from the spec: [addContentTypePart], the content-type
    registrar's [ensure(partIndex, kind)], which registers a part once.
    Its result is what [AddShape] returns at line 319; the specification
    names no error of it, and the one modelled is that of reading the
    content types of the package, before anything is registered. *)
Definition addContentTypePart (f : File.t) (index : Z) (contentType : string)
    : option error * File.t :=
  match contentTypesReader f with
  | Some e => (Some e, f)
  | None =>
      if bool_decide ((contentType, index) ∈ File.ContentTypes f) then (None, f)
      else (None, File.setContentTypes (File.ContentTypes f ++ [(contentType, index)]) f)
  end.

(** [f.Drawings.Store(path, content)] *)
Definition storeDrawing (f : File.t) (path : string) (content : xlsxWsDr.t) : File.t :=
  File.setDrawings (<[path := content]> (File.Drawings f)) f.

End Workbook.

(** ** shape.go *)

Section ShapeGo.
Context `{Externals}.

(** Lines 25 to 45 of [parseShapeOptions]: the assignments made to the
    description [opts] points to. *)
Definition fillDefaults (opts : Shape.t) : Shape.t :=
  let opts :=
    if Shape.Width opts =? 0 then Shape.setWidth defaultShapeSize opts else opts in
  let opts :=
    if Shape.Height opts =? 0 then Shape.setHeight defaultShapeSize opts else opts in
  let opts :=
    match GraphicOptions.PrintObject (Shape.Format opts) with
    | None =>
        Shape.setFormat (GraphicOptions.setPrintObject (Some true) (Shape.Format opts)) opts
    | Some _ => opts
    end in
  let opts :=
    match GraphicOptions.Locked (Shape.Format opts) with
    | None =>
        Shape.setFormat (GraphicOptions.setLocked (Some false) (Shape.Format opts)) opts
    | Some _ => opts
    end in
  let opts :=
    if F64.eqb (GraphicOptions.ScaleX (Shape.Format opts)) F64.zero
    then Shape.setFormat
           (GraphicOptions.setScaleX defaultPictureScale (Shape.Format opts)) opts
    else opts in
  let opts :=
    if F64.eqb (GraphicOptions.ScaleY (Shape.Format opts)) F64.zero
    then Shape.setFormat
           (GraphicOptions.setScaleY defaultPictureScale (Shape.Format opts)) opts
    else opts in
  let opts :=
    match ShapeLine.Width (Shape.Line opts) with
    | None =>
        Shape.setLine (ShapeLine.setWidth (Some defaultShapeLineWidth) (Shape.Line opts)) opts
    | Some _ => opts
    end in
  opts.

(** [parseShapeOptions] gets a pointer and returns a pointer and an
    error; the description is updated where it lies. *)
Definition parseShapeOptions (opts : option loc) (h : shapes)
    : outcome (option loc * option error * shapes) :=
  match opts with
  | None => Returned (None, Some ErrParameterInvalid, h)
  | Some l =>
      match h !! l with
      | None => Panicked
      | Some s => Returned (Some l, None, <[l := fillDefaults s]> h)
      end
  end.

Definition normalizeColor (color : string) : string :=
  ReplaceAll (ToUpper unicodeUpper color) "#" "".

Definition setShapeRef (color : string) (i : Z) : aRef.t :=
  if String.eqb color "" then
    aRef.Build 0 (Some (aScrgbClr.Build F64.zero F64.zero F64.zero)) None
  else
    aRef.Build i None (Some (attrValString.Build (Some (normalizeColor color)))).

(** [a[i]], which panics outside the slice. *)
Definition index {A : Type} (a : list A) (i : Z) : outcome A :=
  if i <? 0 then Panicked
  else match a !! Z.to_nat i with
       | Some x => Returned x
       | None => Panicked
       end.

(** The body of the loop over [opts.Paragraph] (lines 418 to 455). *)
Definition paragraphOf (p : RichTextRun.t) : outcome aP.t :=
  let font := match RichTextRun.Font p with
              | Some font => font
              | None => Font.empty
              end in
  let idx := inStrSlice supportedDrawingUnderlineTypes (Font.Underline font) true in
  obind (if negb (idx =? -1) then index supportedDrawingUnderlineTypes idx
         else Returned "none") (fun u =>
  let text := RichTextRun.Text p in
  let text := if String.eqb text "" then " " else text in
  let rPr :=
    aRPr.Build (Font.Italic font) (Font.Bold font) "en-US" "en-US" u
      (F64.mul (Font.Size font) (F64.of_Z 100))
      (Some (xlsxCTTextFont.Build (Font.Family font))) None in
  let srgbClr := ReplaceAll (ToUpper unicodeUpper (Font.Color font)) "#" "" in
  let rPr :=
    if (String.length srgbClr =? 6)%nat
    then aRPr.setSolidFill
           (Some (aSolidFill.Build (Some (attrValString.Build (Some srgbClr))))) rPr
    else rPr in
  Returned (aP.Build (aR.Build rPr text) (aEndParaRPr.Build "en-US"))).

(** The loop itself, appending to [shape.TxBody.P]. *)
Fixpoint appendParagraphs (P : list aP.t) (ps : list RichTextRun.t)
    : outcome (list aP.t) :=
  match ps with
  | [] => Returned P
  | p :: ps' => obind (paragraphOf p) (fun paragraph =>
                appendParagraphs (P ++ [paragraph]) ps')
  end.

Definition addDrawingShape (f : File.t) (h : shapes)
    (sheet drawingXML cell : string) (opts : option loc)
    : outcome (option error * File.t * shapes) :=
  match CellNameToCoordinates cell with
  | inl err => Returned (Some err, f, h)
  | inr (fromCol, fromRow) =>
  match opts with
  | None => Panicked
  | Some l =>
  match h !! l with
  | None => Panicked
  | Some o =>
  let width :=
    F64.to_int unrepresentable
      (F64.mul (F64.of_Z (Shape.Width o)) (GraphicOptions.ScaleX (Shape.Format o))) in
  let height :=
    F64.to_int unrepresentable
      (F64.mul (F64.of_Z (Shape.Height o)) (GraphicOptions.ScaleY (Shape.Format o))) in
  let '(colStart, rowStart, colEnd, rowEnd, x2, y2) :=
    positionObjectPixels f sheet fromCol fromRow
      (GraphicOptions.OffsetX (Shape.Format o)) (GraphicOptions.OffsetY (Shape.Format o))
      width height in
  match drawingParser f drawingXML with
  | inl err => Returned (Some err, f, h)
  | inr (content, cNvPrID) =>
  let from :=
    xlsxFrom.Build colStart (GoInt.mul (GraphicOptions.OffsetX (Shape.Format o)) EMU)
      rowStart (GoInt.mul (GraphicOptions.OffsetY (Shape.Format o)) EMU) in
  let to := xlsxTo.Build colEnd (GoInt.mul x2 EMU) rowEnd (GoInt.mul y2 EMU) in
  let solidColor :=
    match Fill.Color (Shape.Fill o) with
    | [c] => c
    | _ => ""
    end in
  let shape :=
    xdrSp.Build (Shape.Macro o)
      (xdrNvSpPr.Build (xlsxCNvPr.Build cNvPrID ("Shape " +:+ Itoa cNvPrID))
         (xdrCNvSpPr.Build true))
      (xlsxSpPr.Build (xlsxPrstGeom.Build (Shape.Type_ o)) xlsxLineProperties.zero)
      (xdrStyle.Build
         (setShapeRef (ShapeLine.Color (Shape.Line o)) 2)
         (setShapeRef solidColor 1)
         (setShapeRef "" 0)
         (aFontRef.Build "minor" (Some (attrValString.Build (Some "tx1")))))
      (xdrTxBody.Build (aBodyPr.Build "clip" "clip" "none" false "t") []) in
  match ShapeLine.Width (Shape.Line o) with
  | None => Panicked
  | Some lineWidth =>
  let shape :=
    if negb (F64.eqb lineWidth F64.one)
    then xdrSp.setSpPr
           (xlsxSpPr.setLn (xlsxLineProperties.Build (ptToEMUs f lineWidth))
              (xdrSp.SpPr shape)) shape
    else shape in
  match GetDefaultFont f with
  | inl err => Returned (Some err, f, h)
  | inr defaultFont =>
  let o :=
    if (length (Shape.Paragraph o) <? 1)%nat
    then Shape.setParagraph
           [ RichTextRun.Build
               (Some (Font.Build false false "none" defaultFont (F64.of_Z 11) "000000"))
               " " ] o
    else o in
  let h := <[l := o]> h in
  obind (appendParagraphs (xdrTxBody.P (xdrSp.TxBody shape)) (Shape.Paragraph o))
    (fun P =>
  let shape :=
    xdrSp.setTxBody (xdrTxBody.Build (xdrTxBody.BodyPr (xdrSp.TxBody shape)) P) shape in
  match GraphicOptions.Locked (Shape.Format o),
        GraphicOptions.PrintObject (Shape.Format o) with
  | Some locked, Some printObject =>
      let twoCellAnchor :=
        xdrCellAnchor.Build (GraphicOptions.Positioning (Shape.Format o))
          (Some from) (Some to) (Some shape)
          (Some (xdrClientData.Build locked printObject)) in
      let content :=
        xlsxWsDr.Build (xlsxWsDr.TwoCellAnchor content ++ [twoCellAnchor]) in
      Returned (None, storeDrawing f drawingXML content, h)
  | _, _ => Panicked
  end)
  end end end end end end.

Definition AddShape (f : File.t) (h : shapes) (sheet cell : string)
    (opts : option loc) : outcome (option error * File.t * shapes) :=
  obind (parseShapeOptions opts h) (fun '(options, err, h) =>
  match err with
  | Some e => Returned (Some e, f, h)
  | None =>
  match workSheetReader f sheet with
  | inl e => Returned (Some e, f, h)
  | inr ws =>
  let drawingID := GoInt.add (countDrawings f) 1 in
  let drawingXML := "xl/drawings/drawing" +:+ Itoa drawingID +:+ ".xml" in
  let sheetRelationshipsDrawingXML :=
    "../drawings/drawing" +:+ Itoa drawingID +:+ ".xml" in
  let '(drawingID, drawingXML, f) :=
    match xlsxWorksheet.Drawing ws with
    | Some d =>
        let sheetRelationshipsDrawingXML :=
          getSheetRelationshipsTargetByID f sheet (xlsxDrawing.RID d) in
        let drawingID :=
          (Atoi (TrimSuffix
                   (TrimPrefix sheetRelationshipsDrawingXML "../drawings/drawing")
                   ".xml")).1 in
        (drawingID, ReplaceAll sheetRelationshipsDrawingXML ".." "xl", f)
    | None =>
        let sheetXMLPath := (getSheetXMLPath f sheet).1 in
        let sheetRels :=
          "xl/worksheets/_rels/" +:+ TrimPrefix sheetXMLPath "xl/worksheets/"
            +:+ ".rels" in
        let '(rID, f) :=
          addRels f sheetRels SourceRelationshipDrawingML
            sheetRelationshipsDrawingXML "" in
        let f := addSheetDrawing f sheet rID in
        let f := addSheetNameSpace f sheet SourceRelationship in
        (drawingID, drawingXML, f)
    end in
  obind (addDrawingShape f h sheet drawingXML cell options) (fun '(err, f, h) =>
  match err with
  | Some e => Returned (Some e, f, h)
  | None =>
      let '(err, f) := addContentTypePart f drawingID "drawings" in
      Returned (err, f, h)
  end)
  end end).

End ShapeGo.

(** ** Notions used in the statements

    Nothing here belongs to shape.go: these are the observations and the
    closed forms the theorems below speak about. *)

Section Statements.
Context `{Externals}.

(** Bytes other than ['#'], and other than ['.']. *)
Definition notHash (c : ascii) : bool := negb (Ascii.eqb "#" c).

Definition notDot (c : ascii) : bool := negb (Ascii.eqb "." c).

(** [old] occurs somewhere in [s]. *)
Fixpoint occurs (old s : string) : bool :=
  match s with
  | EmptyString => false
  | String _ s' => HasPrefix s old || occurs old s'
  end.

(** What [parseShapeOptions] leaves in a description [s'] that held [s]. *)
Definition resolved (s s' : Shape.t) : Prop :=
  Shape.Width s' = (if Shape.Width s =? 0 then defaultShapeSize else Shape.Width s) /\
  Shape.Height s' = (if Shape.Height s =? 0 then defaultShapeSize else Shape.Height s) /\
  GraphicOptions.ScaleX (Shape.Format s') =
    match GraphicOptions.ScaleX (Shape.Format s) with
    | S754_zero _ => defaultPictureScale
    | x => x
    end /\
  GraphicOptions.ScaleY (Shape.Format s') =
    match GraphicOptions.ScaleY (Shape.Format s) with
    | S754_zero _ => defaultPictureScale
    | y => y
    end /\
  GraphicOptions.PrintObject (Shape.Format s') =
    Some (default true (GraphicOptions.PrintObject (Shape.Format s))) /\
  GraphicOptions.Locked (Shape.Format s') =
    Some (default false (GraphicOptions.Locked (Shape.Format s))) /\
  ShapeLine.Width (Shape.Line s') =
    Some (default defaultShapeLineWidth (ShapeLine.Width (Shape.Line s))) /\
  Shape.Macro s' = Shape.Macro s /\
  Shape.Type_ s' = Shape.Type_ s /\
  Shape.Fill s' = Shape.Fill s /\
  ShapeLine.Color (Shape.Line s') = ShapeLine.Color (Shape.Line s) /\
  Shape.Paragraph s' = Shape.Paragraph s /\
  GraphicOptions.OffsetX (Shape.Format s') = GraphicOptions.OffsetX (Shape.Format s) /\
  GraphicOptions.OffsetY (Shape.Format s') = GraphicOptions.OffsetY (Shape.Format s) /\
  GraphicOptions.Positioning (Shape.Format s') =
    GraphicOptions.Positioning (Shape.Format s).

(** Nothing is left for [parseShapeOptions] to fill. *)
Definition allSet (s : Shape.t) : Prop :=
  Shape.Width s <> 0 /\ Shape.Height s <> 0 /\
  is_Some (GraphicOptions.PrintObject (Shape.Format s)) /\
  is_Some (GraphicOptions.Locked (Shape.Format s)) /\
  F64.eqb (GraphicOptions.ScaleX (Shape.Format s)) F64.zero = false /\
  F64.eqb (GraphicOptions.ScaleY (Shape.Format s)) F64.zero = false /\
  is_Some (ShapeLine.Width (Shape.Line s)).

(** The underline of a run: the requested one when the table has it. *)
Definition runUnderline (font : Font.t) : string :=
  if bool_decide (Font.Underline font ∈ supportedDrawingUnderlineTypes)
  then Font.Underline font else "none".

(** The font of a run, [&Font{}] when it has none (lines 419 to 422). *)
Definition fontOf (p : RichTextRun.t) : Font.t :=
  default Font.empty (RichTextRun.Font p).

(** The fill of a run as the loop computes it. *)
Definition runFill (color : string) : option aSolidFill.t :=
  if (String.length (normalizeColor color) =? 6)%nat
  then Some (aSolidFill.Build (Some (attrValString.Build (Some (normalizeColor color)))))
  else None.

(** The paragraph a pass of the loop builds. *)
Definition runOf (p : RichTextRun.t) : aP.t :=
  aP.Build
    (aR.Build
       (aRPr.Build (Font.Italic (fontOf p)) (Font.Bold (fontOf p)) "en-US" "en-US"
          (runUnderline (fontOf p))
          (F64.mul (Font.Size (fontOf p)) (F64.of_Z 100))
          (Some (xlsxCTTextFont.Build (Font.Family (fontOf p))))
          (runFill (Font.Color (fontOf p))))
       (if String.eqb (RichTextRun.Text p) "" then " " else RichTextRun.Text p))
    (aEndParaRPr.Build "en-US").

(** The anchor stored last in a drawing part. *)
Definition lastAnchor (f : File.t) (path : string) : option xdrCellAnchor.t :=
  File.Drawings f !! path ≫= fun d => last (xlsxWsDr.TwoCellAnchor d).

(** The shape of the anchor stored last in a drawing part. *)
Definition lastShape (f : File.t) (path : string) : option xdrSp.t :=
  lastAnchor f path ≫= xdrCellAnchor.Sp.

(** The description after line 402 to 416: an empty list of paragraphs is
    replaced by one run in the default font. *)
Definition withRuns (defaultFont : string) (o : Shape.t) : Shape.t :=
  if (length (Shape.Paragraph o) <? 1)%nat
  then Shape.setParagraph
         [ RichTextRun.Build
             (Some (Font.Build false false "none" defaultFont (F64.of_Z 11) "000000"))
             " " ] o
  else o.

(** The pixel size handed to [positionObjectPixels] (lines 329 and 330). *)
Definition pixelWidth (o : Shape.t) : Z :=
  F64.to_int unrepresentable
    (F64.mul (F64.of_Z (Shape.Width o)) (GraphicOptions.ScaleX (Shape.Format o))).

Definition pixelHeight (o : Shape.t) : Z :=
  F64.to_int unrepresentable
    (F64.mul (F64.of_Z (Shape.Height o)) (GraphicOptions.ScaleY (Shape.Format o))).

(** The shape a successful call stores, from what the call has read. *)
Definition shapeOf (f : File.t) (o : Shape.t) (cNvPrID : Z) (lineWidth : float64)
    (defaultFont : string) : xdrSp.t :=
  xdrSp.Build (Shape.Macro o)
    (xdrNvSpPr.Build (xlsxCNvPr.Build cNvPrID ("Shape " +:+ Itoa cNvPrID))
       (xdrCNvSpPr.Build true))
    (xlsxSpPr.Build (xlsxPrstGeom.Build (Shape.Type_ o))
       (if negb (F64.eqb lineWidth F64.one)
        then xlsxLineProperties.Build (ptToEMUs f lineWidth)
        else xlsxLineProperties.zero))
    (xdrStyle.Build
       (setShapeRef (ShapeLine.Color (Shape.Line o)) 2)
       (setShapeRef (match Fill.Color (Shape.Fill o) with [c] => c | _ => "" end) 1)
       (setShapeRef "" 0)
       (aFontRef.Build "minor" (Some (attrValString.Build (Some "tx1")))))
    (xdrTxBody.Build (aBodyPr.Build "clip" "clip" "none" false "t")
       (map runOf (Shape.Paragraph (withRuns defaultFont o)))).

(** The anchor a successful call appends. *)
Definition anchorOf (f : File.t) (o : Shape.t)
    (colStart rowStart colEnd rowEnd x2 y2 cNvPrID : Z) (lineWidth : float64)
    (defaultFont : string) (locked printObject : bool) : xdrCellAnchor.t :=
  xdrCellAnchor.Build (GraphicOptions.Positioning (Shape.Format o))
    (Some (xlsxFrom.Build colStart
             (GoInt.mul (GraphicOptions.OffsetX (Shape.Format o)) EMU)
             rowStart
             (GoInt.mul (GraphicOptions.OffsetY (Shape.Format o)) EMU)))
    (Some (xlsxTo.Build colEnd (GoInt.mul x2 EMU) rowEnd (GoInt.mul y2 EMU)))
    (Some (shapeOf f o cNvPrID lineWidth defaultFont))
    (Some (xdrClientData.Build locked printObject)).

(** The run of a call that returns [nil]: every read succeeded, and the
    last thing done is to store the document with one anchor more. *)
Inductive succeeded (f : File.t) (h : shapes) (sheet drawingXML cell : string)
    (opts : option loc) (f' : File.t) (h' : shapes) : Prop :=
  Succeeded (l : loc) (o : Shape.t)
    (fromCol fromRow colStart rowStart colEnd rowEnd x2 y2 : Z)
    (content : xlsxWsDr.t) (cNvPrID : Z) (lineWidth : float64)
    (defaultFont : string) (locked printObject : bool)
    (s_opts : opts = Some l)
    (s_lookup : h !! l = Some o)
    (s_cell : CellNameToCoordinates cell = inr (fromCol, fromRow))
    (s_position :
       positionObjectPixels f sheet fromCol fromRow
         (GraphicOptions.OffsetX (Shape.Format o))
         (GraphicOptions.OffsetY (Shape.Format o))
         (pixelWidth o) (pixelHeight o)
       = (colStart, rowStart, colEnd, rowEnd, x2, y2))
    (s_parsed : drawingParser f drawingXML = inr (content, cNvPrID))
    (s_width : ShapeLine.Width (Shape.Line o) = Some lineWidth)
    (s_font : GetDefaultFont f = inr defaultFont)
    (s_lockedSet : GraphicOptions.Locked (Shape.Format o) = Some locked)
    (s_printSet : GraphicOptions.PrintObject (Shape.Format o) = Some printObject)
    (s_shapes : h' = <[l := withRuns defaultFont o]> h)
    (s_file :
       f' = storeDrawing f drawingXML
              (xlsxWsDr.Build
                 (xlsxWsDr.TwoCellAnchor content ++
                  [anchorOf f o colStart rowStart colEnd rowEnd x2 y2
                     cNvPrID lineWidth defaultFont locked printObject]))).

(** The part of [AddShape] between the worksheet and the delegate call
    (lines 299 to 315): the index and the path of the drawing part, and the
    workbook with the relationship registered when the sheet had none. *)
Definition route (f : File.t) (sheet : string) (ws : xlsxWorksheet.t)
    : Z * string * File.t :=
  let drawingID := GoInt.add (countDrawings f) 1 in
  match xlsxWorksheet.Drawing ws with
  | Some d =>
      let target := getSheetRelationshipsTargetByID f sheet (xlsxDrawing.RID d) in
      ((Atoi (TrimSuffix (TrimPrefix target "../drawings/drawing") ".xml")).1,
       ReplaceAll target ".." "xl", f)
  | None =>
      let added :=
        addRels f (sheetRelsPath (getSheetXMLPath f sheet).1)
          SourceRelationshipDrawingML
          ("../drawings/drawing" +:+ Itoa drawingID +:+ ".xml") "" in
      (drawingID, "xl/drawings/drawing" +:+ Itoa drawingID +:+ ".xml",
       addSheetNameSpace (addSheetDrawing added.2 sheet added.1) sheet
         SourceRelationship)
  end.

(** A hexadecimal character of an upper-cased string: 0 to 9, A to F. *)
Definition isHexDigit (c : ascii) : bool :=
  isDigit c || ((65 <=? byte_val c) && (byte_val c <=? 70))%N.

(** The condition of the specification for a fill on a run, in its words:
    the color, after an optional leading ['#'] is stripped and it is
    upper-cased, is exactly 6 hexadecimal characters. *)
Definition sixHexDigits (color : string) : bool :=
  let c := ToUpper unicodeUpper (TrimPrefix color "#") in
  (String.length c =? 6)%nat && allBytes isHexDigit c.

(** The fills of the runs of the shape a call of [AddShape] stores. *)
Definition fillsAdded (r : outcome (option error * File.t * shapes)) (path : string)
    : option (list (option aSolidFill.t)) :=
  match r with
  | Returned (None, f', _) =>
      (fun sp => map (fun p => aRPr.SolidFill (aR.RPr (aP.R p)))
                   (xdrTxBody.P (xdrSp.TxBody sp))) <$> lastShape f' path
  | _ => None
  end.

(** [z] is the integer part of the number [x] stands for, which is
    [m * 2 ^ e] with the sign [s]: the number itself when it is an integer,
    and else the integer next to it on the side of 0.  Infinities and NaN
    have none. *)
Definition integerPart (x : float64) (z : Z) : Prop :=
  match x with
  | S754_zero _ => z = 0
  | S754_finite s m e =>
      (if s then z <= 0 else 0 <= z) /\
      (0 <= e -> Z.abs z = Z.pos m * 2 ^ e) /\
      (e < 0 -> Z.abs z * 2 ^ (- e) <= Z.pos m < (Z.abs z + 1) * 2 ^ (- e))
  | S754_infinity _ | S754_nan => False
  end.



(** The error of [addDrawingShape], by the order of its reads. *)
Definition delegateError (f : File.t) (drawingXML cell : string) : option error :=
  match CellNameToCoordinates cell with
  | inl e => Some e
  | inr _ =>
      match drawingParser f drawingXML with
      | inl e => Some e
      | inr _ =>
          match GetDefaultFont f with
          | inl e => Some e
          | inr _ => None
          end
      end
  end.

End Statements.

(** ** A sample environment

    One choice of the constants and collaborators, for running the
    functions on concrete workbooks: 160 pixels for the default size, 1 for
    the default line width, 9525 drawing units to the pixel, cell names
    made of letters and digits, columns 64 pixels wide and rows 20 pixels
    high, the font Calibri unless the styles part is empty. *)

Module Sample.

Fixpoint lettersValue (s : string) (acc : Z) : Z * string :=
  match s with
  | String c s' =>
      let n := Z.of_N (byte_val (upperByte c)) in
      if (65 <=? n) && (n <=? 90) then lettersValue s' (26 * acc + (n - 64))
      else (acc, s)
  | EmptyString => (acc, s)
  end.

Definition cellNameToCoordinates (cell : string) : error + Z * Z :=
  let '(col, rest) := lettersValue cell 0 in
  match rest, digitsValue rest 0 with
  | String _ _, Some row =>
      if (0 <? col) && (0 <? row) then inr (col, row) else inl (InvalidReference cell)
  | _, _ => inl (InvalidReference cell)
  end.

Definition colWidth : Z := 64.
Definition rowHeight : Z := 20.

Definition position (f : File.t) (sheet : string)
    (col row x1 y1 width height : Z) : Z * Z * Z * Z * Z * Z :=
  (col - 1, row - 1,
   col - 1 + (x1 + width) / colWidth, row - 1 + (y1 + height) / rowHeight,
   (x1 + width) mod colWidth, (y1 + height) mod rowHeight).

Definition sampleFont (f : File.t) : error + string :=
  match File.Pkg f !! "xl/styles.xml" with
  | Some "" => inl (UpstreamError "xl/styles.xml")
  | _ => inr "Calibri"
  end.

(** The content types cannot be read when the part is there and empty. *)
Definition sampleContentTypes (f : File.t) : option error :=
  match File.Pkg f !! "[Content_Types].xml" with
  | Some "" => Some (UpstreamError "[Content_Types].xml")
  | _ => None
  end.

Definition decode (bytes : string) : error + list xdrCellAnchor.t :=
  if String.eqb bytes "<xdr:wsDr></xdr:wsDr>" then inr []
  else inl (ParseError bytes).

#[export] Instance externals : Externals := {|
  defaultShapeSize := 160;
  defaultShapeLineWidth := F64.one;
  EMU := 9525;
  SourceRelationshipDrawingML :=
    "http://schemas.openxmlformats.org/officeDocument/2006/relationships/drawing";
  SourceRelationship :=
    "http://schemas.openxmlformats.org/officeDocument/2006/relationships";
  unrepresentable := fun _ => GoInt.min_int;
  unicodeUpper := fun s => s;
  CellNameToCoordinates := cellNameToCoordinates;
  positionObjectPixels := position;
  GetDefaultFont := sampleFont;
  ptToEMUs := fun _ pt => F64.to_int (fun _ => GoInt.min_int) (F64.mul (F64.of_Z 12700) pt);
  countDrawings := fun f => Z.of_nat (size (File.Drawings f));
  contentTypesReader := sampleContentTypes;
  decodeWsDr := decode
|}.

(** The description of the example in the documentation of [AddShape],
    with the line width left unset. *)
Definition rect : Shape.t :=
  Shape.Build "" "rect" 180 40
    (GraphicOptions.Build None None 0 0 F64.zero F64.zero "")
    (Fill.Build ["8EB9FF"] 1)
    (ShapeLine.Build "4286F4" None)
    [ RichTextRun.Build
        (Some (Font.Build true true "sng" "Times New Roman" (F64.of_Z 18) "777777"))
        "Rectangle Shape" ].



Definition unscaled : Shape.t :=
  Shape.setFormat
    (GraphicOptions.Build None None 0 0 S754_nan F64.one "") rect.

(** The zero value [Shape{}]. *)
Definition blank : Shape.t :=
  Shape.Build "" "" 0 0
    (GraphicOptions.Build None None 0 0 F64.zero F64.zero "")
    (Fill.Build [] 0) (ShapeLine.Build "" None) [].

Definition sheet1 : sheetEntry.t :=
  sheetEntry.Build "xl/worksheets/sheet1.xml" (xlsxWorksheet.Build None []).

(** A workbook with one sheet and no drawing part. *)
Definition book : File.t :=
  File.Build {[ "Sheet1" := sheet1 ]} ∅ ∅ ∅ [].

(** The caller's store: [rect] as [parseShapeOptions] leaves it. *)
Definition store : shapes := {[ 0%nat := fillDefaults rect ]}.

Definition part : string := "xl/drawings/drawing1.xml".

End Sample.

(** ** Arithmetic of [int] *)

Lemma wrap_in_range (z : Z) : GoInt.in_range z = true -> GoInt.wrap z = z.
Proof.
  unfold GoInt.in_range, GoInt.wrap, GoInt.min_int, GoInt.max_int.
  intros H. apply andb_prop in H as [H1 H2].
  apply Z.leb_le in H1. apply Z.leb_le in H2.
  rewrite Z.mod_small; lia.
Qed.

Lemma wrap_bounds (z : Z) : GoInt.min_int <= GoInt.wrap z <= GoInt.max_int.
Proof.
  unfold GoInt.wrap, GoInt.min_int, GoInt.max_int.
  pose proof (Z.mod_pos_bound (z + 2 ^ 63) (2 ^ 64)). lia.
Qed.

(** ** Strings: what the functions above compute *)

Lemma replaceFrom_hash (s : string) :
  forall fuel : nat, (String.length s <= fuel)%nat ->
    replaceFrom fuel s "#" "" = filterBytes notHash s.
Proof.
  induction s as [|c s IH]; intros fuel Hfuel.
  - destruct fuel; reflexivity.
  - destruct fuel as [|fuel]; [simpl in Hfuel; lia|].
    simpl in Hfuel. cbn [replaceFrom filterBytes HasPrefix String.length drop].
    unfold notHash at 1. destruct (Ascii.eqb "#" c); cbn [negb].
    + rewrite IH by lia. reflexivity.
    + rewrite IH by lia. reflexivity.
Qed.

(** Replacing ["#"] by nothing removes every byte ['#'] and nothing else. *)
Lemma ReplaceAll_hash (s : string) : ReplaceAll s "#" "" = filterBytes notHash s.
Proof. unfold ReplaceAll. apply replaceFrom_hash. lia. Qed.


(** ** The options resolver *)

Lemma eqb_zero (x : float64) :
  F64.eqb x F64.zero = match x with S754_zero _ => true | _ => false end.
Proof. destruct x as [[]|[]| |[] m e]; reflexivity. Qed.

Ltac shape_fields :=
  cbn [Shape.Width Shape.Height Shape.Format Shape.Fill Shape.Line Shape.Paragraph
       Shape.Macro Shape.Type_ Shape.setWidth Shape.setHeight Shape.setFormat
       Shape.setLine Shape.setParagraph
       GraphicOptions.PrintObject GraphicOptions.Locked GraphicOptions.OffsetX
       GraphicOptions.OffsetY GraphicOptions.ScaleX GraphicOptions.ScaleY
       GraphicOptions.Positioning GraphicOptions.setPrintObject
       GraphicOptions.setLocked GraphicOptions.setScaleX GraphicOptions.setScaleY
       ShapeLine.Color ShapeLine.Width ShapeLine.setWidth] in *.

(** The description after the assignments, field by field. *)
Lemma fillDefaults_fields `{Externals} (s : Shape.t) :
  fillDefaults s =
  Shape.Build (Shape.Macro s) (Shape.Type_ s)
    (if Shape.Width s =? 0 then defaultShapeSize else Shape.Width s)
    (if Shape.Height s =? 0 then defaultShapeSize else Shape.Height s)
    (GraphicOptions.Build
       (Some (default true (GraphicOptions.PrintObject (Shape.Format s))))
       (Some (default false (GraphicOptions.Locked (Shape.Format s))))
       (GraphicOptions.OffsetX (Shape.Format s))
       (GraphicOptions.OffsetY (Shape.Format s))
       (if F64.eqb (GraphicOptions.ScaleX (Shape.Format s)) F64.zero
        then defaultPictureScale else GraphicOptions.ScaleX (Shape.Format s))
       (if F64.eqb (GraphicOptions.ScaleY (Shape.Format s)) F64.zero
        then defaultPictureScale else GraphicOptions.ScaleY (Shape.Format s))
       (GraphicOptions.Positioning (Shape.Format s)))
    (Shape.Fill s)
    (ShapeLine.Build (ShapeLine.Color (Shape.Line s))
       (Some (default defaultShapeLineWidth (ShapeLine.Width (Shape.Line s)))))
    (Shape.Paragraph s).
Proof.
  destruct s as [macro type width height [po lk ox oy sx sy pos] fill [lc lw] para].
  destruct width as [|w|w], height as [|h'|h'], po as [po|], lk as [lk|], lw as [lw|],
    sx as [sgx|[]| |[] mx ex], sy as [sgy|[]| |[] my ey]; reflexivity.
Qed.

Lemma fillDefaults_resolved `{Externals} (s : Shape.t) : resolved s (fillDefaults s).
Proof.
  rewrite fillDefaults_fields. unfold resolved. shape_fields.
  rewrite !eqb_zero.
  destruct (GraphicOptions.ScaleX (Shape.Format s)),
    (GraphicOptions.ScaleY (Shape.Format s)); repeat split; reflexivity.
Qed.

Lemma fillDefaults_set `{Externals} (s : Shape.t) : allSet s -> fillDefaults s = s.
Proof.
  intros (Hw & Hh & [p Hp] & [k Hk] & Hx & Hy & [w Hlw]).
  rewrite fillDefaults_fields, Hx, Hy, Hp, Hk, Hlw.
  apply Z.eqb_neq in Hw. apply Z.eqb_neq in Hh. rewrite Hw, Hh.
  destruct s as [macro type width height [po lk ox oy sx sy pos] fill [lc lw] para].
  cbn in *. subst. reflexivity.
Qed.

(** C2: [parseShapeOptions] returns [ErrParameterInvalid] for [nil] and for
    nothing else; for a description it succeeds with the pointer it was
    given, and the description then holds [defaultShapeSize] for a width or
    height that was 0, [defaultPictureScale], that is 1.0, for a scale that
    was 0, [true] and [false] for an unset print-with-sheet and locked flag,
    [defaultShapeLineWidth] for an unset line width, and in every other
    field, and in each of these when it was set, the value it had. *)
Theorem parseShapeOptions_defaults `{Externals}
    (h : shapes) (l : loc) (s : Shape.t) :
  h !! l = Some s ->
  parseShapeOptions None h = Returned (None, Some ErrParameterInvalid, h) /\
  exists s' : Shape.t,
    parseShapeOptions (Some l) h = Returned (Some l, None, <[l := s']> h) /\
    resolved s s' /\
    defaultPictureScale = S754_finite false (2 ^ 52) (-52).
Proof.
  intros Hl. split; [reflexivity|].
  exists (fillDefaults s). unfold parseShapeOptions. rewrite Hl.
  split; [reflexivity|]. split; [apply fillDefaults_resolved | reflexivity].
Qed.

Import Sample.

Lemma parseShapeOptions_defaults_witness :
  let h : shapes := {[ 0%nat := Sample.blank ]} in
  parseShapeOptions None h = Returned (None, Some ErrParameterInvalid, h) /\
  exists s' : Shape.t,
    parseShapeOptions (Some 0%nat) h = Returned (Some 0%nat, None, <[0%nat := s']> h) /\
    resolved Sample.blank s' /\
    defaultPictureScale = S754_finite false (2 ^ 52) (-52).
Proof.
  intros h.
  apply (parseShapeOptions_defaults h 0%nat Sample.blank).
  reflexivity.
Defined.

(** ** The text runs *)

Section Runs.
Context `{Externals}.

Lemma inStrSliceFrom_sensitive (x : string) (a : list string) :
  forall i : Z, 0 <= i ->
    (inStrSliceFrom i a x true = -1 /\ x ∉ a) \/
    (i <= inStrSliceFrom i a x true /\
     a !! Z.to_nat (inStrSliceFrom i a x true - i) = Some x).
Proof.
  induction a as [|n a IH]; intros i Hi; cbn [inStrSliceFrom negb andb].
  - left. split; [reflexivity | apply not_elem_of_nil].
  - destruct (String.eqb x n) eqn:Hxn.
    + apply String.eqb_eq in Hxn. subst n. right.
      split; [lia|]. replace (i - i) with 0 by lia. reflexivity.
    + apply String.eqb_neq in Hxn.
      destruct (IH (i + 1)) as [[Hr Hnot] | [Hle Hat]]; [lia | left | right].
      * split; [assumption|]. intros Hin. apply elem_of_cons in Hin. tauto.
      * split; [lia|].
        replace (Z.to_nat (inStrSliceFrom (i + 1) a x true - i))
          with (S (Z.to_nat (inStrSliceFrom (i + 1) a x true - (i + 1)))) by lia.
        exact Hat.
Qed.

Lemma index_inStrSlice (a : list string) (x d : string) :
  (if negb (inStrSlice a x true =? -1) then index a (inStrSlice a x true)
   else Returned d) = Returned (if bool_decide (x ∈ a) then x else d).
Proof.
  unfold inStrSlice.
  destruct (inStrSliceFrom_sensitive x a 0 ltac:(lia)) as [[Hr Hnot] | [Hle Hat]].
  - rewrite Hr. cbn [Z.eqb negb]. rewrite bool_decide_eq_false_2 by assumption.
    reflexivity.
  - set (idx := inStrSliceFrom 0 a x true) in *.
    assert (Hne : (idx =? -1) = false) by (apply Z.eqb_neq; lia).
    rewrite Hne. cbn [negb]. unfold index.
    assert (Hlt : (idx <? 0) = false) by (apply Z.ltb_ge; lia).
    rewrite Hlt. replace (idx - 0) with idx in Hat by lia. rewrite Hat.
    rewrite bool_decide_eq_true_2; [reflexivity|].
    eapply list_elem_of_lookup_2. exact Hat.
Qed.

Lemma underline_lookup (font : Font.t) :
  (if negb (inStrSlice supportedDrawingUnderlineTypes (Font.Underline font) true =? -1)
   then index supportedDrawingUnderlineTypes
          (inStrSlice supportedDrawingUnderlineTypes (Font.Underline font) true)
   else Returned "none") = Returned (runUnderline font).
Proof. apply index_inStrSlice. Qed.

(** A pass of the loop body does not panic, and builds [runOf p]. *)
Lemma paragraphOf_Returned (p : RichTextRun.t) : paragraphOf p = Returned (runOf p).
Proof.
  unfold paragraphOf, runOf, fontOf.
  destruct p as [[font|] text]; cbn [RichTextRun.Font RichTextRun.Text default].
  - rewrite (underline_lookup font). cbn [obind]. unfold runFill, normalizeColor.
    destruct (String.length _ =? 6)%nat; reflexivity.
  - rewrite (underline_lookup Font.empty). cbn [obind]. unfold runFill, normalizeColor.
    destruct (String.length _ =? 6)%nat; reflexivity.
Qed.

Lemma appendParagraphs_Returned (ps : list RichTextRun.t) :
  forall P : list aP.t, appendParagraphs P ps = Returned (P ++ map runOf ps).
Proof.
  induction ps as [|p ps IH]; intros P; cbn [appendParagraphs map].
  - rewrite app_nil_r. reflexivity.
  - rewrite paragraphOf_Returned. cbn [obind]. rewrite IH, <- app_assoc. reflexivity.
Qed.

End Runs.

(** ** The style references *)





(** ** The caller's description *)

(** C9, as the claim states it, fails: the description the caller passes
    is the zero value before the call and holds the defaults after it. *)
Lemma parseShapeOptions_writes_description :
  parseShapeOptions (Some 0%nat) ({[ 0%nat := Sample.blank ]} : shapes) =
    Returned
      (Some 0%nat, None,
       ({[ 0%nat :=
             Shape.Build "" "" 160 160
               (GraphicOptions.Build (Some true) (Some false) 0 0 F64.one F64.one "")
               (Fill.Build [] 0) (ShapeLine.Build "" (Some F64.one)) [] ]} : shapes)) /\
  Shape.Build "" "" 160 160
    (GraphicOptions.Build (Some true) (Some false) 0 0 F64.one F64.one "")
    (Fill.Build [] 0) (ShapeLine.Build "" (Some F64.one)) [] <> Sample.blank.
Proof.
  split.
  - unfold parseShapeOptions. rewrite lookup_singleton_eq.
    rewrite insert_singleton_eq. reflexivity.
  - discriminate.
Qed.

(** C9, amended: [parseShapeOptions] reaches nothing but the description
    it is given.  It writes the defaults into that description, where the
    caller holds it, and returns the pointer it was given; every other
    description is as before; a field that was set keeps its value, and a
    description in which the seven fields are all set is left as it was. *)
Theorem parseShapeOptions_frame `{Externals} (h : shapes) (l : loc) (s : Shape.t) :
  h !! l = Some s ->
  exists h' : shapes,
    parseShapeOptions (Some l) h = Returned (Some l, None, h') /\
    (exists s' : Shape.t, h' !! l = Some s' /\ resolved s s') /\
    (forall l' : loc, l' <> l -> h' !! l' = h !! l') /\
    (allSet s -> h' = h) /\
    parseShapeOptions None h = Returned (None, Some ErrParameterInvalid, h).
Proof.
  intros Hl. exists (<[l := fillDefaults s]> h).
  unfold parseShapeOptions. rewrite Hl.
  split; [reflexivity|]. split; [|split; [|split]].
  - exists (fillDefaults s). split; [apply lookup_insert_eq | apply fillDefaults_resolved].
  - intros l' Hne. apply lookup_insert_ne. congruence.
  - intros Hset. rewrite (fillDefaults_set s Hset). apply insert_id. assumption.
  - reflexivity.
Qed.

Lemma parseShapeOptions_frame_witness :
  exists h' : shapes,
    parseShapeOptions (Some 0%nat) ({[ 0%nat := Sample.rect ]} : shapes) =
      Returned (Some 0%nat, None, h') /\
    (exists s' : Shape.t, h' !! 0%nat = Some s' /\ resolved Sample.rect s') /\
    (forall l' : loc, l' <> 0%nat ->
       h' !! l' = ({[ 0%nat := Sample.rect ]} : shapes) !! l') /\
    (allSet Sample.rect -> h' = {[ 0%nat := Sample.rect ]}) /\
    parseShapeOptions None ({[ 0%nat := Sample.rect ]} : shapes) =
      Returned (None, Some ErrParameterInvalid, {[ 0%nat := Sample.rect ]}).
Proof.
  apply (parseShapeOptions_frame {[ 0%nat := Sample.rect ]} 0%nat Sample.rect).
  apply lookup_singleton_eq.
Defined.

(** ** What a call of [addDrawingShape] leaves behind *)

Section Anchor.
Context `{Externals}.

Lemma withRuns_Format (d : string) (o : Shape.t) :
  Shape.Format (withRuns d o) = Shape.Format o.
Proof. unfold withRuns. destruct (_ <? _)%nat; reflexivity. Qed.

Lemma addDrawingShape_nil (f : File.t) (h : shapes) (sheet drawingXML cell : string)
    (opts : option loc) (f' : File.t) (h' : shapes) :
  addDrawingShape f h sheet drawingXML cell opts = Returned (None, f', h') ->
  succeeded f h sheet drawingXML cell opts f' h'.
Proof.
  unfold addDrawingShape. intros Hrun.
  destruct (CellNameToCoordinates cell) as [e|[fromCol fromRow]] eqn:Hcell;
    [discriminate|].
  destruct opts as [l|]; [|discriminate].
  destruct (h !! l) as [o|] eqn:Hl; [|discriminate].
  fold (pixelWidth o) in Hrun. fold (pixelHeight o) in Hrun.
  destruct (positionObjectPixels f sheet fromCol fromRow _ _ _ _)
    as [[[[[colStart rowStart] colEnd] rowEnd] x2] y2] eqn:Hpos.
  destruct (drawingParser f drawingXML) as [e|[content cNvPrID]] eqn:Hparse;
    [discriminate|].
  destruct (ShapeLine.Width (Shape.Line o)) as [lineWidth|] eqn:Hw; [|discriminate].
  destruct (GetDefaultFont f) as [e|defaultFont] eqn:Hfont; [discriminate|].
  fold (withRuns defaultFont o) in Hrun.
  rewrite appendParagraphs_Returned in Hrun. cbn [obind] in Hrun.
  rewrite withRuns_Format in Hrun.
  destruct (GraphicOptions.Locked (Shape.Format o)) as [locked|] eqn:Hlk;
    [|discriminate].
  destruct (GraphicOptions.PrintObject (Shape.Format o)) as [printObject|] eqn:Hpo;
    [|discriminate].
  injection Hrun as Hf Hh.
  refine (Succeeded _ _ _ _ _ _ _ _ l o fromCol fromRow colStart rowStart colEnd rowEnd
            x2 y2 content cNvPrID lineWidth defaultFont locked printObject
            eq_refl Hl Hcell Hpos Hparse Hw Hfont Hlk Hpo (eq_sym Hh) _).
  rewrite <- Hf. unfold anchorOf, shapeOf.
  destruct (negb (F64.eqb lineWidth F64.one)); reflexivity.
Qed.

(** A call that returns an error has changed neither the workbook nor the
    description. *)
Lemma addDrawingShape_error (f : File.t) (h : shapes) (sheet drawingXML cell : string)
    (opts : option loc) (e : error) (f' : File.t) (h' : shapes) :
  addDrawingShape f h sheet drawingXML cell opts = Returned (Some e, f', h') ->
  f' = f /\ h' = h /\
  (CellNameToCoordinates cell = inl e \/
   drawingParser f drawingXML = inl e \/
   GetDefaultFont f = inl e).
Proof.
  unfold addDrawingShape. intros Hrun.
  destruct (CellNameToCoordinates cell) as [e0|[fromCol fromRow]] eqn:Hcell.
  { injection Hrun as -> -> ->. auto. }
  destruct opts as [l|]; [|discriminate].
  destruct (h !! l) as [o|] eqn:Hl; [|discriminate].
  destruct (positionObjectPixels f sheet fromCol fromRow _ _ _ _)
    as [[[[[colStart rowStart] colEnd] rowEnd] x2] y2] eqn:Hpos.
  destruct (drawingParser f drawingXML) as [e0|[content cNvPrID]] eqn:Hparse.
  { injection Hrun as -> -> ->. auto. }
  destruct (ShapeLine.Width (Shape.Line o)) as [lineWidth|] eqn:Hw; [|discriminate].
  destruct (GetDefaultFont f) as [e0|defaultFont] eqn:Hfont.
  { injection Hrun as -> -> ->. auto. }
  fold (withRuns defaultFont o) in Hrun.
  rewrite appendParagraphs_Returned in Hrun. cbn [obind] in Hrun.
  rewrite withRuns_Format in Hrun.
  destruct (GraphicOptions.Locked (Shape.Format o)); [|discriminate].
  destruct (GraphicOptions.PrintObject (Shape.Format o)); discriminate.
Qed.

End Anchor.

(** ** The anchor a successful call emits *)

Ltac run_facts Hrun :=
  destruct (addDrawingShape_nil _ _ _ _ _ _ _ _ Hrun)
    as [l o fromCol fromRow colStart rowStart colEnd rowEnd x2 y2 content cNvPrID
          lineWidth font locked printObject
          Hopts Hl Hcell Hpos Hparse Hwidth Hfont Hlocked Hprint Hshapes Hfile].

Section Emitted.
Context `{Externals}.

Lemma lastAnchor_store (f : File.t) (path : string) (anchors : list xdrCellAnchor.t)
    (a : xdrCellAnchor.t) :
  lastAnchor (storeDrawing f path (xlsxWsDr.Build (anchors ++ [a]))) path = Some a.
Proof.
  unfold lastAnchor, storeDrawing. cbn [File.Drawings File.setDrawings].
  rewrite lookup_insert_eq. cbn. apply last_snoc.
Qed.

Lemma lastShape_store (f : File.t) (path : string) (anchors : list xdrCellAnchor.t)
    (a : xdrCellAnchor.t) :
  lastShape (storeDrawing f path (xlsxWsDr.Build (anchors ++ [a]))) path
  = xdrCellAnchor.Sp a.
Proof. unfold lastShape. rewrite lastAnchor_store. reflexivity. Qed.

Lemma runFill_filter (color : string) :
  runFill color =
    let c := filterBytes notHash (ToUpper unicodeUpper color) in
    if (String.length c =? 6)%nat
    then Some (aSolidFill.Build (Some (attrValString.Build (Some c))))
    else None.
Proof. unfold runFill, normalizeColor. rewrite ReplaceAll_hash. reflexivity. Qed.

Lemma Forall2_map_r {A B : Type} (g : A -> B) (R : A -> B -> Prop) (l : list A) :
  (forall x, R x (g x)) -> Forall2 R l (map g l).
Proof. intros HR. induction l; constructor; auto. Qed.

(** The integer part is the number itself above the binary point, and the
    quotient of the mantissa below it. *)
Lemma trunc_finite (s : bool) (m : positive) (e : Z) :
  exists v : Z,
    F64.trunc (S754_finite s m e) = Some (if s then - v else v) /\
    (0 <= e -> v = Z.pos m * 2 ^ e) /\
    (e < 0 -> v * 2 ^ (- e) <= Z.pos m < (v + 1) * 2 ^ (- e)).
Proof.
  destruct e as [|p|p]; cbn [F64.trunc].
  - exists (Z.pos m * 2 ^ 0). split; [reflexivity|]. split; [reflexivity | lia].
  - exists (Z.pos m * 2 ^ Z.pos p). split; [reflexivity|]. split; [reflexivity | lia].
  - exists (Z.pos m / 2 ^ Z.pos p). split; [reflexivity|]. split; [lia|].
    intros _. change (- Z.neg p) with (Z.pos p).
    assert (Hpow : 0 < 2 ^ Z.pos p) by (apply Z.pow_pos_nonneg; lia).
    pose proof (Z.mul_div_le (Z.pos m) (2 ^ Z.pos p) Hpow).
    pose proof (Z.mul_succ_div_gt (Z.pos m) (2 ^ Z.pos p) Hpow).
    lia.
Qed.

Lemma to_int_trunc (u : float64 -> Z) (x : float64) (z : Z) :
  F64.trunc x = Some z -> GoInt.in_range z = true -> F64.to_int u x = z.
Proof. unfold F64.to_int. intros -> ->. reflexivity. Qed.

(** A number has one integer part at most, and the conversion finds it. *)
Lemma integerPart_trunc (x : float64) (z : Z) :
  integerPart x z -> F64.trunc x = Some z.
Proof.
  destruct x as [s0| | |s m e]; cbn [integerPart]; try contradiction.
  - intros ->. reflexivity.
  - intros (Hsign & Hup & Hdown).
    destruct (trunc_finite s m e) as (v & -> & Hvup & Hvdown). f_equal.
    assert (Hv : v = Z.abs z).
    { destruct (Z.le_gt_cases 0 e) as [He|He].
      - rewrite (Hvup He), (Hup He). reflexivity.
      - specialize (Hdown He). specialize (Hvdown He).
        assert (Hpow : 0 < 2 ^ (- e)) by (apply Z.pow_pos_nonneg; lia).
        nia. }
    destruct s; lia.
Qed.

Lemma to_int_integerPart (u : float64 -> Z) (x : float64) (z : Z) :
  integerPart x z -> GoInt.in_range z = true -> F64.to_int u x = z.
Proof. intros Hz. apply to_int_trunc, integerPart_trunc, Hz. Qed.

(** C4, amended: on every run a solid fill with a literal color is emitted
    exactly when the requested font color, upper-cased and with every ['#']
    removed, is 6 bytes long, whatever the bytes are, and the fill carries
    that string; so the color 12AB gives no fill and #12AB34 gives the fill
    12AB34. *)
Theorem run_fill_by_length (f : File.t) (h : shapes) (sheet drawingXML cell : string)
    (opts : option loc) (f' : File.t) (h' : shapes) :
  addDrawingShape f h sheet drawingXML cell opts = Returned (None, f', h') ->
  exists (l : loc) (o : Shape.t) (defaultFont : string) (sp : xdrSp.t),
    opts = Some l /\ h !! l = Some o /\ GetDefaultFont f = inr defaultFont /\
    lastShape f' drawingXML = Some sp /\
    Forall2
      (fun (p : RichTextRun.t) (paragraph : aP.t) =>
         let c := filterBytes notHash (ToUpper unicodeUpper (Font.Color (fontOf p))) in
         aRPr.SolidFill (aR.RPr (aP.R paragraph)) =
           if (String.length c =? 6)%nat
           then Some (aSolidFill.Build (Some (attrValString.Build (Some c))))
           else None)
      (Shape.Paragraph (withRuns defaultFont o)) (xdrTxBody.P (xdrSp.TxBody sp)) /\
    runFill "12AB" = None /\
    runFill "#12AB34" =
      Some (aSolidFill.Build (Some (attrValString.Build (Some "12AB34")))).
Proof.
  intros Hrun. run_facts Hrun.
  exists l, o, font, (shapeOf f o cNvPrID lineWidth font).
  repeat (split; [assumption|]).
  split; [subst f'; apply lastShape_store|].
  split; [|split; reflexivity].
  cbn [shapeOf xdrSp.TxBody xdrTxBody.P].
  apply Forall2_map_r. intros p. cbn [runOf aP.R aR.RPr aRPr.SolidFill].
  apply runFill_filter.
Qed.

(** C5: with an empty list of paragraphs one run is emitted, with the text
    of one space, underline none, size 1100, the fill 000000 and the family
    the default font provider returns; with paragraphs given, each gives a
    run whose underline is the requested one when the table has it and none
    otherwise, also for a run without font, whose text is the given one, or
    one space when that is empty, and whose size is the requested size
    times 100. *)
Theorem text_runs (f : File.t) (h : shapes) (sheet drawingXML cell : string)
    (opts : option loc) (f' : File.t) (h' : shapes) :
  addDrawingShape f h sheet drawingXML cell opts = Returned (None, f', h') ->
  exists (l : loc) (o : Shape.t) (defaultFont : string) (sp : xdrSp.t),
    opts = Some l /\ h !! l = Some o /\ GetDefaultFont f = inr defaultFont /\
    lastShape f' drawingXML = Some sp /\
    (Shape.Paragraph o = [] ->
     xdrTxBody.P (xdrSp.TxBody sp) =
       [ aP.Build
           (aR.Build
              (aRPr.Build false false "en-US" "en-US" "none" (F64.of_Z 1100)
                 (Some (xlsxCTTextFont.Build defaultFont))
                 (Some (aSolidFill.Build (Some (attrValString.Build (Some "000000"))))))
              " ")
           (aEndParaRPr.Build "en-US") ]) /\
    (Shape.Paragraph o <> [] ->
     Forall2
       (fun (p : RichTextRun.t) (paragraph : aP.t) =>
          aRPr.U (aR.RPr (aP.R paragraph)) =
            match RichTextRun.Font p with
            | Some font =>
                if bool_decide (Font.Underline font ∈ supportedDrawingUnderlineTypes)
                then Font.Underline font else "none"
            | None => "none"
            end /\
          aR.T (aP.R paragraph) =
            (if String.eqb (RichTextRun.Text p) "" then " " else RichTextRun.Text p) /\
          aRPr.Sz (aR.RPr (aP.R paragraph)) =
            F64.mul (Font.Size (fontOf p)) (F64.of_Z 100))
       (Shape.Paragraph o) (xdrTxBody.P (xdrSp.TxBody sp))).
Proof.
  intros Hrun. run_facts Hrun.
  exists l, o, font, (shapeOf f o cNvPrID lineWidth font).
  repeat (split; [assumption|]).
  split; [subst f'; apply lastShape_store|].
  cbn [shapeOf xdrSp.TxBody xdrTxBody.P]. unfold withRuns. split.
  - intros ->. reflexivity.
  - intros Hne. destruct (Shape.Paragraph o) as [|p ps] eqn:Hps; [congruence|].
    cbn [length Nat.ltb Nat.leb]. rewrite Hps.
    apply Forall2_map_r. intros q.
    cbn [runOf aP.R aR.RPr aR.T aRPr.U aRPr.Sz]. split; [|split; reflexivity].
    unfold runUnderline, fontOf. destruct (RichTextRun.Font q); reflexivity.
Qed.

(** C6, amended: the pixel width and height handed to
    [positionObjectPixels] are [int(float64(Width) * ScaleX)] and
    [int(float64(Height) * ScaleY)], which are the integer parts of the two
    products, toward 0, whenever the product has an integer part that
    [int] can hold; the anchor starts at the column and row the resolver
    returns, offset by OffsetX * EMU and OffsetY * EMU, ends at the column
    and row the resolver returns, offset by its two residuals times EMU,
    and takes its positioning from the description.  The products with EMU
    are those of [int]. *)
Theorem anchor_geometry (f : File.t) (h : shapes) (sheet drawingXML cell : string)
    (opts : option loc) (f' : File.t) (h' : shapes) :
  addDrawingShape f h sheet drawingXML cell opts = Returned (None, f', h') ->
  exists (l : loc) (o : Shape.t) (fromCol fromRow : Z)
         (colStart rowStart colEnd rowEnd x2 y2 : Z) (a : xdrCellAnchor.t),
    opts = Some l /\ h !! l = Some o /\
    CellNameToCoordinates cell = inr (fromCol, fromRow) /\
    positionObjectPixels f sheet fromCol fromRow
      (GraphicOptions.OffsetX (Shape.Format o)) (GraphicOptions.OffsetY (Shape.Format o))
      (F64.to_int unrepresentable
         (F64.mul (F64.of_Z (Shape.Width o)) (GraphicOptions.ScaleX (Shape.Format o))))
      (F64.to_int unrepresentable
         (F64.mul (F64.of_Z (Shape.Height o)) (GraphicOptions.ScaleY (Shape.Format o))))
    = (colStart, rowStart, colEnd, rowEnd, x2, y2) /\
    lastAnchor f' drawingXML = Some a /\
    xdrCellAnchor.From a =
      Some (xlsxFrom.Build colStart
              (GoInt.wrap (GraphicOptions.OffsetX (Shape.Format o) * EMU))
              rowStart
              (GoInt.wrap (GraphicOptions.OffsetY (Shape.Format o) * EMU))) /\
    xdrCellAnchor.To a =
      Some (xlsxTo.Build colEnd (GoInt.wrap (x2 * EMU)) rowEnd (GoInt.wrap (y2 * EMU))) /\
    xdrCellAnchor.EditAs a = GraphicOptions.Positioning (Shape.Format o) /\
    (forall width : Z,
       integerPart
         (F64.mul (F64.of_Z (Shape.Width o)) (GraphicOptions.ScaleX (Shape.Format o)))
         width ->
       GoInt.in_range width = true ->
       F64.to_int unrepresentable
         (F64.mul (F64.of_Z (Shape.Width o)) (GraphicOptions.ScaleX (Shape.Format o)))
       = width) /\
    (forall height : Z,
       integerPart
         (F64.mul (F64.of_Z (Shape.Height o)) (GraphicOptions.ScaleY (Shape.Format o)))
         height ->
       GoInt.in_range height = true ->
       F64.to_int unrepresentable
         (F64.mul (F64.of_Z (Shape.Height o)) (GraphicOptions.ScaleY (Shape.Format o)))
       = height).
Proof.
  intros Hrun. run_facts Hrun.
  exists l, o, fromCol, fromRow, colStart, rowStart, colEnd, rowEnd, x2, y2.
  eexists. repeat (split; [eassumption|]).
  split; [subst f'; apply lastAnchor_store|].
  split; [reflexivity|]. split; [reflexivity|]. split; [reflexivity|].
  split; intros z Hz Hrange; apply to_int_integerPart; assumption.
Qed.


End Emitted.

(** The four theorems at the sample workbook, for the shape of the
    documentation of [AddShape] anchored at G6. *)

Lemma run_fill_by_length_witness :
  exists (f' : File.t) (h' : shapes),
    let f := Sample.book in
    let h := Sample.store in
    let sheet := "Sheet1" in
    let drawingXML := Sample.part in
    let cell := "G6" in
    let opts := Some 0%nat in
    addDrawingShape f h sheet drawingXML cell opts = Returned (None, f', h') /\
    exists (l : loc) (o : Shape.t) (defaultFont : string) (sp : xdrSp.t),
      opts = Some l /\ h !! l = Some o /\ GetDefaultFont f = inr defaultFont /\
      lastShape f' drawingXML = Some sp /\
      Forall2
        (fun (p : RichTextRun.t) (paragraph : aP.t) =>
           let c := filterBytes notHash (ToUpper unicodeUpper (Font.Color (fontOf p))) in
           aRPr.SolidFill (aR.RPr (aP.R paragraph)) =
             if (String.length c =? 6)%nat
             then Some (aSolidFill.Build (Some (attrValString.Build (Some c))))
             else None)
        (Shape.Paragraph (withRuns defaultFont o)) (xdrTxBody.P (xdrSp.TxBody sp)) /\
      runFill "12AB" = None /\
      runFill "#12AB34" =
        Some (aSolidFill.Build (Some (attrValString.Build (Some "12AB34")))).
Proof.
  eexists _, _. intros f h sheet drawingXML cell opts.
  split; [vm_compute; reflexivity|].
  eapply (run_fill_by_length f h sheet drawingXML cell opts).
  vm_compute. reflexivity.
Defined.

Lemma text_runs_witness :
  exists (f' : File.t) (h' : shapes),
    let f := Sample.book in
    let h := Sample.store in
    let sheet := "Sheet1" in
    let drawingXML := Sample.part in
    let cell := "G6" in
    let opts := Some 0%nat in
    addDrawingShape f h sheet drawingXML cell opts = Returned (None, f', h') /\
    exists (l : loc) (o : Shape.t) (defaultFont : string) (sp : xdrSp.t),
      opts = Some l /\ h !! l = Some o /\ GetDefaultFont f = inr defaultFont /\
      lastShape f' drawingXML = Some sp /\
      (Shape.Paragraph o = [] ->
       xdrTxBody.P (xdrSp.TxBody sp) =
         [ aP.Build
             (aR.Build
                (aRPr.Build false false "en-US" "en-US" "none" (F64.of_Z 1100)
                   (Some (xlsxCTTextFont.Build defaultFont))
                   (Some (aSolidFill.Build (Some (attrValString.Build (Some "000000"))))))
                " ")
             (aEndParaRPr.Build "en-US") ]) /\
      (Shape.Paragraph o <> [] ->
       Forall2
         (fun (p : RichTextRun.t) (paragraph : aP.t) =>
            aRPr.U (aR.RPr (aP.R paragraph)) =
              match RichTextRun.Font p with
              | Some font =>
                  if bool_decide (Font.Underline font ∈ supportedDrawingUnderlineTypes)
                  then Font.Underline font else "none"
              | None => "none"
              end /\
            aR.T (aP.R paragraph) =
              (if String.eqb (RichTextRun.Text p) "" then " " else RichTextRun.Text p) /\
            aRPr.Sz (aR.RPr (aP.R paragraph)) =
              F64.mul (Font.Size (fontOf p)) (F64.of_Z 100))
         (Shape.Paragraph o) (xdrTxBody.P (xdrSp.TxBody sp))).
Proof.
  eexists _, _. intros f h sheet drawingXML cell opts.
  split; [vm_compute; reflexivity|].
  eapply (text_runs f h sheet drawingXML cell opts).
  vm_compute. reflexivity.
Defined.

(** The integer part of a number that is given: the number is evaluated
    to its mantissa and exponent, and the bounds are checked. *)
Ltac integer_part :=
  match goal with
  | |- integerPart ?x _ => let v := eval vm_compute in x in change x with v
  end;
  cbn [integerPart];
  split; [apply Z.leb_le; vm_compute; reflexivity|];
  split; intros He;
    [ first [ vm_compute; reflexivity
            | exfalso; vm_compute in He; apply He; reflexivity ]
    | first [ split; [apply Z.leb_le | apply Z.ltb_lt]; vm_compute; reflexivity
            | exfalso; vm_compute in He; discriminate He ] ].

Lemma anchor_geometry_witness :
  exists (f' : File.t) (h' : shapes),
    let f := Sample.book in
    let h := Sample.store in
    let sheet := "Sheet1" in
    let drawingXML := Sample.part in
    let cell := "G6" in
    let opts := Some 0%nat in
    addDrawingShape f h sheet drawingXML cell opts = Returned (None, f', h') /\
    exists (l : loc) (o : Shape.t) (fromCol fromRow : Z)
           (colStart rowStart colEnd rowEnd x2 y2 : Z) (a : xdrCellAnchor.t),
      opts = Some l /\ h !! l = Some o /\
      CellNameToCoordinates cell = inr (fromCol, fromRow) /\
      positionObjectPixels f sheet fromCol fromRow
        (GraphicOptions.OffsetX (Shape.Format o)) (GraphicOptions.OffsetY (Shape.Format o))
        (F64.to_int unrepresentable
           (F64.mul (F64.of_Z (Shape.Width o)) (GraphicOptions.ScaleX (Shape.Format o))))
        (F64.to_int unrepresentable
           (F64.mul (F64.of_Z (Shape.Height o)) (GraphicOptions.ScaleY (Shape.Format o))))
      = (colStart, rowStart, colEnd, rowEnd, x2, y2) /\
      lastAnchor f' drawingXML = Some a /\
      xdrCellAnchor.From a =
        Some (xlsxFrom.Build colStart
                (GoInt.wrap (GraphicOptions.OffsetX (Shape.Format o) * EMU))
                rowStart
                (GoInt.wrap (GraphicOptions.OffsetY (Shape.Format o) * EMU))) /\
      xdrCellAnchor.To a =
        Some (xlsxTo.Build colEnd (GoInt.wrap (x2 * EMU)) rowEnd (GoInt.wrap (y2 * EMU))) /\
      xdrCellAnchor.EditAs a = GraphicOptions.Positioning (Shape.Format o) /\
      (forall width : Z,
         integerPart
           (F64.mul (F64.of_Z (Shape.Width o)) (GraphicOptions.ScaleX (Shape.Format o)))
           width ->
         GoInt.in_range width = true ->
         F64.to_int unrepresentable
           (F64.mul (F64.of_Z (Shape.Width o)) (GraphicOptions.ScaleX (Shape.Format o)))
         = width) /\
      (forall height : Z,
         integerPart
           (F64.mul (F64.of_Z (Shape.Height o)) (GraphicOptions.ScaleY (Shape.Format o)))
           height ->
         GoInt.in_range height = true ->
         F64.to_int unrepresentable
           (F64.mul (F64.of_Z (Shape.Height o)) (GraphicOptions.ScaleY (Shape.Format o)))
         = height).
Proof.
  eexists _, _. intros f h sheet drawingXML cell opts.
  split; [vm_compute; reflexivity|].
  eapply (anchor_geometry f h sheet drawingXML cell opts).
  vm_compute. reflexivity.
Defined.

(** A width of 180 at the scale 1.5: the product is 270, its integer part
    270 is what [positionObjectPixels] gets. *)
Example integer_part_270 :
  let product := F64.mul (F64.of_Z 180) (S754_finite false 3 (-1)) in
  integerPart product 270 /\ F64.to_int unrepresentable product = 270.
Proof.
  intros product. split; [|vm_compute; reflexivity].
  subst product. integer_part.
Qed.

(** C6, as the claim states it, fails: for the description [unscaled],
    resolved, whose horizontal scale is not a number, [addDrawingShape]
    returns [nil], the product of the width and the scale has no integer
    part, and [positionObjectPixels] gets what the conversion leaves to the
    implementation (the least [int] here); for [rect] at the scale 2^80 the
    integer part of the product is more than [int] holds, and the value
    handed on is not that integer part. *)
Lemma pixel_width_without_integer_part :
  let o := fillDefaults Sample.unscaled in
  let product :=
    F64.mul (F64.of_Z (Shape.Width o)) (GraphicOptions.ScaleX (Shape.Format o)) in
  let large := F64.mul (F64.of_Z 180) (F64.of_Z (2 ^ 80)) in
  fillDefaults o = o /\
  (exists (f' : File.t) (h' : shapes),
     addDrawingShape Sample.book {[ 0%nat := o ]} "Sheet1" Sample.part "G6" (Some 0%nat)
     = Returned (None, f', h')) /\
  (forall z : Z, ~ integerPart product z) /\
  F64.to_int unrepresentable product = GoInt.min_int /\
  integerPart large (180 * 2 ^ 80) /\
  ~ integerPart large (F64.to_int unrepresentable large).
Proof.
  intros o product large.
  split; [vm_compute; reflexivity|].
  split; [eexists _, _; vm_compute; reflexivity|].
  split; [intros z Hz; exact Hz|].
  split; [vm_compute; reflexivity|].
  split.
  - subst large. integer_part.
  - intros Hz. apply integerPart_trunc in Hz. vm_compute in Hz. discriminate.
Qed.



(** C4, as the claim states it, fails: the font color GGGGGG is not made
    of hexadecimal characters, and the run gets the fill GGGGGG; the font
    color 12#AB34 keeps a ['#'] after a leading one is stripped, and the run
    gets the fill 12AB34. *)
Lemma fill_without_hexadecimal :
  let colored (color : string) : shapes :=
    {[ 0%nat :=
         Shape.setParagraph
           [ RichTextRun.Build
               (Some (Font.Build false false "none" "Calibri" (F64.of_Z 11) color))
               "text" ] Sample.rect ]} in
  sixHexDigits "GGGGGG" = false /\
  fillsAdded (AddShape Sample.book (colored "GGGGGG") "Sheet1" "G6" (Some 0%nat))
    Sample.part
  = Some [ Some (aSolidFill.Build (Some (attrValString.Build (Some "GGGGGG")))) ] /\
  sixHexDigits "12#AB34" = false /\
  fillsAdded (AddShape Sample.book (colored "12#AB34") "Sheet1" "G6" (Some 0%nat))
    Sample.part
  = Some [ Some (aSolidFill.Build (Some (attrValString.Build (Some "12AB34")))) ].
Proof. intros colored. repeat split; vm_compute; reflexivity. Qed.

(** ** Dereferences *)

Section NoFault.
Context `{Externals}.

(** With the three pointers set, [addDrawingShape] returns. *)
Lemma addDrawingShape_returns (f : File.t) (h : shapes) (sheet drawingXML cell : string)
    (l : loc) (o : Shape.t) :
  h !! l = Some o ->
  is_Some (ShapeLine.Width (Shape.Line o)) ->
  is_Some (GraphicOptions.Locked (Shape.Format o)) ->
  is_Some (GraphicOptions.PrintObject (Shape.Format o)) ->
  exists r, addDrawingShape f h sheet drawingXML cell (Some l) = Returned r.
Proof.
  intros Hl [w Hw] [lk Hlk] [po Hpo]. unfold addDrawingShape.
  destruct (CellNameToCoordinates cell) as [e|[fromCol fromRow]]; [eauto|].
  rewrite Hl.
  destruct (positionObjectPixels f sheet fromCol fromRow _ _ _ _)
    as [[[[[colStart rowStart] colEnd] rowEnd] x2] y2].
  destruct (drawingParser f drawingXML) as [e|[content cNvPrID]]; [eauto|].
  rewrite Hw.
  destruct (GetDefaultFont f) as [e|font]; [eauto|].
  fold (withRuns font o).
  rewrite appendParagraphs_Returned. cbn [obind].
  rewrite withRuns_Format, Hlk, Hpo. eauto.
Qed.

Lemma fillDefaults_pointers (s : Shape.t) :
  is_Some (ShapeLine.Width (Shape.Line (fillDefaults s))) /\
  is_Some (GraphicOptions.Locked (Shape.Format (fillDefaults s))) /\
  is_Some (GraphicOptions.PrintObject (Shape.Format (fillDefaults s))).
Proof. rewrite fillDefaults_fields. cbn. eauto. Qed.

Lemma AddShape_route (f : File.t) (h : shapes) (sheet cell : string) (l : loc)
    (s : Shape.t) (ws : xlsxWorksheet.t) :
  h !! l = Some s ->
  workSheetReader f sheet = inr ws ->
  AddShape f h sheet cell (Some l) =
    obind (addDrawingShape (route f sheet ws).2 (<[l := fillDefaults s]> h) sheet
             (route f sheet ws).1.2 cell (Some l))
      (fun '(err, f', h') =>
         match err with
         | Some e => Returned (Some e, f', h')
         | None =>
             let '(err, f'') := addContentTypePart f' (route f sheet ws).1.1 "drawings" in
             Returned (err, f'', h')
         end).
Proof.
  intros Hl Hws. unfold AddShape, parseShapeOptions, route.
  rewrite Hl. cbn [obind]. rewrite Hws.
  destruct (xlsxWorksheet.Drawing ws) as [d|]; [reflexivity|].
  unfold sheetRelsPath. destruct (addRels _ _ _ _ _) as [rID f1]. reflexivity.
Qed.

Lemma AddShape_returns (f : File.t) (h : shapes) (sheet cell : string) (l : loc)
    (s : Shape.t) :
  h !! l = Some s ->
  exists r, AddShape f h sheet cell (Some l) = Returned r.
Proof.
  intros Hl. destruct (workSheetReader f sheet) as [e|ws] eqn:Hws.
  - unfold AddShape, parseShapeOptions. rewrite Hl. cbn [obind]. rewrite Hws. eauto.
  - rewrite (AddShape_route f h sheet cell l s ws Hl Hws).
    destruct (fillDefaults_pointers s) as (Hw & Hlk & Hpo).
    destruct (addDrawingShape_returns (route f sheet ws).2 (<[l := fillDefaults s]> h)
                sheet (route f sheet ws).1.2 cell l (fillDefaults s)
                (lookup_insert_eq _ _ _) Hw Hlk Hpo) as [[[err f'] h'] ->].
    cbn [obind]. destruct err; [eauto|].
    destruct (addContentTypePart f' _ _). eauto.
Qed.

(** C10: after [parseShapeOptions] has returned a description, its line
    width, locked and print-with-sheet pointers are set, so that
    [addDrawingShape] on it, whatever the workbook, the part and the cell,
    returns rather than panics at a dereference, and so does [AddShape]. *)
Theorem resolved_pointers_set (f : File.t) (h : shapes) (sheet drawingXML cell : string)
    (l : loc) (s : Shape.t) :
  h !! l = Some s ->
  exists (h' : shapes) (s' : Shape.t),
    parseShapeOptions (Some l) h = Returned (Some l, None, h') /\
    h' !! l = Some s' /\
    is_Some (ShapeLine.Width (Shape.Line s')) /\
    is_Some (GraphicOptions.Locked (Shape.Format s')) /\
    is_Some (GraphicOptions.PrintObject (Shape.Format s')) /\
    addDrawingShape f h' sheet drawingXML cell (Some l) <> Panicked /\
    AddShape f h sheet cell (Some l) <> Panicked.
Proof.
  intros Hl. exists (<[l := fillDefaults s]> h), (fillDefaults s).
  destruct (fillDefaults_pointers s) as (Hw & Hlk & Hpo).
  split; [unfold parseShapeOptions; rewrite Hl; reflexivity|].
  split; [apply lookup_insert_eq|].
  repeat (split; [assumption|]). split.
  - destruct (addDrawingShape_returns f (<[l := fillDefaults s]> h) sheet drawingXML
                cell l (fillDefaults s) (lookup_insert_eq _ _ _) Hw Hlk Hpo) as [r ->].
    discriminate.
  - destruct (AddShape_returns f h sheet cell l s Hl) as [r ->]. discriminate.
Qed.

End NoFault.

Lemma resolved_pointers_set_witness :
  let h : shapes := {[ 0%nat := Sample.blank ]} in
  exists (h' : shapes) (s' : Shape.t),
    parseShapeOptions (Some 0%nat) h = Returned (Some 0%nat, None, h') /\
    h' !! 0%nat = Some s' /\
    is_Some (ShapeLine.Width (Shape.Line s')) /\
    is_Some (GraphicOptions.Locked (Shape.Format s')) /\
    is_Some (GraphicOptions.PrintObject (Shape.Format s')) /\
    addDrawingShape Sample.book h' "Sheet1" Sample.part "G6" (Some 0%nat) <> Panicked /\
    AddShape Sample.book h "Sheet1" "G6" (Some 0%nat) <> Panicked.
Proof.
  intros h.
  apply (resolved_pointers_set Sample.book h "Sheet1" Sample.part "G6" 0%nat Sample.blank).
  apply lookup_singleton_eq.
Defined.

(** Without the resolver the dereference of the line width at line 393
    does panic. *)
Example addDrawingShape_unresolved :
  addDrawingShape Sample.book {[ 0%nat := Sample.blank ]} "Sheet1" Sample.part "G6"
    (Some 0%nat) = Panicked.
Proof. vm_compute. reflexivity. Qed.

(** ** The path of a drawing part *)

Lemma replaceFrom_absent (old new s : string) :
  occurs old s = false -> forall fuel : nat, replaceFrom fuel s old new = s.
Proof.
  induction s as [|c s IH]; intros Hocc fuel.
  - destruct fuel; reflexivity.
  - cbn [occurs] in Hocc. apply orb_false_elim in Hocc as [Hhere Hrest].
    destruct fuel as [|fuel]; [reflexivity|].
    cbn [replaceFrom]. rewrite Hhere, (IH Hrest). reflexivity.
Qed.

Lemma allBytes_app (p : ascii -> bool) (s t : string) :
  allBytes p (s +:+ t) = allBytes p s && allBytes p t.
Proof.
  induction s as [|c s IH]; [reflexivity|].
  simpl. rewrite IH. apply andb_assoc.
Qed.

Lemma occurs_dots_xml (s : string) :
  allBytes notDot s = true -> occurs ".." (s +:+ ".xml") = false.
Proof.
  induction s as [|c s IH]; intros Hs; [reflexivity|].
  cbn [allBytes] in Hs. apply andb_prop in Hs as [Hc Hs].
  unfold notDot in Hc. apply negb_true_iff in Hc.
  change (occurs ".." (String c (s +:+ ".xml")) = false).
  cbn [occurs HasPrefix]. rewrite Hc. cbn [orb]. auto.
Qed.

Lemma digitByte_notDot (d : Z) : 0 <= d < 10 -> notDot (digitByte d) = true.
Proof.
  intros Hd.
  assert (Hcases : d = 0 \/ d = 1 \/ d = 2 \/ d = 3 \/ d = 4 \/ d = 5 \/ d = 6 \/
                   d = 7 \/ d = 8 \/ d = 9) by lia.
  repeat (destruct Hcases as [->|Hcases]; [reflexivity|]). subst d. reflexivity.
Qed.

Lemma digitsOf_notDot (fuel : nat) :
  forall (n : Z) (acc : string),
    0 <= n -> allBytes notDot acc = true -> allBytes notDot (digitsOf fuel n acc) = true.
Proof.
  induction fuel as [|fuel IH]; intros n acc Hn Hacc; [assumption|].
  cbn [digitsOf].
  assert (Hstep : allBytes notDot (String (digitByte (n mod 10)) acc) = true).
  { cbn [allBytes]. rewrite digitByte_notDot, Hacc; [reflexivity|].
    apply Z.mod_pos_bound. lia. }
  destruct (n / 10 =? 0); [assumption|].
  apply IH; [apply Z.div_pos; lia | assumption].
Qed.

Lemma Itoa_notDot (n : Z) : allBytes notDot (Itoa n) = true.
Proof.
  unfold Itoa. destruct (n <? 0) eqn:Hneg.
  - apply Z.ltb_lt in Hneg. cbn [allBytes]. rewrite digitsOf_notDot; [reflexivity|lia|reflexivity].
  - apply Z.ltb_ge in Hneg. apply digitsOf_notDot; [lia|reflexivity].
Qed.

Lemma ReplaceAll_leading_dots (rest : string) :
  occurs ".." rest = false ->
  ReplaceAll (String "." (String "." rest)) ".." "xl" = String "x" (String "l" rest).
Proof.
  intros Hocc. unfold ReplaceAll.
  change (replaceFrom (String.length (String "." (String "." rest)))
            (String "." (String "." rest)) ".." "xl")
    with ("xl" +:+ replaceFrom (S (String.length rest)) rest ".." "xl").
  rewrite (replaceFrom_absent ".." "xl" rest Hocc). reflexivity.
Qed.

(** The relationship target AddShape registers for a new drawing part is
    mapped back, at line 307, to the path of that part. *)
Lemma ReplaceAll_drawing_target (n : Z) :
  ReplaceAll ("../drawings/drawing" +:+ Itoa n +:+ ".xml") ".." "xl"
  = "xl/drawings/drawing" +:+ Itoa n +:+ ".xml".
Proof.
  change ("../drawings/drawing" +:+ Itoa n +:+ ".xml")
    with (String "." (String "." (("/drawings/drawing" +:+ Itoa n) +:+ ".xml"))).
  rewrite ReplaceAll_leading_dots; [reflexivity|].
  apply occurs_dots_xml. rewrite allBytes_app, Itoa_notDot. reflexivity.
Qed.

(** ** The registries *)

Section Registries.
Context `{Externals}.

Lemma maxRelID_ge (rels : list xlsxRelationship.t) (r : xlsxRelationship.t) :
  r ∈ rels -> xlsxRelationship.ID r <= maxRelID rels.
Proof.
  induction rels as [|r' rels IH]; intros Hin.
  - apply elem_of_nil in Hin. contradiction.
  - cbn [maxRelID foldr]. fold (maxRelID rels).
    apply elem_of_cons in Hin as [->|Hin]; [lia|]. specialize (IH Hin). lia.
Qed.

Lemma targetByID_snoc (rels : list xlsxRelationship.t) (k : Z)
    (ty target mode : string) :
  (forall r, r ∈ rels -> xlsxRelationship.ID r <> k) ->
  targetByID (rels ++ [xlsxRelationship.Build k ty target mode]) k = target.
Proof.
  induction rels as [|r rels IH]; intros Hfresh; cbn [app targetByID xlsxRelationship.ID
    xlsxRelationship.Target].
  - rewrite Z.eqb_refl. reflexivity.
  - assert (Hr : (xlsxRelationship.ID r =? k) = false).
    { apply Z.eqb_neq. apply Hfresh. apply elem_of_cons. auto. }
    rewrite Hr. apply IH. intros r' Hin. apply Hfresh. apply elem_of_cons. auto.
Qed.

(** A relationship just added resolves to its target. *)
Lemma addRels_resolves (f : File.t) (relPath relType target targetMode : string) :
  targetByID (relsOf (addRels f relPath relType target targetMode).2 relPath)
    (addRels f relPath relType target targetMode).1 = target.
Proof.
  unfold addRels, relsOf. cbn [fst snd File.Relationships File.setRelationships].
  rewrite lookup_insert_eq. cbn [default].
  apply targetByID_snoc. intros r Hin.
  pose proof (maxRelID_ge _ _ Hin). unfold relsOf in *. lia.
Qed.

Lemma updateSheet_frame (f : File.t) (sheet : string)
    (g : xlsxWorksheet.t -> xlsxWorksheet.t) :
  File.Relationships (updateSheet f sheet g) = File.Relationships f /\
  File.Drawings (updateSheet f sheet g) = File.Drawings f /\
  File.Pkg (updateSheet f sheet g) = File.Pkg f /\
  File.ContentTypes (updateSheet f sheet g) = File.ContentTypes f.
Proof. unfold updateSheet. destruct (File.Sheets f !! sheet); repeat split. Qed.

Lemma updateSheet_lookup (f : File.t) (sheet : string)
    (g : xlsxWorksheet.t -> xlsxWorksheet.t) (e : sheetEntry.t) :
  File.Sheets f !! sheet = Some e ->
  File.Sheets (updateSheet f sheet g) !! sheet
  = Some (sheetEntry.Build (sheetEntry.XMLPath e) (g (sheetEntry.Sheet e))).
Proof.
  intros He. unfold updateSheet. rewrite He.
  cbn [File.Sheets File.setSheets]. apply lookup_insert_eq.
Qed.

Lemma workSheetReader_inr (f : File.t) (sheet : string) (ws : xlsxWorksheet.t) :
  workSheetReader f sheet = inr ws ->
  exists e, File.Sheets f !! sheet = Some e /\ sheetEntry.Sheet e = ws.
Proof.
  unfold workSheetReader. destruct (File.Sheets f !! sheet) as [e|]; [|discriminate].
  intros [= <-]. eauto.
Qed.

(** [route] touches neither the drawing parts, nor the package, nor the
    content types. *)
Lemma route_frame (f : File.t) (sheet : string) (ws : xlsxWorksheet.t) :
  File.Drawings (route f sheet ws).2 = File.Drawings f /\
  File.Pkg (route f sheet ws).2 = File.Pkg f /\
  File.ContentTypes (route f sheet ws).2 = File.ContentTypes f.
Proof.
  unfold route. destruct (xlsxWorksheet.Drawing ws); [repeat split|].
  cbn [snd]. unfold addSheetNameSpace, addSheetDrawing.
  destruct (updateSheet_frame
              (updateSheet (addRels f (sheetRelsPath (getSheetXMLPath f sheet).1)
                 SourceRelationshipDrawingML
                 ("../drawings/drawing" +:+ Itoa (GoInt.add (countDrawings f) 1) +:+ ".xml")
                 "").2 sheet
                 (fun ws0 => xlsxWorksheet.Build
                    (Some (xlsxDrawing.Build (addRels f
                       (sheetRelsPath (getSheetXMLPath f sheet).1)
                       SourceRelationshipDrawingML
                       ("../drawings/drawing" +:+ Itoa (GoInt.add (countDrawings f) 1)
                          +:+ ".xml") "").1))
                    (xlsxWorksheet.NameSpaces ws0)))
              sheet
              (fun ws0 => if bool_decide (SourceRelationship ∈ xlsxWorksheet.NameSpaces ws0)
                          then ws0
                          else xlsxWorksheet.Build (xlsxWorksheet.Drawing ws0)
                                 (xlsxWorksheet.NameSpaces ws0 ++ [SourceRelationship])))
    as (_ & -> & -> & ->).
  match goal with
  | |- context [updateSheet ?g ?s ?k] =>
      destruct (updateSheet_frame g s k) as (_ & -> & -> & ->)
  end.
  repeat split.
Qed.

Lemma drawingParser_ext (f g : File.t) (path : string) :
  File.Drawings f = File.Drawings g -> File.Pkg f = File.Pkg g ->
  drawingParser f path = drawingParser g path.
Proof. intros Hd Hp. unfold drawingParser. rewrite Hd, Hp. reflexivity. Qed.

Lemma drawingParser_id (f : File.t) (path : string) (d : xlsxWsDr.t) (id : Z) :
  drawingParser f path = inr (d, id) ->
  id = Z.of_nat (length (xlsxWsDr.TwoCellAnchor d)) + 1.
Proof.
  unfold drawingParser.
  destruct (File.Drawings f !! path) as [d0|].
  - intros [= <- <-]. reflexivity.
  - destruct (File.Pkg f !! path) as [bytes|].
    + destruct (decodeWsDr bytes); [discriminate|]. intros [= <- <-]. reflexivity.
    + intros [= <- <-]. reflexivity.
Qed.

Lemma drawingParser_stored (f : File.t) (path : string) (d : xlsxWsDr.t) :
  File.Drawings f !! path = Some d ->
  drawingParser f path = inr (d, Z.of_nat (length (xlsxWsDr.TwoCellAnchor d)) + 1).
Proof. intros Hd. unfold drawingParser. rewrite Hd. reflexivity. Qed.

Lemma addContentTypePart_frame (f : File.t) (index : Z) (kind : string) :
  (addContentTypePart f index kind).1 = contentTypesReader f /\
  File.Sheets (addContentTypePart f index kind).2 = File.Sheets f /\
  File.Relationships (addContentTypePart f index kind).2 = File.Relationships f /\
  File.Drawings (addContentTypePart f index kind).2 = File.Drawings f /\
  File.Pkg (addContentTypePart f index kind).2 = File.Pkg f.
Proof.
  unfold addContentTypePart.
  destruct (contentTypesReader f); [|destruct (bool_decide _)]; repeat split.
Qed.

(** A registration that fails leaves the workbook as it was. *)
Lemma addContentTypePart_failed (f : File.t) (index : Z) (kind : string) (e : error) :
  (addContentTypePart f index kind).1 = Some e -> (addContentTypePart f index kind).2 = f.
Proof.
  unfold addContentTypePart.
  destruct (contentTypesReader f); [reflexivity|]. destruct (bool_decide _); discriminate.
Qed.

(** A registration that returns [nil] leaves the part registered. *)
Lemma addContentTypePart_registered (f : File.t) (index : Z) (kind : string) :
  (addContentTypePart f index kind).1 = None ->
  (kind, index) ∈ File.ContentTypes (addContentTypePart f index kind).2.
Proof.
  unfold addContentTypePart. destruct (contentTypesReader f); [discriminate|].
  intros _. destruct (bool_decide _) eqn:Hin.
  - apply bool_decide_eq_true in Hin. exact Hin.
  - cbn [snd File.ContentTypes File.setContentTypes].
    apply elem_of_app. right. apply list_elem_of_singleton. reflexivity.
Qed.

(** A part that is registered is not registered again. *)
Lemma addContentTypePart_again (f : File.t) (index : Z) (kind : string) :
  (kind, index) ∈ File.ContentTypes f ->
  (addContentTypePart f index kind).2 = f.
Proof.
  intros Hin. unfold addContentTypePart. destruct (contentTypesReader f); [reflexivity|].
  rewrite bool_decide_eq_true_2 by assumption. reflexivity.
Qed.

End Registries.

(** ** Two calls for one sheet *)

Section Orchestrator.
Context `{Externals}.

Lemma getSheetXMLPath_lookup (f : File.t) (sheet : string) (e : sheetEntry.t) :
  File.Sheets f !! sheet = Some e -> getSheetXMLPath f sheet = (sheetEntry.XMLPath e, true).
Proof. intros He. unfold getSheetXMLPath. rewrite He. reflexivity. Qed.

Lemma workSheetReader_lookup (f : File.t) (sheet : string) (e : sheetEntry.t) :
  File.Sheets f !! sheet = Some e -> workSheetReader f sheet = inr (sheetEntry.Sheet e).
Proof. intros He. unfold workSheetReader. rewrite He. reflexivity. Qed.

(** The first shape of a sheet: after lines 310 to 314 the sheet refers to
    a relationship that resolves to the target of the new part. *)
Lemma route_new (f : File.t) (sheet : string) (e : sheetEntry.t) :
  File.Sheets f !! sheet = Some e ->
  xlsxWorksheet.Drawing (sheetEntry.Sheet e) = None ->
  exists (ws' : xlsxWorksheet.t) (rID : Z),
    File.Sheets (route f sheet (sheetEntry.Sheet e)).2 !! sheet
      = Some (sheetEntry.Build (sheetEntry.XMLPath e) ws') /\
    xlsxWorksheet.Drawing ws' = Some (xlsxDrawing.Build rID) /\
    targetByID (relsOf (route f sheet (sheetEntry.Sheet e)).2
                  (sheetRelsPath (sheetEntry.XMLPath e))) rID
      = "../drawings/drawing" +:+ Itoa (GoInt.add (countDrawings f) 1) +:+ ".xml" /\
    (route f sheet (sheetEntry.Sheet e)).1.2
      = "xl/drawings/drawing" +:+ Itoa (GoInt.add (countDrawings f) 1) +:+ ".xml".
Proof.
  intros He Hnone. unfold route. rewrite Hnone.
  rewrite (getSheetXMLPath_lookup f sheet e He). cbn [fst snd].
  set (target := "../drawings/drawing" +:+ Itoa (GoInt.add (countDrawings f) 1) +:+ ".xml").
  set (relPath := sheetRelsPath (sheetEntry.XMLPath e)).
  pose proof (addRels_resolves f relPath SourceRelationshipDrawingML target "") as Hres.
  set (added := addRels f relPath SourceRelationshipDrawingML target "") in *.
  assert (Hsheets : File.Sheets added.2 !! sheet = Some e) by exact He.
  unfold addSheetNameSpace, addSheetDrawing.
  pose proof (updateSheet_lookup added.2 sheet
                (fun ws => xlsxWorksheet.Build (Some (xlsxDrawing.Build added.1))
                             (xlsxWorksheet.NameSpaces ws)) e Hsheets) as Hdrawn.
  set (drawn := updateSheet added.2 sheet _) in *.
  pose proof (updateSheet_lookup drawn sheet
                (fun ws => if bool_decide (SourceRelationship ∈ xlsxWorksheet.NameSpaces ws)
                           then ws
                           else xlsxWorksheet.Build (xlsxWorksheet.Drawing ws)
                                  (xlsxWorksheet.NameSpaces ws ++ [SourceRelationship]))
                _ Hdrawn) as Hspaced.
  cbn [sheetEntry.XMLPath sheetEntry.Sheet] in Hspaced.
  eexists _, added.1. split; [exact Hspaced|]. split; [|split; [|reflexivity]].
  - cbn [xlsxWorksheet.NameSpaces]. destruct (bool_decide _); reflexivity.
  - unfold relsOf in *.
    match goal with
    | |- context [File.Relationships (updateSheet ?g ?s ?k)] =>
        destruct (updateSheet_frame g s k) as (-> & _)
    end.
    subst drawn.
    match goal with
    | |- context [File.Relationships (updateSheet ?g ?s ?k)] =>
        destruct (updateSheet_frame g s k) as (-> & _)
    end.
    exact Hres.
Qed.

(** A second call takes the way of line 303 to 307 and arrives at the part
    of the first. *)
Lemma route_reuses (f g : File.t) (sheet : string) (ws : xlsxWorksheet.t) :
  workSheetReader f sheet = inr ws ->
  File.Sheets g = File.Sheets (route f sheet ws).2 ->
  File.Relationships g = File.Relationships (route f sheet ws).2 ->
  exists (ws' : xlsxWorksheet.t) (d : xlsxDrawing.t),
    workSheetReader g sheet = inr ws' /\
    xlsxWorksheet.Drawing ws' = Some d /\
    ReplaceAll (getSheetRelationshipsTargetByID g sheet (xlsxDrawing.RID d)) ".." "xl"
      = (route f sheet ws).1.2.
Proof.
  intros Hws Hsheets Hrels.
  destruct (workSheetReader_inr f sheet ws Hws) as (e & He & <-).
  destruct (xlsxWorksheet.Drawing (sheetEntry.Sheet e)) as [d|] eqn:Hdrawing.
  - assert (Hroute : route f sheet (sheetEntry.Sheet e)
                     = ((Atoi (TrimSuffix (TrimPrefix
                           (getSheetRelationshipsTargetByID f sheet (xlsxDrawing.RID d))
                           "../drawings/drawing") ".xml")).1,
                        ReplaceAll
                          (getSheetRelationshipsTargetByID f sheet (xlsxDrawing.RID d))
                          ".." "xl", f)).
    { unfold route. rewrite Hdrawing. reflexivity. }
    rewrite Hroute in *. cbn [fst snd] in *.
    exists (sheetEntry.Sheet e), d.
    split; [unfold workSheetReader; rewrite Hsheets, He; reflexivity|].
    split; [assumption|].
    unfold getSheetRelationshipsTargetByID, getSheetXMLPath, relsOf.
    rewrite Hsheets, Hrels. reflexivity.
  - destruct (route_new f sheet e He Hdrawing) as (ws' & rID & Hsheet' & Hd' & Htarget & Hpart).
    exists ws', (xlsxDrawing.Build rID).
    split; [unfold workSheetReader; rewrite Hsheets, Hsheet'; reflexivity|].
    split; [assumption|].
    unfold getSheetRelationshipsTargetByID, getSheetXMLPath.
    rewrite Hsheets, Hsheet'. cbn [fst sheetEntry.XMLPath xlsxDrawing.RID].
    unfold relsOf in *. rewrite Hrels, Htarget, Hpart.
    apply ReplaceAll_drawing_target.
Qed.

Lemma route_existing (g : File.t) (sheet : string) (ws : xlsxWorksheet.t)
    (d : xlsxDrawing.t) :
  xlsxWorksheet.Drawing ws = Some d ->
  (route g sheet ws).2 = g /\
  (route g sheet ws).1.2
  = ReplaceAll (getSheetRelationshipsTargetByID g sheet (xlsxDrawing.RID d)) ".." "xl".
Proof. intros Hd. unfold route. rewrite Hd. split; reflexivity. Qed.

(** The run of a call of [AddShape] that returns [nil]. *)
Lemma AddShape_nil (f : File.t) (h : shapes) (sheet cell : string) (opts : option loc)
    (f' : File.t) (h' : shapes) :
  AddShape f h sheet cell opts = Returned (None, f', h') ->
  exists (l : loc) (s : Shape.t) (ws : xlsxWorksheet.t) (stored : File.t),
    opts = Some l /\ h !! l = Some s /\ workSheetReader f sheet = inr ws /\
    addDrawingShape (route f sheet ws).2 (<[l := fillDefaults s]> h) sheet
      (route f sheet ws).1.2 cell (Some l) = Returned (None, stored, h') /\
    f' = (addContentTypePart stored (route f sheet ws).1.1 "drawings").2 /\
    (addContentTypePart stored (route f sheet ws).1.1 "drawings").1 = None.
Proof.
  intros Hrun. destruct opts as [l|]; [|discriminate].
  destruct (h !! l) as [s|] eqn:Hl;
    [|unfold AddShape, parseShapeOptions in Hrun; rewrite Hl in Hrun; discriminate].
  destruct (workSheetReader f sheet) as [e|ws] eqn:Hws.
  { unfold AddShape, parseShapeOptions in Hrun. rewrite Hl in Hrun.
    cbn [obind] in Hrun. rewrite Hws in Hrun. discriminate. }
  rewrite (AddShape_route f h sheet cell l s ws Hl Hws) in Hrun.
  destruct (addDrawingShape _ _ _ _ _ _) as [[[err stored] h1]|] eqn:Hadd;
    [|discriminate].
  cbn [obind] in Hrun. destruct err as [e|]; [discriminate|].
  destruct (addContentTypePart stored _ _) as [err f''] eqn:Hct.
  injection Hrun as -> -> ->.
  exists l, s, ws, stored. rewrite Hct. auto 10.
Qed.

(** The run of a call of [AddShape] that returns an error: the error of
    [parseShapeOptions], of the worksheet reader, of [addDrawingShape], or,
    after [addDrawingShape] has stored the anchor, of the registration at
    line 319. *)
Lemma AddShape_error (f : File.t) (h : shapes) (sheet cell : string) (opts : option loc)
    (e : error) (f' : File.t) (h' : shapes) :
  AddShape f h sheet cell opts = Returned (Some e, f', h') ->
  (opts = None /\ f' = f /\ h' = h) \/
  (exists (l : loc) (s : Shape.t),
     opts = Some l /\ h !! l = Some s /\
     ((workSheetReader f sheet = inl e /\ f' = f /\ h' = <[l := fillDefaults s]> h) \/
      (exists ws : xlsxWorksheet.t,
         workSheetReader f sheet = inr ws /\
         ((h' = <[l := fillDefaults s]> h /\ f' = (route f sheet ws).2 /\
           addDrawingShape (route f sheet ws).2 h' sheet (route f sheet ws).1.2 cell
             (Some l) = Returned (Some e, f', h')) \/
          (addDrawingShape (route f sheet ws).2 (<[l := fillDefaults s]> h) sheet
             (route f sheet ws).1.2 cell (Some l) = Returned (None, f', h') /\
           contentTypesReader f' = Some e))))).
Proof.
  intros Hrun. destruct opts as [l|].
  2: { injection Hrun as _ <- <-. auto. }
  right. destruct (h !! l) as [s|] eqn:Hl;
    [|unfold AddShape, parseShapeOptions in Hrun; rewrite Hl in Hrun; discriminate].
  exists l, s. split; [reflexivity|]. split; [exact Hl|].
  destruct (workSheetReader f sheet) as [e0|ws] eqn:Hws.
  { unfold AddShape, parseShapeOptions in Hrun. rewrite Hl in Hrun.
    cbn [obind] in Hrun. rewrite Hws in Hrun. injection Hrun as <- <- <-. auto. }
  rewrite (AddShape_route f h sheet cell l s ws Hl Hws) in Hrun.
  destruct (addDrawingShape _ _ _ _ _ _) as [[[err stored] h1]|] eqn:Hadd;
    [|discriminate].
  cbn [obind] in Hrun. right. exists ws. split; [reflexivity|]. destruct err as [e0|].
  - injection Hrun as <- <- <-.
    destruct (addDrawingShape_error _ _ _ _ _ _ _ _ _ Hadd) as (Hf & Hh & _).
    subst stored h1. left. auto.
  - destruct (addContentTypePart_frame stored (route f sheet ws).1.1 "drawings")
      as (Herr & _).
    pose proof (addContentTypePart_failed stored (route f sheet ws).1.1 "drawings" e)
      as Hsame.
    destruct (addContentTypePart stored _ _) as [err f'']. cbn [fst snd] in Herr, Hsame.
    injection Hrun as -> -> ->. rewrite (Hsame eq_refl) in *. right. auto.
Qed.

End Orchestrator.

Section Claims.
Context `{Externals}.

(** C3, amended: a call of [addDrawingShape] that fails, by the cell
    reference, the drawing part or the default font, leaves the workbook
    and the description as they were, and a call that succeeds only stores
    the loaded document with one anchor more.  A call of [AddShape] that
    fails leaves the content types and the package as they were.  When the
    error is that of the registration of line 319, [addDrawingShape] has
    returned [nil] before and the workbook is the one it left, the anchor
    stored.  Otherwise the drawing parts are as they were too; the whole
    workbook is as it was when the description is [nil], when the sheet is
    not found or when the sheet already refers to a drawing part; for a
    sheet without drawing part the relationship, the reference to it and
    the name space, registered before the delegate call, stay.  A call of
    [AddShape] that returns [nil] has registered, after [addDrawingShape]
    returned [nil], the index of the drawing part with the content
    types. *)
Theorem failure_paths (f : File.t) (h : shapes) (sheet cell : string)
    (opts : option loc) :
  (forall (drawingXML : string) (e : error) (f' : File.t) (h' : shapes),
     addDrawingShape f h sheet drawingXML cell opts = Returned (Some e, f', h') ->
     f' = f /\ h' = h) /\
  (forall (drawingXML : string) (f' : File.t) (h' : shapes),
     addDrawingShape f h sheet drawingXML cell opts = Returned (None, f', h') ->
     exists (content : xlsxWsDr.t) (cNvPrID : Z) (a : xdrCellAnchor.t),
       drawingParser f drawingXML = inr (content, cNvPrID) /\
       f' = storeDrawing f drawingXML
              (xlsxWsDr.Build (xlsxWsDr.TwoCellAnchor content ++ [a]))) /\
  (forall (e : error) (f' : File.t) (h' : shapes),
     AddShape f h sheet cell opts = Returned (Some e, f', h') ->
     File.ContentTypes f' = File.ContentTypes f /\
     File.Pkg f' = File.Pkg f /\
     ((exists (l : loc) (s : Shape.t) (ws : xlsxWorksheet.t),
         opts = Some l /\ h !! l = Some s /\ workSheetReader f sheet = inr ws /\
         addDrawingShape (route f sheet ws).2 (<[l := fillDefaults s]> h) sheet
           (route f sheet ws).1.2 cell (Some l) = Returned (None, f', h') /\
         (addContentTypePart f' (route f sheet ws).1.1 "drawings").1 = Some e) \/
      (File.Drawings f' = File.Drawings f /\
       (opts = None -> f' = f) /\
       (forall err : error, workSheetReader f sheet = inl err -> f' = f) /\
       (forall ws : xlsxWorksheet.t,
          workSheetReader f sheet = inr ws -> is_Some (xlsxWorksheet.Drawing ws) ->
          f' = f) /\
       (forall ws : xlsxWorksheet.t,
          opts <> None -> workSheetReader f sheet = inr ws ->
          xlsxWorksheet.Drawing ws = None -> f' = (route f sheet ws).2)))) /\
  (forall (f' : File.t) (h' : shapes),
     AddShape f h sheet cell opts = Returned (None, f', h') ->
     exists (l : loc) (s : Shape.t) (ws : xlsxWorksheet.t) (stored : File.t),
       opts = Some l /\ h !! l = Some s /\ workSheetReader f sheet = inr ws /\
       addDrawingShape (route f sheet ws).2 (<[l := fillDefaults s]> h) sheet
         (route f sheet ws).1.2 cell (Some l) = Returned (None, stored, h') /\
       f' = (addContentTypePart stored (route f sheet ws).1.1 "drawings").2 /\
       ("drawings", (route f sheet ws).1.1) ∈ File.ContentTypes f').
Proof.
  split; [|split; [|split]].
  - intros drawingXML e f' h' Hrun.
    destruct (addDrawingShape_error _ _ _ _ _ _ _ _ _ Hrun) as (-> & -> & _). auto.
  - intros drawingXML f' h' Hrun. run_facts Hrun. eauto.
  - intros e f' h' Hrun.
    destruct (AddShape_error _ _ _ _ _ _ _ _ Hrun)
      as [(-> & -> & ->)
         | (l & s & -> & Hl
            & [(Hws & -> & ->)
              | (ws & Hws & [(-> & Hf & _) | (Hadd & Herr)])])].
    + split; [reflexivity|]. split; [reflexivity|]. right.
      repeat split; auto; congruence.
    + split; [reflexivity|]. split; [reflexivity|]. right.
      repeat split; auto; congruence.
    + destruct (route_frame f sheet ws) as (Hd & Hp & Hc). rewrite Hf.
      split; [assumption|]. split; [assumption|]. right.
      split; [assumption|]. split; [discriminate|].
      split; [congruence|]. split.
      * intros ws' Hws' [d Hd']. rewrite Hws in Hws'. injection Hws' as <-.
        apply (route_existing f sheet ws d Hd').
      * intros ws' _ Hws' _. congruence.
    + destruct (route_frame f sheet ws) as (_ & Hp & Hc).
      destruct (addDrawingShape_nil _ _ _ _ _ _ _ _ Hadd)
        as [? ? ? ? ? ? ? ? ? ? ? ? ? ? ? ? _ _ _ _ _ _ _ _ _ _ Hstored].
      split; [rewrite Hstored; exact Hc|]. split; [rewrite Hstored; exact Hp|].
      left. exists l, s, ws. repeat (split; [assumption || reflexivity|]).
      destruct (addContentTypePart_frame f' (route f sheet ws).1.1 "drawings")
        as (-> & _). exact Herr.
  - intros f' h' Hrun.
    destruct (AddShape_nil _ _ _ _ _ _ _ Hrun)
      as (l & s & ws & stored & Hopts & Hl & Hws & Hadd & Hf' & Hnil).
    exists l, s, ws, stored. repeat (split; [assumption|]).
    rewrite Hf'. apply addContentTypePart_registered. exact Hnil.
Qed.

(** C1: two calls of [AddShape] for one sheet that both succeed store
    their anchors, one after the other, behind the anchors of one and the
    same drawing part, and change no other part; the second call reaches
    that part through the relationship the sheet refers to; the identities
    of the two shapes are N and N + 1, N being one more than the number of
    anchors the part had before the first call. *)
Theorem two_shapes_one_part (f0 : File.t) (h0 : shapes) (sheet cell1 cell2 : string)
    (opts1 opts2 : option loc) (f1 f2 : File.t) (h1 h2 : shapes) :
  AddShape f0 h0 sheet cell1 opts1 = Returned (None, f1, h1) ->
  AddShape f1 h1 sheet cell2 opts2 = Returned (None, f2, h2) ->
  exists (part : string) (before : xlsxWsDr.t) (N : Z)
         (a1 a2 : xdrCellAnchor.t) (sp1 sp2 : xdrSp.t)
         (ws : xlsxWorksheet.t) (d : xlsxDrawing.t),
    drawingParser f0 part = inr (before, N) /\
    N = Z.of_nat (length (xlsxWsDr.TwoCellAnchor before)) + 1 /\
    File.Drawings f1 !! part
      = Some (xlsxWsDr.Build (xlsxWsDr.TwoCellAnchor before ++ [a1])) /\
    File.Drawings f2 !! part
      = Some (xlsxWsDr.Build (xlsxWsDr.TwoCellAnchor before ++ [a1; a2])) /\
    (forall p : string, p <> part -> File.Drawings f2 !! p = File.Drawings f0 !! p) /\
    xdrCellAnchor.Sp a1 = Some sp1 /\ xdrCellAnchor.Sp a2 = Some sp2 /\
    xlsxCNvPr.ID (xdrNvSpPr.CNvPr (xdrSp.NvSpPr sp1)) = N /\
    xlsxCNvPr.ID (xdrNvSpPr.CNvPr (xdrSp.NvSpPr sp2)) = N + 1 /\
    workSheetReader f1 sheet = inr ws /\
    xlsxWorksheet.Drawing ws = Some d /\
    part = ReplaceAll (getSheetRelationshipsTargetByID f1 sheet (xlsxDrawing.RID d))
             ".." "xl".
Proof.
  intros Hfirst Hsecond.
  destruct (AddShape_nil _ _ _ _ _ _ _ Hfirst)
    as (l1 & s1 & ws0 & stored1 & _ & _ & Hws0 & Hadd1 & Hf1 & Hreg1).
  destruct (AddShape_nil _ _ _ _ _ _ _ Hsecond)
    as (l2 & s2 & ws1 & stored2 & _ & _ & Hws1 & Hadd2 & Hf2 & Hreg2).
  destruct (route_frame f0 sheet ws0) as (Hd0 & Hp0 & _).
  set (fA := (route f0 sheet ws0).2) in *.
  set (part := (route f0 sheet ws0).1.2) in *.
  destruct (addContentTypePart_frame stored1 (route f0 sheet ws0).1.1 "drawings")
    as (_ & Hs1 & Hr1 & Hd1 & _).
  rewrite <- Hf1 in Hs1, Hr1, Hd1.
  destruct (addDrawingShape_nil _ _ _ _ _ _ _ _ Hadd1)
    as [l o fromCol fromRow colStart rowStart colEnd rowEnd x2 y2 content cNvPrID
          lineWidth font locked printObject
          _ _ _ _ Hparse1 _ _ _ _ _ Hstored1].
  set (a1 := anchorOf fA o colStart rowStart colEnd rowEnd x2 y2 cNvPrID lineWidth font
               locked printObject) in *.
  assert (Hpart1 : File.Drawings f1 !! part
                   = Some (xlsxWsDr.Build (xlsxWsDr.TwoCellAnchor content ++ [a1]))).
  { rewrite Hd1, Hstored1. apply lookup_insert_eq. }
  assert (Hsheets : File.Sheets f1 = File.Sheets fA) by (rewrite Hs1, Hstored1; reflexivity).
  assert (Hrels : File.Relationships f1 = File.Relationships fA)
    by (rewrite Hr1, Hstored1; reflexivity).
  destruct (route_reuses f0 f1 sheet ws0 Hws0 Hsheets Hrels)
    as (ws' & d & Hws' & Hd' & Hpath).
  fold part in Hpath.
  rewrite Hws' in Hws1. injection Hws1 as <-.
  destruct (route_existing f1 sheet ws' d Hd') as (Hsame & Hpart').
  rewrite Hpath in Hpart'. rewrite Hsame, Hpart' in Hadd2.
  destruct (addContentTypePart_frame stored2 (route f1 sheet ws').1.1 "drawings")
    as (_ & _ & _ & Hd2 & _).
  rewrite <- Hf2 in Hd2.
  destruct (addDrawingShape_nil _ _ _ _ _ _ _ _ Hadd2)
    as [l' o' fromCol' fromRow' colStart' rowStart' colEnd' rowEnd' x2' y2' content'
          cNvPrID' lineWidth' font' locked' printObject'
          _ _ _ _ Hparse2 _ _ _ _ _ Hstored2].
  rewrite (drawingParser_stored f1 part _ Hpart1) in Hparse2.
  injection Hparse2 as <- <-.
  cbn [xlsxWsDr.TwoCellAnchor] in Hstored2.
  set (a2 := anchorOf f1 o' colStart' rowStart' colEnd' rowEnd' x2' y2' _ lineWidth'
               font' locked' printObject') in *.
  pose proof (drawingParser_id fA part content cNvPrID Hparse1) as HN.
  exists part, content, cNvPrID, a1, a2,
    (shapeOf fA o cNvPrID lineWidth font),
    (shapeOf f1 o' (Z.of_nat (length (xlsxWsDr.TwoCellAnchor content ++ [a1])) + 1)
       lineWidth' font'),
    ws', d.
  split; [rewrite <- Hparse1; apply drawingParser_ext; congruence|].
  split; [exact HN|]. split; [exact Hpart1|]. split.
  { rewrite Hd2, Hstored2. cbn [File.Drawings storeDrawing File.setDrawings].
    rewrite lookup_insert_eq, <- app_assoc. reflexivity. }
  split.
  { intros p Hp. rewrite Hd2, Hstored2. cbn [File.Drawings storeDrawing File.setDrawings].
    rewrite lookup_insert_ne by congruence.
    rewrite Hd1, Hstored1. cbn [File.Drawings storeDrawing File.setDrawings].
    rewrite lookup_insert_ne by congruence. rewrite Hd0. reflexivity. }
  split; [reflexivity|]. split; [reflexivity|]. split; [reflexivity|]. split.
  { cbn [shapeOf xdrSp.NvSpPr xdrNvSpPr.CNvPr xlsxCNvPr.ID].
    rewrite length_app. cbn [length]. lia. }
  split; [exact Hws'|]. split; [exact Hd'|]. symmetry. exact Hpath.
Qed.

End Claims.

(** The failure paths at the sample workbook, for an empty cell
    reference. *)
Lemma failure_paths_witness :
  exists (e : error) (f' : File.t) (h' : shapes),
    AddShape Sample.book Sample.store "Sheet1" "" (Some 0%nat)
      = Returned (Some e, f', h') /\
    addDrawingShape Sample.book Sample.store "Sheet1" Sample.part "" (Some 0%nat)
      = Returned (Some e, Sample.book, Sample.store) /\
    File.ContentTypes f' = File.ContentTypes Sample.book /\
    File.Pkg f' = File.Pkg Sample.book.
Proof.
  eexists _, _, _. split; [vm_compute; reflexivity|].
  destruct (failure_paths Sample.book Sample.store "Sheet1" "" (Some 0%nat))
    as (Hdelegate & _ & Hadd & _).
  split; [vm_compute; reflexivity|].
  edestruct Hadd as (Hc & Hp & _); [vm_compute; reflexivity|].
  split; [exact Hc|exact Hp].
Defined.

(** The registration of line 319 fails for a workbook whose content types
    cannot be read: [AddShape] returns that error, and the anchor is in
    the drawing part all the same. *)
Example AddShape_failure_after_store :
  let f := File.Build {[ "Sheet1" := Sample.sheet1 ]} ∅ ∅
             {[ "[Content_Types].xml" := "" ]} [] in
  exists (f' : File.t) (h' : shapes) (a : xdrCellAnchor.t),
    AddShape f Sample.store "Sheet1" "G6" (Some 0%nat)
      = Returned (Some (UpstreamError "[Content_Types].xml"), f', h') /\
    File.Drawings f !! Sample.part = None /\
    File.Drawings f' !! Sample.part = Some (xlsxWsDr.Build [a]).
Proof.
  intros f. eexists _, _, _. split; [vm_compute; reflexivity|].
  split; vm_compute; reflexivity.
Qed.

(** C3, as the claim states it, fails: [AddShape] for a sheet without
    drawing part and with a cell reference that does not parse returns the
    error of the reference, and the relationship registry and the sheet
    descriptor are not as they were before the call. *)
Lemma AddShape_failure_after_registration :
  exists (f' : File.t) (h' : shapes),
    AddShape Sample.book Sample.store "Sheet1" "" (Some 0%nat)
      = Returned (Some (InvalidReference ""), f', h') /\
    File.Relationships Sample.book !! "xl/worksheets/_rels/sheet1.xml.rels" = None /\
    File.Relationships f' !! "xl/worksheets/_rels/sheet1.xml.rels"
      = Some [ xlsxRelationship.Build 1 SourceRelationshipDrawingML
                 "../drawings/drawing1.xml" "" ] /\
    workSheetReader Sample.book "Sheet1" = inr (xlsxWorksheet.Build None []) /\
    workSheetReader f' "Sheet1"
      = inr (xlsxWorksheet.Build (Some (xlsxDrawing.Build 1)) [SourceRelationship]) /\
    f' <> Sample.book.
Proof.
  eexists _, _. split; [vm_compute; reflexivity|].
  repeat (split; [vm_compute; reflexivity|]).
  intros Heq.
  apply (f_equal (fun f => File.Relationships f !! "xl/worksheets/_rels/sheet1.xml.rels"))
    in Heq.
  vm_compute in Heq. discriminate.
Qed.

(** Two shapes for the sheet of the sample workbook, which has no drawing
    part before the first call. *)
Lemma two_shapes_one_part_witness :
  exists (f1 f2 : File.t) (h1 h2 : shapes),
    let f0 := Sample.book in
    let h0 : shapes := {[ 0%nat := Sample.rect ]} in
    let sheet := "Sheet1" in
    let cell1 := "G6" in
    let cell2 := "A1" in
    let opts1 := Some 0%nat in
    let opts2 := Some 0%nat in
    AddShape f0 h0 sheet cell1 opts1 = Returned (None, f1, h1) /\
    AddShape f1 h1 sheet cell2 opts2 = Returned (None, f2, h2) /\
    exists (part : string) (before : xlsxWsDr.t) (N : Z)
           (a1 a2 : xdrCellAnchor.t) (sp1 sp2 : xdrSp.t)
           (ws : xlsxWorksheet.t) (d : xlsxDrawing.t),
      drawingParser f0 part = inr (before, N) /\
      N = Z.of_nat (length (xlsxWsDr.TwoCellAnchor before)) + 1 /\
      File.Drawings f1 !! part
        = Some (xlsxWsDr.Build (xlsxWsDr.TwoCellAnchor before ++ [a1])) /\
      File.Drawings f2 !! part
        = Some (xlsxWsDr.Build (xlsxWsDr.TwoCellAnchor before ++ [a1; a2])) /\
      (forall p : string, p <> part -> File.Drawings f2 !! p = File.Drawings f0 !! p) /\
      xdrCellAnchor.Sp a1 = Some sp1 /\ xdrCellAnchor.Sp a2 = Some sp2 /\
      xlsxCNvPr.ID (xdrNvSpPr.CNvPr (xdrSp.NvSpPr sp1)) = N /\
      xlsxCNvPr.ID (xdrNvSpPr.CNvPr (xdrSp.NvSpPr sp2)) = N + 1 /\
      workSheetReader f1 sheet = inr ws /\
      xlsxWorksheet.Drawing ws = Some d /\
      part = ReplaceAll (getSheetRelationshipsTargetByID f1 sheet (xlsxDrawing.RID d))
               ".." "xl".
Proof.
  eexists _, _, _, _. intros f0 h0 sheet cell1 cell2 opts1 opts2.
  split; [vm_compute; reflexivity|]. split; [vm_compute; reflexivity|].
  eapply (two_shapes_one_part f0 h0 sheet cell1 cell2 opts1 opts2).
  - vm_compute. reflexivity.
  - vm_compute. reflexivity.
Defined.

(** ** The scenarios of the specification on the sample workbook *)

(** An underline the table does not have resolves to none. *)
Example underline_squiggle :
  runUnderline (Font.Build false false "squiggle" "Calibri" (F64.of_Z 11) "000000")
  = "none".
Proof. vm_compute. reflexivity. Qed.

(** A shape of 180 by 40 pixels anchored at G6, with columns of 64 and rows
    of 20 pixels: it starts in the cell itself and ends two columns and two
    rows further, 52 pixels into the column. *)
Example anchor_at_G6 :
  match addDrawingShape Sample.book Sample.store "Sheet1" Sample.part "G6" (Some 0%nat)
  with
  | Returned (None, f', _) =>
      lastAnchor f' Sample.part ≫= fun a =>
        Some (xdrCellAnchor.From a, xdrCellAnchor.To a)
  | _ => None
  end
  = Some (Some (xlsxFrom.Build 6 0 5 0), Some (xlsxTo.Build 8 (52 * 9525) 7 0)).
Proof. vm_compute. reflexivity. Qed.

(** * Further properties of shape.go *)

(** ** Decimal numbers and path fragments (lines 300 to 307) *)

Lemma append_assoc (s t u : string) : (s +:+ t) +:+ u = s +:+ (t +:+ u).
Proof.
  induction s as [|c s IH]; [reflexivity|].
  change (String c ((s +:+ t) +:+ u) = String c (s +:+ (t +:+ u))). rewrite IH. reflexivity.
Qed.

Lemma append_empty_r (s : string) : s +:+ "" = s.
Proof.
  induction s as [|c s IH]; [reflexivity|].
  change (String c (s +:+ "") = String c s). rewrite IH. reflexivity.
Qed.

Lemma length_append (s t : string) :
  String.length (s +:+ t) = (String.length s + String.length t)%nat.
Proof.
  induction s as [|c s IH]; [reflexivity|].
  change (S (String.length (s +:+ t)) = S (String.length s + String.length t)).
  rewrite IH. reflexivity.
Qed.

Lemma digitByte_value (d : Z) :
  0 <= d < 10 ->
  isDigit (digitByte d) = true /\ Z.of_N (byte_val (digitByte d)) - 48 = d.
Proof.
  intros Hd.
  assert (Hcases : d = 0 \/ d = 1 \/ d = 2 \/ d = 3 \/ d = 4 \/ d = 5 \/ d = 6 \/
                   d = 7 \/ d = 8 \/ d = 9) by lia.
  repeat (destruct Hcases as [->|Hcases]; [split; reflexivity|]).
  subst d. split; reflexivity.
Qed.

(** The digits [digitsOf] writes in front of [acc], read back by
    [digitsValue], give the number. *)
Lemma digitsOf_value (fuel : nat) :
  forall n : Z, 0 <= n < 10 ^ Z.of_nat fuel ->
    exists pre : string,
      (forall acc : string, digitsOf fuel n acc = pre +:+ acc) /\
      allBytes isDigit pre = true /\
      (n = 0 \/ pre <> "") /\
      (forall (rest : string) (a : Z),
         digitsValue (pre +:+ rest) a
         = digitsValue rest (a * 10 ^ Z.of_nat (String.length pre) + n)).
Proof.
  induction fuel as [|fuel IH]; intros n Hn.
  - change (10 ^ Z.of_nat 0) with 1 in Hn.
    exists "". split; [reflexivity|]. split; [reflexivity|].
    split; [left; lia|]. intros rest a.
    change ("" +:+ rest) with rest. change (10 ^ Z.of_nat (String.length "")) with 1.
    f_equal. lia.
  - rewrite Nat2Z.inj_succ, Z.pow_succ_r in Hn by lia.
    assert (Hmod : 0 <= n mod 10 < 10) by (apply Z.mod_pos_bound; lia).
    destruct (digitByte_value (n mod 10) Hmod) as [Hdigit Hvalue].
    pose proof (Z.div_mod n 10 ltac:(lia)) as Hdm.
    cbn [digitsOf]. destruct (n / 10 =? 0) eqn:Hq.
    + apply Z.eqb_eq in Hq. exists (String (digitByte (n mod 10)) "").
      split; [reflexivity|].
      split; [cbn [allBytes]; rewrite Hdigit; reflexivity|].
      split; [right; discriminate|]. intros rest a.
      change (String (digitByte (n mod 10)) "" +:+ rest)
        with (String (digitByte (n mod 10)) rest).
      cbn [digitsValue]. rewrite Hdigit, Hvalue.
      change (10 ^ Z.of_nat (String.length (String (digitByte (n mod 10)) ""))) with 10.
      f_equal. lia.
    + apply Z.eqb_neq in Hq.
      assert (Hquot : 0 <= n / 10 < 10 ^ Z.of_nat fuel).
      { split; [apply Z.div_pos; lia | apply Z.div_lt_upper_bound; lia]. }
      destruct (IH (n / 10) Hquot) as (pre & Hpre & Hall & _ & Hval).
      exists (pre +:+ String (digitByte (n mod 10)) "").
      split; [|split; [|split]].
      * intros acc. rewrite Hpre, append_assoc. reflexivity.
      * rewrite allBytes_app, Hall. cbn [allBytes andb]. rewrite Hdigit. reflexivity.
      * right. destruct pre; discriminate.
      * intros rest a. rewrite append_assoc.
        change (String (digitByte (n mod 10)) "" +:+ rest)
          with (String (digitByte (n mod 10)) rest).
        rewrite Hval. cbn [digitsValue]. rewrite Hdigit, Hvalue, length_append.
        rewrite Nat2Z.inj_add.
        change (Z.of_nat (String.length (String (digitByte (n mod 10)) ""))) with 1.
        rewrite Z.pow_add_r by lia. f_equal. lia.
Qed.

Lemma sign_of_digit (c : ascii) (s : string) :
  isDigit c = true ->
  match String c s with
  | String "-" s' => (true, s')
  | String "+" s' => (false, s')
  | _ => (false, String c s)
  end = (false, String c s).
Proof.
  destruct c as [[] [] [] [] [] [] [] []]; intros Hc; try discriminate Hc; reflexivity.
Qed.

(** [strconv.Atoi] reads back what [strconv.Itoa] writes, without error,
    for every value of [int]. *)
Lemma Atoi_Itoa (n : Z) : GoInt.in_range n = true -> Atoi (Itoa n) = (n, false).
Proof.
  unfold GoInt.in_range, GoInt.min_int, GoInt.max_int. intros Hn.
  apply andb_prop in Hn as [Hlo Hhi]. apply Z.leb_le in Hlo. apply Z.leb_le in Hhi.
  assert (Hbig : 2 ^ 63 < 10 ^ Z.of_nat 20) by (vm_compute; reflexivity).
  unfold Itoa. destruct (n <? 0) eqn:Hneg.
  - apply Z.ltb_lt in Hneg.
    destruct (digitsOf_value 20 (- n) ltac:(lia)) as (pre & Hpre & Hall & Hne & Hval).
    rewrite Hpre, append_empty_r. destruct Hne as [Hz|Hne]; [lia|].
    destruct pre as [|c pre]; [congruence|].
    specialize (Hval "" 0). rewrite append_empty_r in Hval.
    unfold Atoi. rewrite Hval. cbn [digitsValue]. rewrite Z.mul_0_l, Z.add_0_l.
    assert (Hlt : (2 ^ 63 <? - n) = false) by (apply Z.ltb_ge; lia).
    rewrite Hlt. f_equal. lia.
  - apply Z.ltb_ge in Hneg.
    destruct (digitsOf_value 20 n ltac:(lia)) as (pre & Hpre & Hall & Hne & Hval).
    rewrite Hpre, append_empty_r.
    destruct pre as [|c pre].
    + destruct Hne as [Hz|Hne]; [|congruence]. subst n.
      specialize (Hpre ""). vm_compute in Hpre. discriminate.
    + cbn [allBytes] in Hall. apply andb_prop in Hall as [Hc Hall].
      unfold Atoi. rewrite (sign_of_digit c pre Hc).
      specialize (Hval "" 0). rewrite append_empty_r in Hval.
      rewrite Hval. cbn [digitsValue]. rewrite Z.mul_0_l, Z.add_0_l.
      assert (Hle : (2 ^ 63 <=? n) = false) by (apply Z.leb_gt; lia).
      rewrite Hle. reflexivity.
Qed.

Lemma HasPrefix_append (p s : string) : HasPrefix (p +:+ s) p = true.
Proof.
  induction p as [|c p IH]; [reflexivity|].
  change (String c p +:+ s) with (String c (p +:+ s)).
  cbn [HasPrefix]. rewrite Ascii.eqb_refl. exact IH.
Qed.

Lemma drop_append (p s : string) : drop (String.length p) (p +:+ s) = s.
Proof. induction p as [|c p IH]; [reflexivity|]. exact IH. Qed.

Lemma take_append (s t : string) : take (String.length s) (s +:+ t) = s.
Proof.
  induction s as [|c s IH]; [reflexivity|].
  change (String c (take (String.length s) (s +:+ t)) = String c s). rewrite IH. reflexivity.
Qed.

Lemma TrimPrefix_append (p s : string) : TrimPrefix (p +:+ s) p = s.
Proof. unfold TrimPrefix. rewrite HasPrefix_append. apply drop_append. Qed.

Lemma TrimSuffix_append (s suf : string) : TrimSuffix (s +:+ suf) suf = s.
Proof.
  unfold TrimSuffix, HasSuffix. rewrite length_append.
  replace (String.length s + String.length suf - String.length suf)%nat
    with (String.length s) by lia.
  rewrite drop_append, String.eqb_refl.
  replace (String.length suf <=? String.length s + String.length suf)%nat with true
    by (symmetry; apply Nat.leb_le; lia).
  apply take_append.
Qed.

Section Index.
Context `{Externals}.

(** Lines 305 and 306 undo line 301: the index is read back from the
    target written for it. *)
Lemma target_index (n : Z) :
  GoInt.in_range n = true ->
  Atoi (TrimSuffix
          (TrimPrefix ("../drawings/drawing" +:+ Itoa n +:+ ".xml") "../drawings/drawing")
          ".xml") = (n, false).
Proof.
  intros Hn.
  rewrite (TrimPrefix_append "../drawings/drawing" (Itoa n +:+ ".xml")).
  rewrite TrimSuffix_append. exact (Atoi_Itoa n Hn).
Qed.

Lemma in_range_wrap (z : Z) : GoInt.in_range (GoInt.wrap z) = true.
Proof.
  pose proof (wrap_bounds z) as [Hlo Hhi]. unfold GoInt.in_range.
  apply andb_true_intro. split; apply Z.leb_le; assumption.
Qed.

Lemma route_same_index (f g : File.t) (sheet : string) (ws : xlsxWorksheet.t) :
  workSheetReader f sheet = inr ws ->
  File.Sheets g = File.Sheets (route f sheet ws).2 ->
  File.Relationships g = File.Relationships (route f sheet ws).2 ->
  exists (ws' : xlsxWorksheet.t),
    workSheetReader g sheet = inr ws' /\
    is_Some (xlsxWorksheet.Drawing ws') /\
    (route g sheet ws').1.1 = (route f sheet ws).1.1 /\
    (route g sheet ws').1.2 = (route f sheet ws).1.2 /\
    (route g sheet ws').2 = g.
Proof.
  intros Hws Hsheets Hrels.
  destruct (workSheetReader_inr f sheet ws Hws) as (e & He & <-).
  destruct (xlsxWorksheet.Drawing (sheetEntry.Sheet e)) as [d|] eqn:Hdrawing.
  - assert (Hsame : (route f sheet (sheetEntry.Sheet e)).2 = f)
      by (apply (route_existing f sheet _ d Hdrawing)).
    rewrite Hsame in *.
    exists (sheetEntry.Sheet e).
    split; [unfold workSheetReader; rewrite Hsheets, He; reflexivity|].
    split; [eauto|].
    unfold route. rewrite Hdrawing.
    unfold getSheetRelationshipsTargetByID, getSheetXMLPath, relsOf.
    rewrite Hsheets, Hrels. repeat split.
  - destruct (route_new f sheet e He Hdrawing) as (ws' & rID & Hsheet' & Hd' & Htarget & Hpart).
    exists ws'.
    split; [unfold workSheetReader; rewrite Hsheets, Hsheet'; reflexivity|].
    split; [eauto|].
    assert (Htarget' : getSheetRelationshipsTargetByID g sheet
                         (xlsxDrawing.RID (xlsxDrawing.Build rID))
                       = "../drawings/drawing" +:+ Itoa (GoInt.add (countDrawings f) 1)
                           +:+ ".xml").
    { unfold getSheetRelationshipsTargetByID, getSheetXMLPath.
      rewrite Hsheets, Hsheet'. cbn [fst sheetEntry.XMLPath xlsxDrawing.RID].
      unfold relsOf in *. rewrite Hrels. exact Htarget. }
    assert (Hroute : route g sheet ws'
                     = (GoInt.add (countDrawings f) 1,
                        "xl/drawings/drawing" +:+ Itoa (GoInt.add (countDrawings f) 1)
                          +:+ ".xml", g)).
    { unfold route. rewrite Hd', Htarget', ReplaceAll_drawing_target.
      rewrite (target_index (GoInt.add (countDrawings f) 1) (in_range_wrap _)).
      reflexivity. }
    rewrite Hroute. cbn [fst snd]. rewrite Hpart. unfold route. rewrite Hdrawing. repeat split.
Qed.

(** X1: for a sheet that refers to a drawing part whose relationship target
    is the one line 301 writes for the index [n], [AddShape] reads back
    that index and the path line 300 writes for it, and registers nothing:
    trimming the prefix and the suffix and [strconv.Atoi] undo
    [strconv.Itoa] and the two concatenations, and the replacement of
    [..] by [xl] reaches no other place of the target. *)
Theorem route_decodes_target (f : File.t) (sheet : string) (ws : xlsxWorksheet.t)
    (d : xlsxDrawing.t) (n : Z) :
  xlsxWorksheet.Drawing ws = Some d ->
  getSheetRelationshipsTargetByID f sheet (xlsxDrawing.RID d)
    = "../drawings/drawing" +:+ Itoa n +:+ ".xml" ->
  GoInt.in_range n = true ->
  route f sheet ws = (n, "xl/drawings/drawing" +:+ Itoa n +:+ ".xml", f).
Proof.
  intros Hd Htarget Hn. unfold route. rewrite Hd, Htarget.
  rewrite ReplaceAll_drawing_target, (target_index n Hn). reflexivity.
Qed.

End Index.

(** The relationship target written for drawing part 7 is read back as 7. *)
Lemma route_decodes_target_witness :
  let rels : gmap string (list xlsxRelationship.t) :=
    {[ "xl/worksheets/_rels/sheet1.xml.rels" :=
         [xlsxRelationship.Build 1 SourceRelationshipDrawingML
            "../drawings/drawing7.xml" ""] ]} in
  let d := xlsxDrawing.Build 1 in
  let ws := xlsxWorksheet.Build (Some d) [] in
  let f := File.setRelationships rels Sample.book in
  getSheetRelationshipsTargetByID f "Sheet1" (xlsxDrawing.RID d)
    = "../drawings/drawing" +:+ Itoa 7 +:+ ".xml" /\
  route f "Sheet1" ws = (7, "xl/drawings/drawing" +:+ Itoa 7 +:+ ".xml", f).
Proof.
  intros rels d ws f. split; [vm_compute; reflexivity|].
  apply (route_decodes_target f "Sheet1" ws d 7); vm_compute; reflexivity.
Defined.

(** ** The registries after a call *)

Section After.
Context `{Externals}.

(** X4: of two calls of [AddShape] for one sheet that both return [nil],
    the second decodes the index the first call computed, which is the
    index the first call registered the drawing part under with the
    content types; so the second call leaves the content types, and the
    sheets and the relationships, as the first left them. *)
Theorem content_type_once (f0 : File.t) (h0 : shapes) (sheet cell1 cell2 : string)
    (opts1 opts2 : option loc) (f1 f2 : File.t) (h1 h2 : shapes) :
  AddShape f0 h0 sheet cell1 opts1 = Returned (None, f1, h1) ->
  AddShape f1 h1 sheet cell2 opts2 = Returned (None, f2, h2) ->
  exists ws0 ws1 : xlsxWorksheet.t,
    workSheetReader f0 sheet = inr ws0 /\
    workSheetReader f1 sheet = inr ws1 /\
    (route f1 sheet ws1).1.1 = (route f0 sheet ws0).1.1 /\
    ("drawings", (route f0 sheet ws0).1.1) ∈ File.ContentTypes f1 /\
    File.ContentTypes f2 = File.ContentTypes f1 /\
    File.Sheets f2 = File.Sheets f1 /\
    File.Relationships f2 = File.Relationships f1.
Proof.
  intros Hfirst Hsecond.
  destruct (AddShape_nil _ _ _ _ _ _ _ Hfirst)
    as (l1 & s1 & ws0 & stored1 & _ & _ & Hws0 & Hadd1 & Hf1 & Hreg1).
  destruct (AddShape_nil _ _ _ _ _ _ _ Hsecond)
    as (l2 & s2 & ws1 & stored2 & _ & _ & Hws1 & Hadd2 & Hf2 & Hreg2).
  destruct (addContentTypePart_frame stored1 (route f0 sheet ws0).1.1 "drawings")
    as (_ & Hs1 & Hr1 & _ & _).
  pose proof (addContentTypePart_registered stored1 (route f0 sheet ws0).1.1 "drawings"
                Hreg1) as Hin1.
  rewrite <- Hf1 in Hs1, Hr1, Hin1.
  destruct (addDrawingShape_nil _ _ _ _ _ _ _ _ Hadd1)
    as [? ? ? ? ? ? ? ? ? ? ? ? ? ? ? ? _ _ _ _ _ _ _ _ _ _ Hstored1].
  assert (Hsheets : File.Sheets f1 = File.Sheets (route f0 sheet ws0).2)
    by (rewrite Hs1, Hstored1; reflexivity).
  assert (Hrels : File.Relationships f1 = File.Relationships (route f0 sheet ws0).2)
    by (rewrite Hr1, Hstored1; reflexivity).
  destruct (route_same_index f0 f1 sheet ws0 Hws0 Hsheets Hrels)
    as (ws' & Hws' & _ & Hindex & _ & Hsame).
  rewrite Hws' in Hws1. injection Hws1 as <-.
  exists ws0, ws'. split; [exact Hws0|]. split; [exact Hws'|].
  split; [exact Hindex|]. split; [exact Hin1|].
  rewrite Hsame in Hadd2. rewrite Hindex in Hf2.
  destruct (addDrawingShape_nil _ _ _ _ _ _ _ _ Hadd2)
    as [? ? ? ? ? ? ? ? ? ? ? ? ? ? ? ? _ _ _ _ _ _ _ _ _ _ Hstored2].
  destruct (addContentTypePart_frame stored2 (route f0 sheet ws0).1.1 "drawings")
    as (_ & Hs2 & Hr2 & _ & _).
  rewrite <- Hf2 in Hs2, Hr2.
  split; [|split].
  - rewrite Hf2. rewrite addContentTypePart_again; rewrite Hstored2; [reflexivity|].
    exact Hin1.
  - rewrite Hs2, Hstored2. reflexivity.
  - rewrite Hr2, Hstored2. reflexivity.
Qed.

(** X2: after a call of [AddShape] that returns [nil] for a sheet without
    drawing part, the part [xl/drawings/drawing<index>.xml], [index] being
    one more than the number of drawing parts, holds the anchors it had
    before and, last, the anchor of this call: its shape has the identity
    the drawing part gave out and the macro and the preset geometry of the
    description, and the anchor has its positioning.  The sheet refers to
    a relationship whose target is [../drawings/drawing<index>.xml], and
    the part is registered under [index] with the content types. *)
Theorem first_shape_registers (f : File.t) (h : shapes) (sheet cell : string)
    (l : loc) (s : Shape.t) (f' : File.t) (h' : shapes) (ws : xlsxWorksheet.t) :
  h !! l = Some s ->
  AddShape f h sheet cell (Some l) = Returned (None, f', h') ->
  workSheetReader f sheet = inr ws ->
  xlsxWorksheet.Drawing ws = None ->
  let index := GoInt.add (countDrawings f) 1 in
  let part := "xl/drawings/drawing" +:+ Itoa index +:+ ".xml" in
  exists (before : xlsxWsDr.t) (N : Z) (a : xdrCellAnchor.t) (sp : xdrSp.t)
         (ws' : xlsxWorksheet.t) (d : xlsxDrawing.t),
    drawingParser f part = inr (before, N) /\
    File.Drawings f' !! part
      = Some (xlsxWsDr.Build (xlsxWsDr.TwoCellAnchor before ++ [a])) /\
    xdrCellAnchor.Sp a = Some sp /\
    xlsxCNvPr.ID (xdrNvSpPr.CNvPr (xdrSp.NvSpPr sp)) = N /\
    xdrSp.Macro sp = Shape.Macro s /\
    xlsxPrstGeom.Prst (xlsxSpPr.PrstGeom (xdrSp.SpPr sp)) = Shape.Type_ s /\
    xdrCellAnchor.EditAs a = GraphicOptions.Positioning (Shape.Format s) /\
    workSheetReader f' sheet = inr ws' /\
    xlsxWorksheet.Drawing ws' = Some d /\
    getSheetRelationshipsTargetByID f' sheet (xlsxDrawing.RID d)
      = "../drawings/drawing" +:+ Itoa index +:+ ".xml" /\
    ("drawings", index) ∈ File.ContentTypes f'.
Proof.
  intros Hl Hrun Hws Hnone index part.
  destruct (AddShape_nil _ _ _ _ _ _ _ Hrun)
    as (l0 & s0 & ws0 & stored & Hopts & Hl0 & Hws0 & Hadd & Hf' & Hreg).
  injection Hopts as <-. rewrite Hl in Hl0. injection Hl0 as <-.
  rewrite Hws in Hws0. injection Hws0 as <-.
  destruct (workSheetReader_inr f sheet ws Hws) as (e & He & <-).
  destruct (route_new f sheet e He Hnone) as (ws' & rID & Hsheet' & Hd' & Htarget & Hpart).
  assert (Hindex : (route f sheet (sheetEntry.Sheet e)).1.1 = index)
    by (unfold route; rewrite Hnone; reflexivity).
  rewrite Hindex in Hf', Hreg. fold index in Hpart, Htarget. fold part in Hpart.
  rewrite Hpart in Hadd.
  destruct (route_frame f sheet (sheetEntry.Sheet e)) as (Hd0 & Hp0 & _).
  destruct (addDrawingShape_nil _ _ _ _ _ _ _ _ Hadd)
    as [l0 o ? ? colStart rowStart colEnd rowEnd x2 y2 content cNvPrID lineWidth font
          locked printObject Hopts Hl0 _ _ Hparse _ _ _ _ _ Hstored].
  injection Hopts as <-. rewrite lookup_insert_eq in Hl0. injection Hl0 as <-.
  rewrite (drawingParser_ext _ f part Hd0 Hp0) in Hparse.
  destruct (addContentTypePart_frame stored index "drawings")
    as (_ & Hs & Hr & Hd & _).
  rewrite <- Hf' in Hs, Hr, Hd.
  eexists content, cNvPrID, _, _, ws', (xlsxDrawing.Build rID).
  split; [exact Hparse|]. split.
  { rewrite Hd, Hstored. cbn [File.Drawings storeDrawing File.setDrawings].
    apply lookup_insert_eq. }
  split; [reflexivity|]. split; [reflexivity|].
  cbn [shapeOf xdrSp.Macro xdrSp.SpPr xlsxSpPr.PrstGeom xlsxPrstGeom.Prst anchorOf
       xdrCellAnchor.EditAs].
  rewrite (fillDefaults_fields s).
  split; [reflexivity|]. split; [reflexivity|]. split; [reflexivity|].
  split; [|split; [|split]].
  - unfold workSheetReader. rewrite Hs, Hstored.
    cbn [File.Sheets storeDrawing File.setDrawings]. rewrite Hsheet'. reflexivity.
  - exact Hd'.
  - unfold getSheetRelationshipsTargetByID, getSheetXMLPath, relsOf in *.
    rewrite Hs, Hr, Hstored. cbn [File.Sheets File.Relationships storeDrawing
      File.setDrawings]. rewrite Hsheet'. exact Htarget.
  - rewrite Hf'. apply addContentTypePart_registered. exact Hreg.
Qed.

(** X3: a call of [AddShape] that returns [nil] for a sheet that refers to
    a drawing part leaves the sheets, the relationships and the package as
    they were, and every drawing part but the one the relationship of the
    sheet resolves to. *)
Theorem later_shape_registers_nothing (f : File.t) (h : shapes) (sheet cell : string)
    (opts : option loc) (f' : File.t) (h' : shapes) (ws : xlsxWorksheet.t)
    (d : xlsxDrawing.t) :
  AddShape f h sheet cell opts = Returned (None, f', h') ->
  workSheetReader f sheet = inr ws ->
  xlsxWorksheet.Drawing ws = Some d ->
  File.Sheets f' = File.Sheets f /\
  File.Relationships f' = File.Relationships f /\
  File.Pkg f' = File.Pkg f /\
  forall p : string,
    p <> ReplaceAll (getSheetRelationshipsTargetByID f sheet (xlsxDrawing.RID d))
           ".." "xl" ->
    File.Drawings f' !! p = File.Drawings f !! p.
Proof.
  intros Hrun Hws Hd.
  destruct (AddShape_nil _ _ _ _ _ _ _ Hrun)
    as (l & s & ws0 & stored & _ & _ & Hws0 & Hadd & Hf' & Hreg).
  rewrite Hws in Hws0. injection Hws0 as <-.
  destruct (route_existing f sheet ws d Hd) as (Hsame & Hpart).
  rewrite Hsame, Hpart in Hadd.
  destruct (addDrawingShape_nil _ _ _ _ _ _ _ _ Hadd)
    as [? ? ? ? ? ? ? ? ? ? content ? ? ? ? ? _ _ _ _ _ _ _ _ _ _ Hstored].
  destruct (addContentTypePart_frame stored (route f sheet ws).1.1 "drawings")
    as (_ & Hs & Hr & Hdr & Hp).
  rewrite <- Hf' in Hs, Hr, Hdr, Hp.
  rewrite Hs, Hr, Hp, Hdr, Hstored. repeat split.
  intros p Hne. cbn [File.Drawings storeDrawing File.setDrawings].
  apply lookup_insert_ne. congruence.
Qed.

End After.

(** The first shape of the sample workbook. *)
Lemma first_shape_registers_witness :
  exists (f' : File.t) (h' : shapes),
    let f := Sample.book in
    let h : shapes := {[ 0%nat := Sample.rect ]} in
    let s := Sample.rect in
    let ws := xlsxWorksheet.Build None [] in
    let index := GoInt.add (countDrawings f) 1 in
    let part := "xl/drawings/drawing" +:+ Itoa index +:+ ".xml" in
    h !! 0%nat = Some s /\
    AddShape f h "Sheet1" "G6" (Some 0%nat) = Returned (None, f', h') /\
    workSheetReader f "Sheet1" = inr ws /\
    xlsxWorksheet.Drawing ws = None /\
    exists (before : xlsxWsDr.t) (N : Z) (a : xdrCellAnchor.t) (sp : xdrSp.t)
           (ws' : xlsxWorksheet.t) (d : xlsxDrawing.t),
      drawingParser f part = inr (before, N) /\
      File.Drawings f' !! part
        = Some (xlsxWsDr.Build (xlsxWsDr.TwoCellAnchor before ++ [a])) /\
      xdrCellAnchor.Sp a = Some sp /\
      xlsxCNvPr.ID (xdrNvSpPr.CNvPr (xdrSp.NvSpPr sp)) = N /\
      xdrSp.Macro sp = Shape.Macro s /\
      xlsxPrstGeom.Prst (xlsxSpPr.PrstGeom (xdrSp.SpPr sp)) = Shape.Type_ s /\
      xdrCellAnchor.EditAs a = GraphicOptions.Positioning (Shape.Format s) /\
      workSheetReader f' "Sheet1" = inr ws' /\
      xlsxWorksheet.Drawing ws' = Some d /\
      getSheetRelationshipsTargetByID f' "Sheet1" (xlsxDrawing.RID d)
        = "../drawings/drawing" +:+ Itoa index +:+ ".xml" /\
      ("drawings", index) ∈ File.ContentTypes f'.
Proof.
  eexists _, _. intros f h s ws index part.
  split; [reflexivity|].
  split; [vm_compute; reflexivity|]. split; [vm_compute; reflexivity|].
  split; [reflexivity|].
  eapply (first_shape_registers f h "Sheet1" "G6" 0%nat s _ _ ws).
  - reflexivity.
  - vm_compute. reflexivity.
  - vm_compute. reflexivity.
  - reflexivity.
Defined.

(** A second shape for the sheet of the sample workbook. *)
Lemma later_shape_registers_nothing_witness :
  exists (f1 f2 : File.t) (h1 h2 : shapes) (ws : xlsxWorksheet.t) (d : xlsxDrawing.t),
    let f0 := Sample.book in
    let h0 : shapes := {[ 0%nat := Sample.rect ]} in
    AddShape f0 h0 "Sheet1" "G6" (Some 0%nat) = Returned (None, f1, h1) /\
    AddShape f1 h1 "Sheet1" "A1" (Some 0%nat) = Returned (None, f2, h2) /\
    workSheetReader f1 "Sheet1" = inr ws /\
    xlsxWorksheet.Drawing ws = Some d /\
    File.Sheets f2 = File.Sheets f1 /\
    File.Relationships f2 = File.Relationships f1 /\
    File.Pkg f2 = File.Pkg f1 /\
    forall p : string,
      p <> ReplaceAll (getSheetRelationshipsTargetByID f1 "Sheet1" (xlsxDrawing.RID d))
             ".." "xl" ->
      File.Drawings f2 !! p = File.Drawings f1 !! p.
Proof.
  eexists _, _, _, _, _, _. intros f0 h0.
  split; [vm_compute; reflexivity|].
  match goal with
  | |- ?second /\ _ => assert (Hsecond : second) by (vm_compute; reflexivity)
  end.
  split; [exact Hsecond|].
  split; [vm_compute; reflexivity|]. split; [reflexivity|].
  eapply (later_shape_registers_nothing _ _ "Sheet1" "A1" (Some 0%nat)).
  - exact Hsecond.
  - vm_compute. reflexivity.
  - reflexivity.
Defined.

(** Two shapes for the sheet of the sample workbook. *)
Lemma content_type_once_witness :
  exists (f1 f2 : File.t) (h1 h2 : shapes),
    let f0 := Sample.book in
    let h0 : shapes := {[ 0%nat := Sample.rect ]} in
    AddShape f0 h0 "Sheet1" "G6" (Some 0%nat) = Returned (None, f1, h1) /\
    AddShape f1 h1 "Sheet1" "A1" (Some 0%nat) = Returned (None, f2, h2) /\
    exists ws0 ws1 : xlsxWorksheet.t,
      workSheetReader f0 "Sheet1" = inr ws0 /\
      workSheetReader f1 "Sheet1" = inr ws1 /\
      (route f1 "Sheet1" ws1).1.1 = (route f0 "Sheet1" ws0).1.1 /\
      ("drawings", (route f0 "Sheet1" ws0).1.1) ∈ File.ContentTypes f1 /\
      File.ContentTypes f2 = File.ContentTypes f1 /\
      File.Sheets f2 = File.Sheets f1 /\
      File.Relationships f2 = File.Relationships f1.
Proof.
  eexists _, _, _, _. intros f0 h0.
  split; [vm_compute; reflexivity|]. split; [vm_compute; reflexivity|].
  eapply (content_type_once f0 h0 "Sheet1" "G6" "A1" (Some 0%nat) (Some 0%nat)).
  - vm_compute. reflexivity.
  - vm_compute. reflexivity.
Defined.

(** ** Which error a call returns *)

Section Precedence.
Context `{Externals}.

Lemma addDrawingShape_result (f : File.t) (h : shapes) (sheet drawingXML cell : string)
    (l : loc) (o : Shape.t) :
  h !! l = Some o ->
  is_Some (ShapeLine.Width (Shape.Line o)) ->
  is_Some (GraphicOptions.Locked (Shape.Format o)) ->
  is_Some (GraphicOptions.PrintObject (Shape.Format o)) ->
  exists (f' : File.t) (h' : shapes),
    addDrawingShape f h sheet drawingXML cell (Some l)
    = Returned (delegateError f drawingXML cell, f', h').
Proof.
  intros Hl [w Hw] [lk Hlk] [po Hpo]. unfold addDrawingShape, delegateError.
  destruct (CellNameToCoordinates cell) as [e|[fromCol fromRow]]; [eauto|].
  rewrite Hl.
  destruct (positionObjectPixels f sheet fromCol fromRow _ _ _ _)
    as [[[[[colStart rowStart] colEnd] rowEnd] x2] y2].
  destruct (drawingParser f drawingXML) as [e|[content cNvPrID]]; [eauto|].
  rewrite Hw.
  destruct (GetDefaultFont f) as [e|font]; [eauto|].
  fold (withRuns font o).
  rewrite appendParagraphs_Returned. cbn [obind].
  rewrite withRuns_Format, Hlk, Hpo. eauto.
Qed.

(** X5: a call of [AddShape] with a description returns, and what it
    returns is the first error in the order of the code: that of the
    worksheet reader, then that of the cell reference, then that of the
    drawing part, then that of the default font, the latter two read from
    the workbook after the registration of lines 303 to 315; when none of
    the four fails [addDrawingShape] has returned [nil], and the result is
    that of the registration of line 319, an error or [nil]. *)
Theorem error_precedence (f : File.t) (h : shapes) (sheet cell : string)
    (l : loc) (s : Shape.t) :
  h !! l = Some s ->
  exists (r : option error) (f' : File.t) (h' : shapes),
    AddShape f h sheet cell (Some l) = Returned (r, f', h') /\
    match workSheetReader f sheet with
    | inl e => r = Some e
    | inr ws =>
        match delegateError (route f sheet ws).2 (route f sheet ws).1.2 cell with
        | Some e => r = Some e
        | None =>
            exists stored : File.t,
              addDrawingShape (route f sheet ws).2 (<[l := fillDefaults s]> h) sheet
                (route f sheet ws).1.2 cell (Some l) = Returned (None, stored, h') /\
              (r, f') = addContentTypePart stored (route f sheet ws).1.1 "drawings"
        end
    end.
Proof.
  intros Hl. destruct (workSheetReader f sheet) as [e|ws] eqn:Hws.
  - unfold AddShape, parseShapeOptions. rewrite Hl. cbn [obind]. rewrite Hws. eauto.
  - rewrite (AddShape_route f h sheet cell l s ws Hl Hws).
    destruct (fillDefaults_pointers s) as (Hw & Hlk & Hpo).
    destruct (addDrawingShape_result (route f sheet ws).2 (<[l := fillDefaults s]> h)
                sheet (route f sheet ws).1.2 cell l (fillDefaults s)
                (lookup_insert_eq _ _ _) Hw Hlk Hpo) as (f' & h' & Hadd).
    rewrite Hadd. cbn [obind]. destruct (delegateError _ _ _) as [e|]; [eauto|].
    destruct (addContentTypePart f' _ _) as [err f''] eqn:Hct.
    exists err, f'', h'. split; [reflexivity|]. exists f'. split; [reflexivity|].
    symmetry. exact Hct.
Qed.

End Precedence.

(** A cell reference that does not parse, on the sheet of the sample
    workbook. *)
Lemma error_precedence_witness :
  let h : shapes := {[ 0%nat := Sample.rect ]} in
  let f := Sample.book in
  h !! 0%nat = Some Sample.rect /\
  exists (r : option error) (f' : File.t) (h' : shapes),
    AddShape f h "Sheet1" "6G" (Some 0%nat) = Returned (r, f', h') /\
    match workSheetReader f "Sheet1" with
    | inl e => r = Some e
    | inr ws =>
        match delegateError (route f "Sheet1" ws).2 (route f "Sheet1" ws).1.2 "6G" with
        | Some e => r = Some e
        | None =>
            exists stored : File.t,
              addDrawingShape (route f "Sheet1" ws).2
                (<[0%nat := fillDefaults Sample.rect]> h) "Sheet1"
                (route f "Sheet1" ws).1.2 "6G" (Some 0%nat)
              = Returned (None, stored, h') /\
              (r, f') = addContentTypePart stored (route f "Sheet1" ws).1.1 "drawings"
        end
    end.
Proof.
  intros h f. split; [reflexivity|].
  apply (error_precedence f h "Sheet1" "6G" 0%nat Sample.rect). reflexivity.
Defined.

(** ** The caller's description across calls *)

Section Description.
Context `{Externals}.

Lemma fillDefaults_idempotent (s : Shape.t) :
  fillDefaults (fillDefaults s) = fillDefaults s.
Proof.
  rewrite (fillDefaults_fields (fillDefaults s)), (fillDefaults_fields s).
  shape_fields. cbn [default].
  assert (Hint : forall z d : Z,
            (if (if z =? 0 then d else z) =? 0 then d else if z =? 0 then d else z)
            = (if z =? 0 then d else z)).
  { intros z d. destruct (z =? 0) eqn:Hz; [destruct (d =? 0); reflexivity|].
    rewrite Hz. reflexivity. }
  assert (Hfloat : forall x : float64,
            (if F64.eqb (if F64.eqb x F64.zero then defaultPictureScale else x) F64.zero
             then defaultPictureScale
             else if F64.eqb x F64.zero then defaultPictureScale else x)
            = (if F64.eqb x F64.zero then defaultPictureScale else x)).
  { intros x. destruct (F64.eqb x F64.zero) eqn:Hx; [reflexivity|].
    rewrite Hx. reflexivity. }
  rewrite !Hint, !Hfloat. reflexivity.
Qed.

Lemma withRuns_nonempty (d : string) (o : Shape.t) :
  Shape.Paragraph (withRuns d o) <> [].
Proof.
  unfold withRuns. destruct (Shape.Paragraph o) as [|p ps] eqn:Hp.
  - cbn. discriminate.
  - cbn. rewrite Hp. discriminate.
Qed.

Lemma withRuns_given (d : string) (o : Shape.t) :
  Shape.Paragraph o <> [] -> withRuns d o = o.
Proof.
  unfold withRuns. destruct (Shape.Paragraph o) as [|p ps]; [congruence|reflexivity].
Qed.

Lemma fillDefaults_Paragraph (s : Shape.t) :
  Shape.Paragraph (fillDefaults s) = Shape.Paragraph s.
Proof. rewrite fillDefaults_fields. reflexivity. Qed.

(** The assignments of [parseShapeOptions] and the replacement of an empty
    list of paragraphs do not get in each other's way. *)
Lemma fillDefaults_withRuns (d : string) (s : Shape.t) :
  fillDefaults (withRuns d s) = withRuns d (fillDefaults s).
Proof.
  unfold withRuns. rewrite fillDefaults_Paragraph.
  destruct (_ <? _)%nat; [|reflexivity].
  rewrite !fillDefaults_fields. reflexivity.
Qed.

(** X6: a call of [AddShape] with a description that returns an error,
    whichever, leaves the description with the defaults of
    [parseShapeOptions] written, which nothing takes back, and every other
    description as it was.  Paragraphs the caller gave are kept; an empty
    list of paragraphs is left empty, unless the error is that of the
    registration of line 319, met after [addDrawingShape] returned [nil]
    and wrote the run of line 403. *)
Theorem description_after_failure (f : File.t) (h : shapes) (sheet cell : string)
    (l : loc) (s : Shape.t) (e : error) (f' : File.t) (h' : shapes) :
  h !! l = Some s ->
  AddShape f h sheet cell (Some l) = Returned (Some e, f', h') ->
  exists s' : Shape.t,
    h' !! l = Some s' /\
    Shape.setParagraph (Shape.Paragraph s) s' = fillDefaults s /\
    (Shape.Paragraph s <> [] -> Shape.Paragraph s' = Shape.Paragraph s) /\
    (Shape.Paragraph s' <> Shape.Paragraph s ->
     exists ws : xlsxWorksheet.t,
       workSheetReader f sheet = inr ws /\
       addDrawingShape (route f sheet ws).2 (<[l := fillDefaults s]> h) sheet
         (route f sheet ws).1.2 cell (Some l) = Returned (None, f', h') /\
       contentTypesReader f' = Some e) /\
    forall l' : loc, l' <> l -> h' !! l' = h !! l'.
Proof.
  intros Hl Hrun.
  assert (Hresolved : Shape.setParagraph (Shape.Paragraph s) (fillDefaults s)
                      = fillDefaults s)
    by (rewrite (fillDefaults_fields s); reflexivity).
  assert (Hkept : forall h0 : shapes,
            h0 = <[l := fillDefaults s]> h ->
            exists s' : Shape.t,
              h0 !! l = Some s' /\
              Shape.setParagraph (Shape.Paragraph s) s' = fillDefaults s /\
              (Shape.Paragraph s <> [] -> Shape.Paragraph s' = Shape.Paragraph s) /\
              (Shape.Paragraph s' <> Shape.Paragraph s ->
               exists ws : xlsxWorksheet.t,
                 workSheetReader f sheet = inr ws /\
                 addDrawingShape (route f sheet ws).2 (<[l := fillDefaults s]> h) sheet
                   (route f sheet ws).1.2 cell (Some l) = Returned (None, f', h0) /\
                 contentTypesReader f' = Some e) /\
              forall l' : loc, l' <> l -> h0 !! l' = h !! l').
  { intros h0 ->. exists (fillDefaults s).
    split; [apply lookup_insert_eq|]. split; [exact Hresolved|].
    split; [intros _; apply fillDefaults_Paragraph|].
    split; [intros Hne; destruct (Hne (fillDefaults_Paragraph s))|].
    intros l' Hne. apply lookup_insert_ne. congruence. }
  destruct (AddShape_error _ _ _ _ _ _ _ _ Hrun)
    as [(Hnone & _)
       | (l0 & s0 & Hopts & Hl0
          & [(_ & _ & Hh) | (ws & Hws & [(Hh & _) | (Hadd & Herr)])])];
    [discriminate| | |];
    injection Hopts as <-; rewrite Hl in Hl0; injection Hl0 as <-.
  - apply Hkept. exact Hh.
  - apply Hkept. exact Hh.
  - destruct (addDrawingShape_nil _ _ _ _ _ _ _ _ Hadd)
      as [l0 o ? ? ? ? ? ? ? ? ? ? ? font ? ? Hopts Hl0 _ _ _ _ _ _ _ Hshapes _].
    injection Hopts as <-. rewrite lookup_insert_eq in Hl0. injection Hl0 as <-.
    exists (withRuns font (fillDefaults s)).
    split; [rewrite Hshapes; apply lookup_insert_eq|].
    split.
    { unfold withRuns. rewrite fillDefaults_Paragraph.
      rewrite (fillDefaults_fields s). destruct (_ <? _)%nat; reflexivity. }
    split.
    { intros Hne. rewrite withRuns_given; rewrite fillDefaults_Paragraph; auto. }
    split; [intros _; exists ws; auto|].
    intros l' Hne. rewrite Hshapes, !lookup_insert_ne by congruence. reflexivity.
Qed.

(** X7: a call of [AddShape] that returns [nil] leaves the description as
    [parseShapeOptions] resolved it but for the paragraphs: paragraphs the
    caller gave are kept, and an empty list is replaced, in the caller's
    description, by one run of one space in the default font of the
    workbook; every other description is as it was. *)
Theorem description_after_success (f : File.t) (h : shapes) (sheet cell : string)
    (l : loc) (s : Shape.t) (f' : File.t) (h' : shapes) :
  h !! l = Some s ->
  AddShape f h sheet cell (Some l) = Returned (None, f', h') ->
  exists (s' : Shape.t) (ws : xlsxWorksheet.t) (defaultFont : string),
    workSheetReader f sheet = inr ws /\
    GetDefaultFont (route f sheet ws).2 = inr defaultFont /\
    h' !! l = Some s' /\
    Shape.setParagraph (Shape.Paragraph s) s' = fillDefaults s /\
    (Shape.Paragraph s <> [] -> Shape.Paragraph s' = Shape.Paragraph s) /\
    (Shape.Paragraph s = [] ->
     Shape.Paragraph s' =
       [ RichTextRun.Build
           (Some (Font.Build false false "none" defaultFont (F64.of_Z 11) "000000"))
           " " ]) /\
    forall l' : loc, l' <> l -> h' !! l' = h !! l'.
Proof.
  intros Hl Hrun.
  destruct (AddShape_nil _ _ _ _ _ _ _ Hrun)
    as (l0 & s0 & ws & stored & Hopts & Hl0 & Hws & Hadd & Hf' & Hreg).
  injection Hopts as <-. rewrite Hl in Hl0. injection Hl0 as <-.
  destruct (addDrawingShape_nil _ _ _ _ _ _ _ _ Hadd)
    as [l0 o ? ? ? ? ? ? ? ? ? ? ? font ? ? Hopts Hl0 _ _ _ _ Hfont _ _ Hshapes _].
  injection Hopts as <-.
  rewrite lookup_insert_eq in Hl0. injection Hl0 as <-.
  exists (withRuns font (fillDefaults s)), ws, font. subst h'.
  split; [exact Hws|]. split; [exact Hfont|].
  split; [apply lookup_insert_eq|].
  split; [|split; [|split]].
  - unfold withRuns. rewrite fillDefaults_Paragraph.
    rewrite (fillDefaults_fields s). destruct (_ <? _)%nat; reflexivity.
  - intros Hne. rewrite withRuns_given; rewrite fillDefaults_Paragraph; auto.
  - intros Hnil. unfold withRuns. rewrite fillDefaults_Paragraph, Hnil. reflexivity.
  - intros l' Hne. rewrite !lookup_insert_ne by congruence. reflexivity.
Qed.

(** X8: a description that went through a call of [AddShape] that returned
    [nil] is changed by no later call with it, for whatever workbook, sheet
    and cell, and whether that call fails or not; in particular the run
    written for an empty list of paragraphs keeps the default font of the
    first call. *)
Theorem description_settles (f0 f1 : File.t) (h0 : shapes) (sheet0 cell0 sheet1 cell1 : string)
    (l : loc) (f0' : File.t) (h1 : shapes)
    (r : option error) (f1' : File.t) (h2 : shapes) :
  AddShape f0 h0 sheet0 cell0 (Some l) = Returned (None, f0', h1) ->
  AddShape f1 h1 sheet1 cell1 (Some l) = Returned (r, f1', h2) ->
  h2 = h1.
Proof.
  intros Hfirst Hsecond.
  destruct (AddShape_nil _ _ _ _ _ _ _ Hfirst)
    as (l0 & s & ws & stored & Hopts & Hl & _ & Hadd & _).
  injection Hopts as <-.
  destruct (addDrawingShape_nil _ _ _ _ _ _ _ _ Hadd)
    as [l0 o ? ? ? ? ? ? ? ? ? ? ? font ? ? Hopts Hl0 _ _ _ _ _ _ _ Hshapes _].
  injection Hopts as <-.
  rewrite lookup_insert_eq in Hl0. injection Hl0 as <-.
  assert (Hh1 : h1 !! l = Some (withRuns font (fillDefaults s)))
    by (subst h1; apply lookup_insert_eq).
  assert (Hfix : fillDefaults (withRuns font (fillDefaults s))
                 = withRuns font (fillDefaults s))
    by (rewrite fillDefaults_withRuns, fillDefaults_idempotent; reflexivity).
  assert (Hdelegate : forall (g g' : File.t) (part : string),
            addDrawingShape g (<[l := fillDefaults (withRuns font (fillDefaults s))]> h1)
              sheet1 part cell1 (Some l) = Returned (None, g', h2) ->
            h2 = h1).
  { intros g g' part Hadd1.
    rewrite Hfix in Hadd1. rewrite (insert_id _ _ _ Hh1) in Hadd1.
    destruct (addDrawingShape_nil _ _ _ _ _ _ _ _ Hadd1)
      as [l2 o2 ? ? ? ? ? ? ? ? ? ? ? font2 ? ? Hopts2 Hl2 _ _ _ _ _ _ _ Hshapes2 _].
    injection Hopts2 as <-. rewrite Hh1 in Hl2. injection Hl2 as <-.
    rewrite Hshapes2. rewrite (withRuns_given font2) by apply withRuns_nonempty.
    apply insert_id. exact Hh1. }
  destruct r as [e|].
  - destruct (AddShape_error _ _ _ _ _ _ _ _ Hsecond)
      as [(Hnone & _)
         | (l1 & s1 & Hopts & Hl1
            & [(_ & _ & Hh) | (ws1 & _ & [(Hh & _) | (Hadd1 & _)])])];
      [discriminate| | |];
      injection Hopts as <-; rewrite Hh1 in Hl1; injection Hl1 as <-.
    + rewrite Hh, Hfix. apply insert_id. exact Hh1.
    + rewrite Hh, Hfix. apply insert_id. exact Hh1.
    + exact (Hdelegate _ _ _ Hadd1).
  - destruct (AddShape_nil _ _ _ _ _ _ _ Hsecond)
      as (l1 & s1 & ws1 & stored1 & Hopts & Hl1 & _ & Hadd1 & _).
    injection Hopts as <-. rewrite Hh1 in Hl1. injection Hl1 as <-.
    exact (Hdelegate _ _ _ Hadd1).
Qed.

End Description.

(** A workbook whose content types cannot be read, and the zero
    description: the error is that of line 319, and the description has
    the run of line 403. *)
Lemma description_after_failure_witness :
  exists (e : error) (f' : File.t) (h' : shapes),
    let f := File.Build {[ "Sheet1" := Sample.sheet1 ]} ∅ ∅
               {[ "[Content_Types].xml" := "" ]} [] in
    let h : shapes := {[ 0%nat := Sample.blank; 1%nat := Sample.rect ]} in
    let s := Sample.blank in
    h !! 0%nat = Some s /\
    AddShape f h "Sheet1" "G6" (Some 0%nat) = Returned (Some e, f', h') /\
    exists s' : Shape.t,
      h' !! 0%nat = Some s' /\
      Shape.setParagraph (Shape.Paragraph s) s' = fillDefaults s /\
      (Shape.Paragraph s <> [] -> Shape.Paragraph s' = Shape.Paragraph s) /\
      (Shape.Paragraph s' <> Shape.Paragraph s ->
       exists ws : xlsxWorksheet.t,
         workSheetReader f "Sheet1" = inr ws /\
         addDrawingShape (route f "Sheet1" ws).2 (<[0%nat := fillDefaults s]> h) "Sheet1"
           (route f "Sheet1" ws).1.2 "G6" (Some 0%nat) = Returned (None, f', h') /\
         contentTypesReader f' = Some e) /\
      forall l' : loc, l' <> 0%nat -> h' !! l' = h !! l'.
Proof.
  eexists _, _, _. intros f h s.
  split; [reflexivity|]. split; [vm_compute; reflexivity|].
  eapply (description_after_failure f h "Sheet1" "G6" 0%nat s).
  - reflexivity.
  - vm_compute. reflexivity.
Defined.

(** The zero description, which has no paragraphs. *)
Lemma description_after_success_witness :
  exists (f' : File.t) (h' : shapes),
    let h : shapes := {[ 0%nat := Sample.blank; 1%nat := Sample.rect ]} in
    let f := Sample.book in
    h !! 0%nat = Some Sample.blank /\
    AddShape f h "Sheet1" "G6" (Some 0%nat) = Returned (None, f', h') /\
    exists (s' : Shape.t) (ws : xlsxWorksheet.t) (defaultFont : string),
      workSheetReader f "Sheet1" = inr ws /\
      GetDefaultFont (route f "Sheet1" ws).2 = inr defaultFont /\
      h' !! 0%nat = Some s' /\
      Shape.setParagraph (Shape.Paragraph Sample.blank) s' = fillDefaults Sample.blank /\
      (Shape.Paragraph Sample.blank <> [] ->
       Shape.Paragraph s' = Shape.Paragraph Sample.blank) /\
      (Shape.Paragraph Sample.blank = [] ->
       Shape.Paragraph s' =
         [ RichTextRun.Build
             (Some (Font.Build false false "none" defaultFont (F64.of_Z 11) "000000"))
             " " ]) /\
      forall l' : loc, l' <> 0%nat -> h' !! l' = h !! l'.
Proof.
  eexists _, _. intros h f.
  split; [reflexivity|]. split; [vm_compute; reflexivity|].
  eapply (description_after_success f h "Sheet1" "G6" 0%nat Sample.blank).
  - reflexivity.
  - vm_compute. reflexivity.
Defined.

(** The zero description, used for a shape and then for a call that fails. *)
Lemma description_settles_witness :
  exists (f0' : File.t) (h1 : shapes) (r : option error) (f1' : File.t) (h2 : shapes),
    let h0 : shapes := {[ 0%nat := Sample.blank ]} in
    AddShape Sample.book h0 "Sheet1" "G6" (Some 0%nat) = Returned (None, f0', h1) /\
    AddShape Sample.book h1 "Sheet9" "A1" (Some 0%nat) = Returned (r, f1', h2) /\
    h2 = h1.
Proof.
  eexists _, _, _, _, _. intros h0.
  split; [vm_compute; reflexivity|].
  match goal with
  | |- ?second /\ _ => assert (Hsecond : second) by (vm_compute; reflexivity)
  end.
  split; [exact Hsecond|].
  eapply (description_settles Sample.book Sample.book h0 "Sheet1" "G6" "Sheet9" "A1" 0%nat).
  - vm_compute. reflexivity.
  - exact Hsecond.
Defined.

(** ** A second resolution, and the faults of the delegate *)

Section Faults.
Context `{Externals}.

(** X12: [addDrawingShape] panics on [nil] exactly when the cell reference
    parses; on a description it panics exactly when the cell reference
    parses, the drawing part loads, and either the line width is [nil], or
    the default font is found and the locked or the print pointer is
    [nil].  An error met before a dereference is returned instead. *)
Theorem addDrawingShape_panics (f : File.t) (h : shapes) (sheet drawingXML cell : string) :
  (addDrawingShape f h sheet drawingXML cell None = Panicked <->
   exists c : Z * Z, CellNameToCoordinates cell = inr c) /\
  forall (l : loc) (o : Shape.t),
    h !! l = Some o ->
    (addDrawingShape f h sheet drawingXML cell (Some l) = Panicked <->
     exists (c : Z * Z) (p : xlsxWsDr.t * Z),
       CellNameToCoordinates cell = inr c /\
       drawingParser f drawingXML = inr p /\
       (ShapeLine.Width (Shape.Line o) = None \/
        (exists font : string, GetDefaultFont f = inr font) /\
        (GraphicOptions.Locked (Shape.Format o) = None \/
         GraphicOptions.PrintObject (Shape.Format o) = None))).
Proof.
  split.
  - unfold addDrawingShape.
    destruct (CellNameToCoordinates cell) as [e|[fromCol fromRow]].
    + split; [discriminate|]. intros [c Hc]. discriminate.
    + split; eauto.
  - intros l o Hl. unfold addDrawingShape.
    destruct (CellNameToCoordinates cell) as [e|[fromCol fromRow]].
    { split; [discriminate|]. intros (c & p & Hc & _). discriminate. }
    rewrite Hl.
    destruct (positionObjectPixels f sheet fromCol fromRow _ _ _ _)
      as [[[[[colStart rowStart] colEnd] rowEnd] x2] y2].
    destruct (drawingParser f drawingXML) as [e|[content cNvPrID]].
    { split; [discriminate|]. intros (c & p & _ & Hp & _). discriminate. }
    destruct (ShapeLine.Width (Shape.Line o)) as [lineWidth|].
    2: { split; eauto 10. }
    destruct (GetDefaultFont f) as [e|font].
    { split; [discriminate|].
      intros (c & p & _ & _ & [Hw | [[d Hd] _]]); discriminate. }
    fold (withRuns font o).
    rewrite appendParagraphs_Returned. cbn [obind]. rewrite withRuns_Format.
    destruct (GraphicOptions.Locked (Shape.Format o)) as [locked|].
    2: { split; eauto 10. }
    destruct (GraphicOptions.PrintObject (Shape.Format o)) as [printObject|].
    2: { split; eauto 10. }
    split; [discriminate|].
    intros (c & p & _ & _ & [Hw | [_ [Hk | Hp]]]); discriminate.
Qed.

(** X9: [parseShapeOptions] on the store it left returns the same pointer
    and error and leaves the store as it is: no default it writes is a
    value it would replace. *)
Theorem parseShapeOptions_idempotent (opts : option loc) (h : shapes)
    (options : option loc) (err : option error) (h' : shapes) :
  parseShapeOptions opts h = Returned (options, err, h') ->
  parseShapeOptions opts h' = Returned (options, err, h').
Proof.
  unfold parseShapeOptions. destruct opts as [l|].
  - destruct (h !! l) as [s|] eqn:Hl; [|discriminate].
    intros Hrun. injection Hrun as <- <- <-.
    rewrite lookup_insert_eq, fillDefaults_idempotent, insert_insert_eq. reflexivity.
  - intros Hrun. injection Hrun as <- <- <-. reflexivity.
Qed.

End Faults.

(** The zero description in a store of two. *)
Lemma parseShapeOptions_idempotent_witness :
  exists h' : shapes,
    let h : shapes := {[ 0%nat := Sample.blank; 1%nat := Sample.rect ]} in
    parseShapeOptions (Some 0%nat) h = Returned (Some 0%nat, None, h') /\
    parseShapeOptions (Some 0%nat) h' = Returned (Some 0%nat, None, h').
Proof.
  eexists. intros h. split; [vm_compute; reflexivity|].
  eapply (parseShapeOptions_idempotent (Some 0%nat) h).
  vm_compute. reflexivity.
Defined.

(** The zero description without the resolver: the line width is [nil]. *)
Lemma addDrawingShape_panics_witness :
  let h : shapes := {[ 0%nat := Sample.blank ]} in
  h !! 0%nat = Some Sample.blank /\
  addDrawingShape Sample.book h "Sheet1" Sample.part "G6" (Some 0%nat) = Panicked.
Proof.
  intros h. split; [reflexivity|].
  apply (proj2 (addDrawingShape_panics Sample.book h "Sheet1" Sample.part "G6")
           0%nat Sample.blank eq_refl).
  exists (7, 6), (xlsxWsDr.Build [], 1).
  split; [vm_compute; reflexivity|]. split; [vm_compute; reflexivity|].
  left. reflexivity.
Defined.

(** ** The anchor and the text body a call stores *)

Section TextBody.
Context `{Externals}.

Lemma runUnderline_supported (font : Font.t) :
  runUnderline font ∈ supportedDrawingUnderlineTypes.
Proof.
  unfold runUnderline. destruct (bool_decide _) eqn:Hin.
  - apply bool_decide_eq_true in Hin. exact Hin.
  - apply list_elem_of_here.
Qed.

Lemma runOf_text (p : RichTextRun.t) : aR.T (aP.R (runOf p)) <> "".
Proof.
  cbn [runOf aP.R aR.T]. destruct (String.eqb (RichTextRun.Text p) "") eqn:He.
  - discriminate.
  - apply String.eqb_neq in He. exact He.
Qed.

(** X11: the shape a call of [addDrawingShape] that returns [nil] stores
    has at least one paragraph, and each of its runs has a text that is not
    empty, an underline of the table of supported ones, the language
    [en-US] in its three places and a Latin font. *)
Theorem runs_well_formed (f : File.t) (h : shapes) (sheet drawingXML cell : string)
    (opts : option loc) (f' : File.t) (h' : shapes) :
  addDrawingShape f h sheet drawingXML cell opts = Returned (None, f', h') ->
  exists sp : xdrSp.t,
    lastShape f' drawingXML = Some sp /\
    xdrTxBody.P (xdrSp.TxBody sp) <> [] /\
    Forall
      (fun paragraph : aP.t =>
         aR.T (aP.R paragraph) <> "" /\
         aRPr.U (aR.RPr (aP.R paragraph)) ∈ supportedDrawingUnderlineTypes /\
         aRPr.Lang (aR.RPr (aP.R paragraph)) = "en-US" /\
         aRPr.AltLang (aR.RPr (aP.R paragraph)) = "en-US" /\
         aEndParaRPr.Lang (aP.EndParaRPr paragraph) = "en-US" /\
         is_Some (aRPr.Latin (aR.RPr (aP.R paragraph))))
      (xdrTxBody.P (xdrSp.TxBody sp)).
Proof.
  intros Hrun. run_facts Hrun.
  exists (shapeOf f o cNvPrID lineWidth font).
  split; [subst f'; apply lastShape_store|].
  cbn [shapeOf xdrSp.TxBody xdrTxBody.P]. split.
  - pose proof (withRuns_nonempty font o) as Hne.
    destruct (Shape.Paragraph (withRuns font o)); [congruence|discriminate].
  - apply Forall_map, Forall_forall. intros p _.
    split; [apply runOf_text|]. split; [apply runUnderline_supported|].
    cbn [runOf aP.R aR.RPr aRPr.Lang aRPr.AltLang aRPr.Latin aP.EndParaRPr
         aEndParaRPr.Lang]. eauto.
Qed.

(** X10: the anchor a call of [AddShape] that returns [nil] stores carries
    the description as resolved: it locks with the sheet only when asked
    to, prints with the sheet unless asked not to, and has line properties
    exactly when the line width, the default one when none is given,
    differs from 1; positioning, macro and preset geometry are the
    caller's. *)
Theorem defaults_reach_the_anchor (f : File.t) (h : shapes) (sheet cell : string)
    (l : loc) (s : Shape.t) (ws : xlsxWorksheet.t) (f' : File.t) (h' : shapes) :
  h !! l = Some s ->
  workSheetReader f sheet = inr ws ->
  AddShape f h sheet cell (Some l) = Returned (None, f', h') ->
  exists (a : xdrCellAnchor.t) (sp : xdrSp.t),
    lastAnchor f' (route f sheet ws).1.2 = Some a /\
    xdrCellAnchor.Sp a = Some sp /\
    xdrCellAnchor.ClientData a =
      Some (xdrClientData.Build
              (default false (GraphicOptions.Locked (Shape.Format s)))
              (default true (GraphicOptions.PrintObject (Shape.Format s)))) /\
    xlsxSpPr.Ln (xdrSp.SpPr sp) =
      (let width := default defaultShapeLineWidth (ShapeLine.Width (Shape.Line s)) in
       if F64.eqb width F64.one then xlsxLineProperties.zero
       else xlsxLineProperties.Build (ptToEMUs (route f sheet ws).2 width)) /\
    xdrCellAnchor.EditAs a = GraphicOptions.Positioning (Shape.Format s) /\
    xdrSp.Macro sp = Shape.Macro s /\
    xlsxPrstGeom.Prst (xlsxSpPr.PrstGeom (xdrSp.SpPr sp)) = Shape.Type_ s.
Proof.
  intros Hl Hws Hrun.
  destruct (AddShape_nil _ _ _ _ _ _ _ Hrun)
    as (l0 & s0 & ws0 & stored & Hopts & Hl0 & Hws0 & Hadd & Hf' & Hreg).
  injection Hopts as <-. rewrite Hl in Hl0. injection Hl0 as <-.
  rewrite Hws in Hws0. injection Hws0 as <-.
  destruct (addDrawingShape_nil _ _ _ _ _ _ _ _ Hadd)
    as [l0 o ? ? colStart rowStart colEnd rowEnd x2 y2 content cNvPrID lineWidth font
          locked printObject Hopts Hl0 _ _ _ Hwidth _ Hlocked Hprint _ Hstored].
  injection Hopts as <-. rewrite lookup_insert_eq in Hl0. injection Hl0 as <-.
  destruct (addContentTypePart_frame stored (route f sheet ws).1.1 "drawings")
    as (_ & _ & _ & Hd & _).
  rewrite <- Hf' in Hd.
  rewrite fillDefaults_fields in Hwidth, Hlocked, Hprint.
  cbn in Hwidth, Hlocked, Hprint.
  injection Hwidth as <-. injection Hlocked as <-. injection Hprint as <-.
  eexists _, _. split.
  { unfold lastAnchor. rewrite Hd, Hstored. apply lastAnchor_store. }
  split; [reflexivity|]. split; [reflexivity|].
  cbn [anchorOf shapeOf xdrCellAnchor.EditAs xdrSp.SpPr xlsxSpPr.Ln xdrSp.Macro
       xlsxSpPr.PrstGeom xlsxPrstGeom.Prst].
  split; [|rewrite (fillDefaults_fields s); repeat split].
  cbv zeta. destruct (F64.eqb _ F64.one); reflexivity.
Qed.

End TextBody.

(** The zero description: not locked, printed, and no line properties. *)
Lemma defaults_reach_the_anchor_witness :
  exists (f' : File.t) (h' : shapes),
    let h : shapes := {[ 0%nat := Sample.blank ]} in
    let f := Sample.book in
    let ws := xlsxWorksheet.Build None [] in
    let s := Sample.blank in
    h !! 0%nat = Some s /\
    workSheetReader f "Sheet1" = inr ws /\
    AddShape f h "Sheet1" "G6" (Some 0%nat) = Returned (None, f', h') /\
    exists (a : xdrCellAnchor.t) (sp : xdrSp.t),
      lastAnchor f' (route f "Sheet1" ws).1.2 = Some a /\
      xdrCellAnchor.Sp a = Some sp /\
      xdrCellAnchor.ClientData a =
        Some (xdrClientData.Build
                (default false (GraphicOptions.Locked (Shape.Format s)))
                (default true (GraphicOptions.PrintObject (Shape.Format s)))) /\
      xlsxSpPr.Ln (xdrSp.SpPr sp) =
        (let width := default defaultShapeLineWidth (ShapeLine.Width (Shape.Line s)) in
         if F64.eqb width F64.one then xlsxLineProperties.zero
         else xlsxLineProperties.Build (ptToEMUs (route f "Sheet1" ws).2 width)) /\
      xdrCellAnchor.EditAs a = GraphicOptions.Positioning (Shape.Format s) /\
      xdrSp.Macro sp = Shape.Macro s /\
      xlsxPrstGeom.Prst (xlsxSpPr.PrstGeom (xdrSp.SpPr sp)) = Shape.Type_ s.
Proof.
  eexists _, _. intros h f ws s.
  split; [reflexivity|]. split; [vm_compute; reflexivity|].
  split; [vm_compute; reflexivity|].
  eapply (defaults_reach_the_anchor f h "Sheet1" "G6" 0%nat s ws).
  - reflexivity.
  - vm_compute. reflexivity.
  - vm_compute. reflexivity.
Defined.

(** The shape of the documentation of [AddShape]. *)
Lemma runs_well_formed_witness :
  exists (f' : File.t) (h' : shapes),
    addDrawingShape Sample.book Sample.store "Sheet1" Sample.part "G6" (Some 0%nat)
      = Returned (None, f', h') /\
    exists sp : xdrSp.t,
      lastShape f' Sample.part = Some sp /\
      xdrTxBody.P (xdrSp.TxBody sp) <> [] /\
      Forall
        (fun paragraph : aP.t =>
           aR.T (aP.R paragraph) <> "" /\
           aRPr.U (aR.RPr (aP.R paragraph)) ∈ supportedDrawingUnderlineTypes /\
           aRPr.Lang (aR.RPr (aP.R paragraph)) = "en-US" /\
           aRPr.AltLang (aR.RPr (aP.R paragraph)) = "en-US" /\
           aEndParaRPr.Lang (aP.EndParaRPr paragraph) = "en-US" /\
           is_Some (aRPr.Latin (aR.RPr (aP.R paragraph))))
        (xdrTxBody.P (xdrSp.TxBody sp)).
Proof.
  eexists _, _. split; [vm_compute; reflexivity|].
  eapply (runs_well_formed Sample.book Sample.store "Sheet1" Sample.part "G6" (Some 0%nat)).
  vm_compute. reflexivity.
Defined.

(** ** Colors (lines 469 to 486) *)

Lemma upperByte_idempotent (c : ascii) : upperByte (upperByte c) = upperByte c.
Proof. destruct c as [[] [] [] [] [] [] [] []]; reflexivity. Qed.

Lemma upperByte_below (c : ascii) :
  (byte_val (upperByte c) <? 128)%N = (byte_val c <? 128)%N.
Proof. destruct c as [[] [] [] [] [] [] [] []]; reflexivity. Qed.

Lemma mapBytes_upper_idempotent (s : string) :
  mapBytes upperByte (mapBytes upperByte s) = mapBytes upperByte s.
Proof.
  induction s as [|c s IH]; [reflexivity|].
  cbn [mapBytes]. rewrite upperByte_idempotent, IH. reflexivity.
Qed.

Lemma isASCII_upper (s : string) : isASCII (mapBytes upperByte s) = isASCII s.
Proof.
  unfold isASCII. induction s as [|c s IH]; [reflexivity|].
  cbn [mapBytes allBytes]. rewrite upperByte_below, IH. reflexivity.
Qed.

Section Colors.
Context `{Externals}.

(** X13: for a color of ASCII bytes [setShapeRef] gives the same reference
    whether the letters are in upper case or not, and, when the color is
    not empty, whether it has a ['#'] in front or not. *)
Theorem setShapeRef_case_and_hash (color : string) (i : Z) :
  isASCII color = true ->
  setShapeRef (mapBytes upperByte color) i = setShapeRef color i /\
  (color <> "" -> setShapeRef (String "#" color) i = setShapeRef color i).
Proof.
  intros Hascii. split.
  - assert (Hsame : normalizeColor (mapBytes upperByte color) = normalizeColor color).
    { unfold normalizeColor, ToUpper.
      rewrite isASCII_upper, Hascii, mapBytes_upper_idempotent. reflexivity. }
    unfold setShapeRef. rewrite Hsame. destruct color; reflexivity.
  - intros Hne. destruct color as [|c s]; [congruence|].
    unfold setShapeRef, normalizeColor, ToUpper. cbn [String.eqb].
    assert (Hhash : isASCII (String "#" (String c s)) = true) by exact Hascii.
    rewrite Hhash, Hascii, !ReplaceAll_hash. reflexivity.
Qed.

(** X14: a color that is not empty and made of ['#'] only is not taken as
    no color: [setShapeRef] returns the reference with index [i] that
    carries the empty string, which is not the reference it returns for
    the empty color unless [i] is 0. *)
Theorem setShapeRef_only_hashes (color : string) (i : Z) :
  color <> "" ->
  allBytes (fun c => Ascii.eqb "#" c) color = true ->
  setShapeRef color i =
    aRef.Build i None (Some (attrValString.Build (Some ""))) /\
  (i <> 0 -> setShapeRef color i <> setShapeRef "" i).
Proof.
  intros Hne Hall.
  assert (Hascii : isASCII color = true).
  { unfold isASCII. clear Hne. induction color as [|c s IH]; [reflexivity|].
    cbn [allBytes] in *. apply andb_prop in Hall as [Hc Hs].
    apply Ascii.eqb_eq in Hc. subst c. rewrite (IH Hs). reflexivity. }
  assert (Hnone : filterBytes notHash (mapBytes upperByte color) = "").
  { clear Hne Hascii. induction color as [|c s IH]; [reflexivity|].
    cbn [allBytes] in Hall. apply andb_prop in Hall as [Hc Hs].
    apply Ascii.eqb_eq in Hc. subst c. cbn. exact (IH Hs). }
  assert (Hform : setShapeRef color i =
                  aRef.Build i None (Some (attrValString.Build (Some "")))).
  { destruct color as [|c s]; [congruence|].
    unfold setShapeRef, normalizeColor, ToUpper. cbn [String.eqb].
    rewrite Hascii, ReplaceAll_hash, Hnone. reflexivity. }
  split; [exact Hform|]. rewrite Hform. intros Hi. cbn. congruence.
Qed.

End Colors.

(** The line color of the documentation of [AddShape], in lower case. *)
Lemma setShapeRef_case_and_hash_witness :
  isASCII "4286f4" = true /\
  setShapeRef (mapBytes upperByte "4286f4") 2 = setShapeRef "4286f4" 2 /\
  ("4286f4" <> "" -> setShapeRef (String "#" "4286f4") 2 = setShapeRef "4286f4" 2).
Proof.
  split; [reflexivity|].
  apply (setShapeRef_case_and_hash "4286f4" 2). reflexivity.
Defined.

(** The color ["#"]. *)
Lemma setShapeRef_only_hashes_witness :
  "#" <> "" /\
  allBytes (fun c => Ascii.eqb "#" c) "#" = true /\
  setShapeRef "#" 1 = aRef.Build 1 None (Some (attrValString.Build (Some ""))) /\
  (1 <> 0 -> setShapeRef "#" 1 <> setShapeRef "" 1).
Proof.
  split; [discriminate|]. split; [reflexivity|].
  apply (setShapeRef_only_hashes "#" 1); [discriminate|reflexivity].
Defined.
